(** * EduFlow: tasks, flashcards, Pomodoro timer and storage wrapper

    A shallow embedding of the state-carrying core of the EduFlow scripts
    (core.js, tasks.js, flashcards.js, pomodoro.js) and the properties
    that the design document states about it.

    Conventions of the model.
    - JavaScript numbers are the integers ([Int z]) plus [NaN].  The model
      is exact for the safe integers (|z| < 2^53); rounding, fractions,
      infinities and the sign of zero are not represented.
    - Values are plain data: primitives, arrays and objects, as they come
      out of forms and of JSON.parse.  An object is a finite map from
      property names to values; reading a missing property is [VUndefined].
      Objects convert to strings and numbers as plain objects do, through
      the methods of Object.prototype: an object with a property of its own
      named toString or valueOf is not represented.
    - JSON.parse, JSON.stringify, the string-to-number conversion and
      Date.prototype.toISOString are host built-ins: the development is
      parametric in them (class [Host]).
    - The three manager singletons, localStorage, the console, the clock
      and the interval timers live in one record [Heap]; every method is a
      computation over it that either returns or throws.
    - The page is taken to hold the elements that the scripts look up, so
      DOM writes, alert and the toasts succeed and touch none of that
      state.  What the rendering methods compute from the state before they
      write is modelled where it can throw: createTaskHTML calls
      toUpperCase on the priority of every task it shows, and
      displayCurrentCard reads the card under the cursor.
    - Strings are sequences of bytes, with characters outside ASCII in
      UTF-8.
    - Tasks and flashcards are records with the fields that addTask and
      addFlashcard give them; reading them back from storage is not
      modelled.  The session stats stay an object, as [load] merges
      whatever the stored record holds. *)

From Stdlib Require Import ZArith String Ascii List DecimalString Lia.
From stdpp Require Import gmap strings list fin_maps.

Open Scope string_scope.
Open Scope Z_scope.

(* ===================================================================== *)
(** ** Numbers and values *)
(* ===================================================================== *)

Inductive number : Type :=
| NaN
| Int (z : Z).

#[warnings="-register-all"]
Inductive value : Type :=
| VUndefined
| VNull
| VBool (b : bool)
| VNum (n : number)
| VStr (s : string)
| VArr (xs : list value)
| VObj (props : gmap string value).

(** A thrown exception: constructor name and message. *)
Record exn : Type := Exn { exn_name : string; exn_message : string }.

Inductive result (A : Type) : Type :=
| Normal (a : A)
| Throw (e : exn).
Arguments Normal {A} a.
Arguments Throw {A} e.

Module Num.

Definition add (a b : number) : number :=
  match a, b with
  | Int x, Int y => Int (x + y)
  | _, _ => NaN
  end.

Definition sub (a b : number) : number :=
  match a, b with
  | Int x, Int y => Int (x - y)
  | _, _ => NaN
  end.

Definition mul (a b : number) : number :=
  match a, b with
  | Int x, Int y => Int (x * y)
  | _, _ => NaN
  end.

(** The [%] operator: the result takes the sign of the dividend and a
    zero divisor gives NaN. *)
Definition rem (a b : number) : number :=
  match a, b with
  | Int x, Int y => if y =? 0 then NaN else Int (Z.rem x y)
  | _, _ => NaN
  end.

(** Math.max on two arguments. *)
Definition max (a b : number) : number :=
  match a, b with
  | Int x, Int y => Int (Z.max x y)
  | _, _ => NaN
  end.

(** [a > b] *)
Definition gt (a b : number) : bool :=
  match a, b with
  | Int x, Int y => y <? x
  | _, _ => false
  end.

(** [a === b] on numbers: NaN is not equal to itself. *)
Definition eqb (a b : number) : bool :=
  match a, b with
  | Int x, Int y => x =? y
  | _, _ => false
  end.

Definition truthy (a : number) : bool :=
  match a with
  | Int x => negb (x =? 0)
  | NaN => false
  end.

(** Number::toString, radix 10. *)
Definition to_string (a : number) : string :=
  match a with
  | Int x => NilZero.string_of_int (Z.to_int x)
  | NaN => "NaN"
  end.

End Num.

(** Property read [o.k] on an object. *)
Definition get_prop (o : gmap string value) (k : string) : value :=
  default VUndefined (o !! k).

Definition ToBoolean (v : value) : bool :=
  match v with
  | VUndefined | VNull => false
  | VBool b => b
  | VNum n => Num.truthy n
  | VStr s => negb (String.eqb s "")
  | VArr _ | VObj _ => true
  end.

(** [a || b] *)
Definition js_or (a b : value) : value :=
  if ToBoolean a then a else b.

(** ToString.  An array prints its elements joined by commas, with null
    and undefined elements printed empty; a plain object prints as
    [object Object]. *)
Fixpoint ToString (v : value) : string :=
  match v with
  | VUndefined => "undefined"
  | VNull => "null"
  | VBool true => "true"
  | VBool false => "false"
  | VNum n => Num.to_string n
  | VStr s => s
  | VArr xs =>
      let elem x :=
        match x with
        | VUndefined | VNull => ""
        | _ => ToString x
        end in
      (fix join (l : list value) : string :=
         match l with
         | [] => ""
         | [x] => elem x
         | x :: rest => elem x +:+ "," +:+ join rest
         end) xs
  | VObj _ => "[object Object]"
  end.

(** ToPrimitive: arrays and plain objects convert through toString. *)
Definition ToPrimitive (v : value) : value :=
  match v with
  | VArr _ | VObj _ => VStr (ToString v)
  | _ => v
  end.

(* ===================================================================== *)
(** ** parseInt *)
(* ===================================================================== *)

Module ParseInt.

(** StrWhiteSpaceChar, the white space and the line terminators that
    parseInt skips, by the bytes of the character:
    TAB, LF, VT, FF, CR and SP in one byte; *)
Definition is_white_space (c : ascii) : bool :=
  let n := nat_of_ascii c in
  ((9 <=? n)%nat && (n <=? 13)%nat) || (n =? 32)%nat.

(** U+00A0 (no-break space) in two bytes; *)
Definition is_white_space2 (c1 c2 : ascii) : bool :=
  (nat_of_ascii c1 =? 194)%nat && (nat_of_ascii c2 =? 160)%nat.

(** U+1680, U+2000 to U+200A, U+2028, U+2029, U+202F, U+205F, U+3000 and
    U+FEFF in three bytes. *)
Definition is_white_space3 (c1 c2 c3 : ascii) : bool :=
  let a := nat_of_ascii c1 in
  let b := nat_of_ascii c2 in
  let c := nat_of_ascii c3 in
  ((a =? 225) && (b =? 154) && (c =? 128))%nat
  || ((a =? 226) && (b =? 128)
      && (((128 <=? c) && (c <=? 138)) || (c =? 168) || (c =? 169) || (c =? 175)))%nat
  || ((a =? 226) && (b =? 129) && (c =? 159))%nat
  || ((a =? 227) && (b =? 128) && (c =? 128))%nat
  || ((a =? 239) && (b =? 187) && (c =? 191))%nat.

Fixpoint trim_start (s : string) : string :=
  match s with
  | EmptyString => s
  | String c1 rest1 =>
      if is_white_space c1 then trim_start rest1
      else
        match rest1 with
        | EmptyString => s
        | String c2 rest2 =>
            if is_white_space2 c1 c2 then trim_start rest2
            else
              match rest2 with
              | EmptyString => s
              | String c3 rest3 =>
                  if is_white_space3 c1 c2 c3 then trim_start rest3 else s
              end
        end
  end.

(** Value of a character as a digit: 0-9, then a-z and A-Z for 10-35. *)
Definition digit_value (c : ascii) : option Z :=
  let n := Z.of_nat (nat_of_ascii c) in
  if (48 <=? n) && (n <=? 57) then Some (n - 48)
  else if (97 <=? n) && (n <=? 122) then Some (n - 97 + 10)
  else if (65 <=? n) && (n <=? 90) then Some (n - 65 + 10)
  else None.

(** The longest prefix of radix-[R] digits, as an integer; [acc] is
    [None] while no digit has been read. *)
Fixpoint digits_prefix (R : Z) (s : string) (acc : option Z) : option Z :=
  match s with
  | String c rest =>
      match digit_value c with
      | Some d =>
          if d <? R then digits_prefix R rest (Some (default 0 acc * R + d))
          else acc
      | None => acc
      end
  | EmptyString => acc
  end.

Definition strip_sign (s : string) : Z * string :=
  match s with
  | String "-" rest => (-1, rest)
  | String "+" rest => (1, rest)
  | _ => (1, s)
  end.

Definition strip_hex_prefix (s : string) : Z * string :=
  match s with
  | String "0" (String "x" rest) => (16, rest)
  | String "0" (String "X" rest) => (16, rest)
  | _ => (10, s)
  end.

(** parseInt(string) with no radix argument. *)
Definition of_string (input : string) : number :=
  let '(sign, s1) := strip_sign (trim_start input) in
  let '(R, s2) := strip_hex_prefix s1 in
  match digits_prefix R s2 None with
  | None => NaN
  | Some m => Int (sign * m)
  end.

End ParseInt.

Definition parseInt (v : value) : number :=
  ParseInt.of_string (ToString v).

(* ===================================================================== *)
(** ** Host built-ins *)
(* ===================================================================== *)

Class Host : Type := {
  (** JSON.parse: the parsed value, or the SyntaxError it throws. *)
  JSON_parse : string -> result value;
  (** JSON.stringify: the text, [None] when it returns undefined, or the
      TypeError it throws. *)
  JSON_stringify : value -> result (option string);
  (** StringToNumber, the conversion behind ToNumber on strings. *)
  StringToNumber : string -> number;
  (** The ISO-8601 rendering of an instant given in epoch milliseconds. *)
  Date_toISOString : Z -> string;
}.

(* ===================================================================== *)
(** ** Program state *)
(* ===================================================================== *)

(** A task object, as [addTask] builds it.  The fields copied from the
    caller's data keep whatever value the caller gave. *)
Module Task.
Record t : Type := {
  id : Z;
  title : value;
  desc : value;
  date : value;
  time : number;
  priority : value;
  completed : bool;
  createdAt : string;
}.

(** The object handed to JSON.stringify. *)
Definition to_value (x : t) : value :=
  VObj (<["id" := VNum (Int (id x))]>
       (<["title" := title x]>
       (<["desc" := desc x]>
       (<["date" := date x]>
       (<["time" := VNum (time x)]>
       (<["priority" := priority x]>
       (<["completed" := VBool (completed x)]>
       (<["createdAt" := VStr (createdAt x)]> ∅)))))))).
End Task.

(** A flashcard object, as [addFlashcard] builds it. *)
Module Flashcard.
Record t : Type := {
  id : Z;
  subject : value;
  question : value;
  answer : value;
  reviews : Z;
  lastReviewed : option string;
}.

Definition to_value (x : t) : value :=
  VObj (<["id" := VNum (Int (id x))]>
       (<["subject" := subject x]>
       (<["question" := question x]>
       (<["answer" := answer x]>
       (<["reviews" := VNum (Int (reviews x))]>
       (<["lastReviewed" := from_option VStr VNull (lastReviewed x)]> ∅)))))).
End Flashcard.

(** Fields of a TaskManager instance. *)
Module TM.
Record t : Type := {
  tasks : list Task.t;
  currentFilter : string;
}.
End TM.

(** Fields of a FlashcardManager instance. *)
Module FM.
Record t : Type := {
  flashcards : list Flashcard.t;
  currentCardIndex : number;
}.
End FM.

(** The timer modes: 'focus', 'short', 'long'. *)
Inductive mode : Type := focus | short | long.

#[global] Instance mode_eq_dec : EqDecision mode.
Proof. solve_decision. Defined.

(** Fields of a PomodoroManager instance.  [modes] is assigned once in the
    constructor and never written again; it is the constant table
    [PM.modes] below. *)
Module PM.
Record t : Type := {
  time : number;
  interval : option nat;
  isRunning : bool;
  currentMode : mode;
  stats : gmap string value;
}.

(** this.modes[m].time, in minutes *)
Definition modes (m : mode) : Z :=
  match m with
  | focus => 25
  | short => 5
  | long => 15
  end.
End PM.

(** window.localStorage.  [available] is false when access to the storage
    is denied (both reads and writes then throw); [accepts items k v]
    tells whether writing [v] under [k] fits the quota. *)
Record LocalStorage : Type := {
  items : gmap string string;
  available : bool;
  accepts : gmap string string -> string -> string -> bool;
}.

Record Heap : Type := {
  localStorage : LocalStorage;
  (** arguments of the console.error calls so far, latest first *)
  console : list (string * exn);
  (** the readings that the coming clock reads will return *)
  clock : nat -> Z;
  (** handles of the intervals that are set and not cleared *)
  timers : gset nat;
  nextTimer : nat;
  taskManager : TM.t;
  flashcardManager : FM.t;
  pomodoroManager : PM.t;
}.

Definition with_localStorage (f : LocalStorage -> LocalStorage) (h : Heap) : Heap :=
  {| localStorage := f (localStorage h); console := console h; clock := clock h;
     timers := timers h; nextTimer := nextTimer h;
     taskManager := taskManager h; flashcardManager := flashcardManager h;
     pomodoroManager := pomodoroManager h |}.

Definition with_console (f : list (string * exn) -> list (string * exn)) (h : Heap) : Heap :=
  {| localStorage := localStorage h; console := f (console h); clock := clock h;
     timers := timers h; nextTimer := nextTimer h;
     taskManager := taskManager h; flashcardManager := flashcardManager h;
     pomodoroManager := pomodoroManager h |}.

Definition with_clock (f : (nat -> Z) -> nat -> Z) (h : Heap) : Heap :=
  {| localStorage := localStorage h; console := console h; clock := f (clock h);
     timers := timers h; nextTimer := nextTimer h;
     taskManager := taskManager h; flashcardManager := flashcardManager h;
     pomodoroManager := pomodoroManager h |}.

Definition with_timers (f : gset nat -> gset nat) (g : nat -> nat) (h : Heap) : Heap :=
  {| localStorage := localStorage h; console := console h; clock := clock h;
     timers := f (timers h); nextTimer := g (nextTimer h);
     taskManager := taskManager h; flashcardManager := flashcardManager h;
     pomodoroManager := pomodoroManager h |}.

Definition with_taskManager (f : TM.t -> TM.t) (h : Heap) : Heap :=
  {| localStorage := localStorage h; console := console h; clock := clock h;
     timers := timers h; nextTimer := nextTimer h;
     taskManager := f (taskManager h); flashcardManager := flashcardManager h;
     pomodoroManager := pomodoroManager h |}.

Definition with_flashcardManager (f : FM.t -> FM.t) (h : Heap) : Heap :=
  {| localStorage := localStorage h; console := console h; clock := clock h;
     timers := timers h; nextTimer := nextTimer h;
     taskManager := taskManager h; flashcardManager := f (flashcardManager h);
     pomodoroManager := pomodoroManager h |}.

Definition with_pomodoroManager (f : PM.t -> PM.t) (h : Heap) : Heap :=
  {| localStorage := localStorage h; console := console h; clock := clock h;
     timers := timers h; nextTimer := nextTimer h;
     taskManager := taskManager h; flashcardManager := flashcardManager h;
     pomodoroManager := f (pomodoroManager h) |}.

(* ===================================================================== *)
(** ** Computations: state and exceptions *)
(* ===================================================================== *)

(** A computation runs on a heap and ends with a value or a thrown
    exception; the heap it leaves behind is kept in both cases. *)
Definition M (A : Type) : Type := Heap -> result A * Heap.

Definition ret {A} (a : A) : M A := fun h => (Normal a, h).

Definition bind {A B} (c : M A) (k : A -> M B) : M B :=
  fun h =>
    match c h with
    | (Normal a, h') => k a h'
    | (Throw e, h') => (Throw e, h')
    end.

Definition throw {A} (e : exn) : M A := fun h => (Throw e, h).

(** try { body } catch (err) { handler err } *)
Definition try_catch {A} (body : M A) (handler : exn -> M A) : M A :=
  fun h =>
    match body h with
    | (Normal a, h') => (Normal a, h')
    | (Throw e, h') => handler e h'
    end.

Definition gets {A} (f : Heap -> A) : M A := fun h => (Normal (f h), h).

Definition modify (f : Heap -> Heap) : M unit := fun h => (Normal tt, f h).

(** The outcome of a pure built-in, as a computation. *)
Definition lift {A} (r : result A) : M A := fun h => (r, h).

Notation "'do' x <- c ; k" := (bind c (fun x => k))
  (at level 10, x name, c at level 100, k at level 200,
   format "'[v' 'do'  x  <-  c ; '/' k ']'").

(** The heap and the outcome of running a computation. *)
Definition heap_after {A} (c : M A) (h : Heap) : Heap := snd (c h).
Definition outcome {A} (c : M A) (h : Heap) : result A := fst (c h).

(* ===================================================================== *)
(** ** The browser window: storage area, console, clock, intervals *)
(* ===================================================================== *)

Module LS.
(** Evaluating [localStorage]: throws when the storage is denied. *)
Definition access : M unit :=
  fun h =>
    if available (localStorage h) then (Normal tt, h)
    else (Throw (Exn "SecurityError" "The operation is insecure."), h).

Definition getItem (key : string) : M (option string) :=
  gets (fun h => items (localStorage h) !! key).

Definition put (key text : string) (ls : LocalStorage) : LocalStorage :=
  {| items := <[key := text]> (items ls);
     available := available ls;
     accepts := accepts ls |}.

Definition setItem (key text : string) : M unit :=
  fun h =>
    let ls := localStorage h in
    if accepts ls (items ls) key text
    then (Normal tt, with_localStorage (put key text) h)
    else (Throw (Exn "QuotaExceededError" "The quota has been exceeded."), h).
End LS.

Module Console.
Definition error (msg : string) (err : exn) : M unit :=
  modify (with_console (cons (msg, err))).
End Console.

Module Clock.
(** Date.now(), and the instant that [new Date()] captures. *)
Definition now : M Z :=
  fun h => (Normal (clock h 0%nat), with_clock (fun c n => c (S n)) h).
End Clock.

Module Timers.
Definition setInterval : M nat :=
  fun h =>
    let handle := nextTimer h in
    (Normal handle, with_timers (fun s => {[handle]} ∪ s) S h).

Definition clearInterval (handle : option nat) : M unit :=
  match handle with
  | Some n => modify (with_timers (fun s => s ∖ {[n]}) (fun next => next))
  | None => ret tt
  end.
End Timers.

(* ===================================================================== *)
(** ** core.js *)
(* ===================================================================== *)

Module StorageKeys.
Definition TASKS : string := "eduflow_tasks".
Definition FLASHCARDS : string := "eduflow_flashcards".
Definition USER : string := "eduflow_user".
Definition MOODS : string := "eduflow_moods".
Definition POMODORO_STATS : string := "eduflow_pomodoro".
End StorageKeys.

Module Storage.

Definition get {host : Host} (key : string) : M value :=
  try_catch
    (do _ <- LS.access;
     do data <- LS.getItem key;
     match data with
     | Some text =>
         if String.eqb text "" then ret VNull else lift (JSON_parse text)
     | None => ret VNull
     end)
    (fun err =>
       do _ <- Console.error "Error reading from storage:" err;
       ret VNull).

Definition set {host : Host} (key : string) (v : value) : M unit :=
  try_catch
    (do _ <- LS.access;
     do text <- lift (JSON_stringify v);
     LS.setItem key (default "undefined" text))
    (fun err => Console.error "Error writing to storage:" err).

End Storage.

Module AchievementSystem.
(** Toast in the page: DOM only. *)
Definition show (title description : string) : M unit := ret tt.
End AchievementSystem.

(** window.alert: DOM only. *)
Definition alert (message : string) : M unit := ret tt.

(* ===================================================================== *)
(** ** Operators on values *)
(* ===================================================================== *)

Definition ToNumber {host : Host} (v : value) : number :=
  match v with
  | VUndefined => NaN
  | VNull => Int 0
  | VBool true => Int 1
  | VBool false => Int 0
  | VNum n => n
  | VStr s => StringToNumber s
  | VArr _ | VObj _ => StringToNumber (ToString v)
  end.

(** [a + b]: concatenation as soon as one side is a string. *)
Definition js_add {host : Host} (a b : value) : value :=
  let pa := ToPrimitive a in
  let pb := ToPrimitive b in
  match pa, pb with
  | VStr s, _ => VStr (s +:+ ToString pb)
  | _, VStr s => VStr (ToString pa +:+ s)
  | _, _ => VNum (Num.add (ToNumber pa) (ToNumber pb))
  end.

(** [a * b] *)
Definition js_mul {host : Host} (a b : value) : number :=
  Num.mul (ToNumber a) (ToNumber b).

(** [o.k++] and [o.k = v] on an object held in a field. *)
Definition set_prop (k : string) (v : value) (o : gmap string value) : gmap string value :=
  <[k := v]> o.

Definition incr_prop {host : Host} (k : string) (o : gmap string value) : gmap string value :=
  set_prop k (VNum (Num.add (ToNumber (get_prop o k)) (Int 1))) o.

(** The own enumerable properties that an object spread copies. *)
Definition index_key (i : nat) : string :=
  NilZero.string_of_uint (Nat.to_uint i).

Fixpoint chars (s : string) : list value :=
  match s with
  | String c rest => VStr (String c EmptyString) :: chars rest
  | EmptyString => []
  end.

Definition indexed (xs : list value) : gmap string value :=
  list_to_map (imap (fun i x => (index_key i, x)) xs).

Definition own_props (v : value) : gmap string value :=
  match v with
  | VObj props => props
  | VArr xs => indexed xs
  | VStr s => indexed (chars s)
  | _ => ∅
  end.

(** [{ ...a, ...b }] for an object [a]: the properties of [b] win. *)
Definition spread (a : gmap string value) (b : value) : gmap string value :=
  own_props b ∪ a.

(* ===================================================================== *)
(** ** tasks.js *)
(* ===================================================================== *)

Module TaskManager.

(** [t.id === id]: a number is strictly equal to that same number only. *)
Definition id_is (id : value) (t : Task.t) : bool :=
  match id with
  | VNum (Int z) => Task.id t =? z
  | _ => false
  end.

Definition set_tasks (ts : list Task.t) (m : TM.t) : TM.t :=
  {| TM.tasks := ts; TM.currentFilter := TM.currentFilter m |}.

Definition save {host : Host} : M unit :=
  do ts <- gets (fun h => TM.tasks (taskManager h));
  Storage.set StorageKeys.TASKS (VArr (map Task.to_value ts)).

(** [v === s] for a string literal [s]. *)
Definition is_string (s : string) (v : value) : bool :=
  match v with
  | VStr x => String.eqb x s
  | _ => false
  end.

(** The tasks that the current filter lets through. *)
Definition filtered (m : TM.t) : list Task.t :=
  if String.eqb (TM.currentFilter m) "pendientes"
  then List.filter (fun t => negb (Task.completed t)) (TM.tasks m)
  else if String.eqb (TM.currentFilter m) "completadas"
  then List.filter (fun t => Task.completed t) (TM.tasks m)
  else if String.eqb (TM.currentFilter m) "alta"
  then List.filter (fun t => is_string "alta" (Task.priority t)) (TM.tasks m)
  else TM.tasks m.

Definition getFilteredTasks : M (list Task.t) :=
  do m <- gets taskManager;
  ret (filtered m).

(** The markup of one task.  Its text goes to the page; what matters here
    is [task.priority.toUpperCase()]: a string has the method, undefined
    and null have no properties to read, and on every other value the
    property is undefined, which cannot be called. *)
Definition createTaskHTML (task : Task.t) : result unit :=
  match Task.priority task with
  | VStr _ => Normal tt
  | VUndefined =>
      Throw (Exn "TypeError"
               "Cannot read properties of undefined (reading 'toUpperCase')")
  | VNull =>
      Throw (Exn "TypeError" "Cannot read properties of null (reading 'toUpperCase')")
  | _ => Throw (Exn "TypeError" "task.priority.toUpperCase is not a function")
  end.

(** [filtered.map(task => this.createTaskHTML(task))]: the tasks in their
    order, up to the first whose markup throws. *)
Fixpoint map_createTaskHTML (ts : list Task.t) : result unit :=
  match ts with
  | [] => Normal tt
  | task :: rest =>
      match createTaskHTML task with
      | Normal _ => map_createTaskHTML rest
      | Throw e => Throw e
      end
  end.

(** DOM only. *)
Definition updateStats : M unit := ret tt.
Definition bindTaskActionButtons : M unit := ret tt.
Definition populatePomodoroTasks : M unit := ret tt.

Definition renderTasks : M unit :=
  do shown <- getFilteredTasks;
  match shown with
  | [] => ret tt
  | _ =>
      do _ <- lift (map_createTaskHTML shown);
      do _ <- updateStats;
      do _ <- bindTaskActionButtons;
      populatePomodoroTasks
  end.

Definition addTask {host : Host} (taskData : gmap string value) : M Task.t :=
  if negb (ToBoolean (get_prop taskData "title"))
     || negb (ToBoolean (get_prop taskData "date"))
  then throw (Exn "Error" "Title and date are required")
  else
    do now <- Clock.now;
    do created <- Clock.now;
    let task :=
      {| Task.id := now;
         Task.title := get_prop taskData "title";
         Task.desc := js_or (get_prop taskData "desc") (VStr "");
         Task.date := get_prop taskData "date";
         Task.time :=
           (let n := parseInt (get_prop taskData "time") in
            if Num.truthy n then n else Int 25);
         Task.priority := js_or (get_prop taskData "priority") (VStr "media");
         Task.completed := false;
         Task.createdAt := Date_toISOString created |} in
    do _ <- modify (with_taskManager (fun m => set_tasks (TM.tasks m ++ [task]) m));
    do _ <- save;
    do _ <- AchievementSystem.show "📝 Tarea Agregada" "Nueva tarea añadida a tu lista";
    do _ <- renderTasks;
    ret task.

Definition toggle (t : Task.t) : Task.t :=
  {| Task.id := Task.id t; Task.title := Task.title t; Task.desc := Task.desc t;
     Task.date := Task.date t; Task.time := Task.time t;
     Task.priority := Task.priority t;
     Task.completed := negb (Task.completed t);
     Task.createdAt := Task.createdAt t |}.

(** The array with its first element that satisfies [p] replaced. *)
Fixpoint update_first (p : Task.t -> bool) (f : Task.t -> Task.t)
    (ts : list Task.t) : list Task.t :=
  match ts with
  | [] => []
  | t :: rest => if p t then f t :: rest else t :: update_first p f rest
  end.

Definition toggleTask {host : Host} (id : value) : M unit :=
  do ts <- gets (fun h => TM.tasks (taskManager h));
  match List.find (id_is id) ts with
  | Some task =>
      do _ <- modify (with_taskManager (set_tasks (update_first (id_is id) toggle ts)));
      do _ <- (if negb (Task.completed task)
               then AchievementSystem.show "✅ Tarea Completada" "+10 XP ganados"
               else ret tt);
      do _ <- save;
      renderTasks
  | None => ret tt
  end.

Definition deleteTask {host : Host} (id : value) : M unit :=
  do _ <- modify (with_taskManager (fun m =>
            set_tasks (List.filter (fun t => negb (id_is id t)) (TM.tasks m)) m));
  do _ <- save;
  renderTasks.



End TaskManager.

(* ===================================================================== *)
(** ** flashcards.js *)
(* ===================================================================== *)

Module FlashcardManager.

Definition set_index (i : number) (m : FM.t) : FM.t :=
  {| FM.flashcards := FM.flashcards m; FM.currentCardIndex := i |}.

Definition set_flashcards (cs : list Flashcard.t) (m : FM.t) : FM.t :=
  {| FM.flashcards := cs; FM.currentCardIndex := FM.currentCardIndex m |}.

(** this.flashcards.length *)
Definition length_of (m : FM.t) : number :=
  Int (Z.of_nat (length (FM.flashcards m))).

(** The array position that a number names, if it names one. *)
Definition array_index (i : number) : option nat :=
  match i with
  | Int z => if z <? 0 then None else Some (Z.to_nat z)
  | NaN => None
  end.

(** this.flashcards[i]: undefined unless [i] is an index of the array. *)
Definition at_index (cs : list Flashcard.t) (i : number) : option (nat * Flashcard.t) :=
  match array_index i with
  | Some n =>
      match cs !! n with
      | Some card => Some (n, card)
      | None => None
      end
  | None => None
  end.

Definition save {host : Host} : M unit :=
  do cs <- gets (fun h => FM.flashcards (flashcardManager h));
  Storage.set StorageKeys.FLASHCARDS (VArr (map Flashcard.to_value cs)).

(** With no cards the empty state is shown.  Otherwise the markup reads
    the subject, the question and the answer of
    [this.flashcards[this.currentCardIndex]], which is undefined when the
    cursor names no card. *)
Definition displayCurrentCard : M unit :=
  do m <- gets flashcardManager;
  if (Z.of_nat (length (FM.flashcards m)) =? 0)
  then ret tt
  else
    match at_index (FM.flashcards m) (FM.currentCardIndex m) with
    | Some _ => ret tt
    | None =>
        throw (Exn "TypeError"
                 "Cannot read properties of undefined (reading 'subject')")
    end.

(** DOM only: the subjects are printed, whatever they are. *)
Definition renderSubjects : M unit := ret tt.

Definition renderCards : M unit :=
  do _ <- displayCurrentCard;
  renderSubjects.

Definition addFlashcard {host : Host} (cardData : gmap string value) : M Flashcard.t :=
  if negb (ToBoolean (get_prop cardData "subject"))
     || negb (ToBoolean (get_prop cardData "question"))
     || negb (ToBoolean (get_prop cardData "answer"))
  then throw (Exn "Error" "Subject, question and answer are required")
  else
    do now <- Clock.now;
    let card :=
      {| Flashcard.id := now;
         Flashcard.subject := get_prop cardData "subject";
         Flashcard.question := get_prop cardData "question";
         Flashcard.answer := get_prop cardData "answer";
         Flashcard.reviews := 0;
         Flashcard.lastReviewed := None |} in
    do _ <- modify (with_flashcardManager (fun m =>
              set_flashcards (FM.flashcards m ++ [card]) m));
    do _ <- save;
    do _ <- AchievementSystem.show "🎴 Flashcard Creada" "Nueva tarjeta añadida";
    do _ <- renderCards;
    ret card.

Definition nextCard : M unit :=
  do _ <- modify (with_flashcardManager (fun m =>
            set_index (Num.rem (Num.add (FM.currentCardIndex m) (Int 1))
                               (length_of m)) m));
  displayCurrentCard.

Definition previousCard : M unit :=
  do _ <- modify (with_flashcardManager (fun m =>
            set_index (Num.rem (Num.add (Num.sub (FM.currentCardIndex m) (Int 1))
                                        (length_of m))
                               (length_of m)) m));
  displayCurrentCard.

Definition reviewed (stamp : string) (c : Flashcard.t) : Flashcard.t :=
  {| Flashcard.id := Flashcard.id c; Flashcard.subject := Flashcard.subject c;
     Flashcard.question := Flashcard.question c;
     Flashcard.answer := Flashcard.answer c;
     Flashcard.reviews := Flashcard.reviews c + 1;
     Flashcard.lastReviewed := Some stamp |}.

Definition markReviewed {host : Host} : M unit :=
  do m <- gets flashcardManager;
  if (0 <? Z.of_nat (length (FM.flashcards m)))
  then
    match at_index (FM.flashcards m) (FM.currentCardIndex m) with
    | None =>
        throw (Exn "TypeError"
                 "Cannot read properties of undefined (reading 'reviews')")
    | Some (n, card) =>
        do stamp <- Clock.now;
        do _ <- modify (with_flashcardManager (set_flashcards
                  (<[n := reviewed (Date_toISOString stamp) card]> (FM.flashcards m))));
        do _ <- save;
        do _ <- AchievementSystem.show "📚 Repaso Completado" "+5 XP ganados";
        nextCard
    end
  else ret tt.

(** [f.subject === subject] for the subject name that the page passes. *)
Definition has_subject (subject : string) (c : Flashcard.t) : bool :=
  match Flashcard.subject c with
  | VStr s => String.eqb s subject
  | _ => false
  end.

(** The click on the flashcards tab: page work. *)
Definition showFlashcardsSection : M unit := ret tt.

(** [subjectCards[0]] is the first card of the collection with the
    subject, and indexOf finds that very object at the place where it
    stands. *)
Definition studySubject (subject : string) : M unit :=
  do m <- gets flashcardManager;
  match list_find (fun c => has_subject subject c = true) (FM.flashcards m) with
  | Some (i, _) =>
      do _ <- modify (with_flashcardManager (set_index (Int (Z.of_nat i))));
      do _ <- showFlashcardsSection;
      displayCurrentCard
  | None => ret tt
  end.

End FlashcardManager.

(* ===================================================================== *)
(** ** pomodoro.js *)
(* ===================================================================== *)

Module PomodoroManager.

Definition set_time (n : number) (m : PM.t) : PM.t :=
  {| PM.time := n; PM.interval := PM.interval m; PM.isRunning := PM.isRunning m;
     PM.currentMode := PM.currentMode m; PM.stats := PM.stats m |}.

Definition set_interval (i : option nat) (m : PM.t) : PM.t :=
  {| PM.time := PM.time m; PM.interval := i; PM.isRunning := PM.isRunning m;
     PM.currentMode := PM.currentMode m; PM.stats := PM.stats m |}.

Definition set_isRunning (b : bool) (m : PM.t) : PM.t :=
  {| PM.time := PM.time m; PM.interval := PM.interval m; PM.isRunning := b;
     PM.currentMode := PM.currentMode m; PM.stats := PM.stats m |}.

Definition set_currentMode (c : mode) (m : PM.t) : PM.t :=
  {| PM.time := PM.time m; PM.interval := PM.interval m;
     PM.isRunning := PM.isRunning m;
     PM.currentMode := c; PM.stats := PM.stats m |}.

Definition set_stats (s : gmap string value) (m : PM.t) : PM.t :=
  {| PM.time := PM.time m; PM.interval := PM.interval m;
     PM.isRunning := PM.isRunning m;
     PM.currentMode := PM.currentMode m; PM.stats := s |}.

Definition update_stats (f : gmap string value -> gmap string value) : M unit :=
  modify (with_pomodoroManager (fun m => set_stats (f (PM.stats m)) m)).

(** The fields that the constructor assigns before it calls [load]. *)
Definition initial : PM.t :=
  {| PM.time := Int (25 * 60);
     PM.interval := None;
     PM.isRunning := false;
     PM.currentMode := focus;
     PM.stats :=
       <["pomodoroCount" := VNum (Int 0)]>
       (<["totalFocusTime" := VNum (Int 0)]>
       (<["bestStreak" := VNum (Int 0)]>
       (<["currentStreak" := VNum (Int 0)]> ∅))) |}.

Definition load {host : Host} : M unit :=
  do savedStats <- Storage.get StorageKeys.POMODORO_STATS;
  if ToBoolean savedStats
  then update_stats (fun stats => spread stats savedStats)
  else ret tt.

Definition constructor {host : Host} : M unit :=
  do _ <- modify (with_pomodoroManager (fun _ => initial));
  load.

Definition save {host : Host} : M unit :=
  do stats <- gets (fun h => PM.stats (pomodoroManager h));
  Storage.set StorageKeys.POMODORO_STATS (VObj stats).

(** DOM only. *)
Definition updateDisplay : M unit := ret tt.
Definition updateTimerCircle : M unit := ret tt.
Definition updateStats : M unit := ret tt.
Definition setTimerLabel (text : string) : M unit := ret tt.
Definition activateModeButton (m : mode) : M unit := ret tt.

Definition labels (m : mode) : string :=
  match m with
  | focus => "Modo Focus"
  | short => "Pausa Corta"
  | long => "Pausa Larga"
  end.

Definition setMode {host : Host} (m : mode) (minutes : value) : M unit :=
  do _ <- modify (with_pomodoroManager (set_currentMode m));
  do _ <- modify (with_pomodoroManager (set_time (js_mul minutes (VNum (Int 60)))));
  do _ <- updateDisplay;
  do _ <- activateModeButton m;
  setTimerLabel (labels m).

(** The try block that shows the title of the task picked in the page
    only reads the task list and writes the label. *)
Definition start : M unit :=
  do running <- gets (fun h => PM.isRunning (pomodoroManager h));
  if running then ret tt
  else
    do _ <- modify (with_pomodoroManager (set_isRunning true));
    do _ <- setTimerLabel "⏱️ En progreso...";
    do handle <- Timers.setInterval;
    modify (with_pomodoroManager (set_interval (Some handle))).

Definition pause : M unit :=
  do _ <- modify (with_pomodoroManager (set_isRunning false));
  do handle <- gets (fun h => PM.interval (pomodoroManager h));
  do _ <- Timers.clearInterval handle;
  setTimerLabel "⏸️ Pausado".

Definition reset : M unit :=
  do _ <- pause;
  do _ <- modify (with_pomodoroManager (fun m =>
            set_time (Int (PM.modes (PM.currentMode m) * 60)) m));
  do _ <- updateDisplay;
  do _ <- updateTimerCircle;
  setTimerLabel "Presiona Iniciar".

Definition complete {host : Host} : M unit :=
  do _ <- pause;
  do current <- gets (fun h => PM.currentMode (pomodoroManager h));
  match current with
  | focus =>
      do _ <- update_stats (incr_prop "pomodoroCount");
      do _ <- update_stats (fun stats =>
                set_prop "totalFocusTime"
                  (js_add (get_prop stats "totalFocusTime") (VNum (Int (PM.modes focus))))
                  stats);
      do _ <- update_stats (incr_prop "currentStreak");
      do _ <- update_stats (fun stats =>
                set_prop "bestStreak"
                  (VNum (Num.max (ToNumber (get_prop stats "bestStreak"))
                                 (ToNumber (get_prop stats "currentStreak"))))
                  stats);
      do _ <- updateStats;
      do _ <- save;
      do _ <- AchievementSystem.show "🍅 Pomodoro Completado!" "+15 XP • ¡Excelente trabajo!";
      do count <- gets (fun h => get_prop (PM.stats (pomodoroManager h)) "pomodoroCount");
      if Num.eqb (Num.rem (ToNumber count) (Int 4)) (Int 0)
      then
        do _ <- alert "🎉 ¡4 Pomodoros! Toma una pausa larga (15 min)";
        setMode long (VNum (Int 15))
      else
        do _ <- alert "✅ ¡Pomodoro completado! Toma una pausa (5 min)";
        setMode short (VNum (Int 5))
  | short | long =>
      do _ <- alert "☕ Pausa terminada. ¡Volvamos al trabajo!";
      setMode focus (VNum (Int 25))
  end.

(** The callback that [start] hands to setInterval. *)
Definition onInterval {host : Host} : M unit :=
  do t <- gets (fun h => PM.time (pomodoroManager h));
  if Num.gt t (Int 0)
  then
    do _ <- modify (with_pomodoroManager (set_time (Num.sub t (Int 1))));
    do _ <- updateDisplay;
    updateTimerCircle
  else complete.

(** One firing of the interval [handle]: the host calls the callback
    only while the interval is set. *)
Definition tick {host : Host} (handle : nat) : M unit :=
  do live <- gets (fun h => bool_decide (handle ∈ timers h));
  if live then onInterval else ret tt.

End PomodoroManager.

(* ===================================================================== *)
(** ** core.js: the user *)
(* ===================================================================== *)

Module UserManager.

(** The user that the object starts with. *)
Definition default_user : value :=
  VObj (<["username" := VStr "estudiante"]>
       (<["displayName" := VStr "Estudiante"]>
       (<["avatar" := VStr "👨‍🎓"]> ∅))).

(** [stored.username] for a value that is neither null nor undefined: a
    property of an object, and undefined on numbers, booleans, strings and
    arrays. *)
Definition username_of (stored : value) : value :=
  match stored with
  | VObj props => get_prop props "username"
  | _ => VUndefined
  end.

(** console.warn: not kept in the record of the console. *)
Definition warn (msg : string) (err : exn) : M unit := ret tt.

(** [init] on an object whose currentUser is [currentUser]; the value
    returned is the currentUser it leaves. *)
Definition init {host : Host} (currentUser : value) : M value :=
  try_catch
    (do stored <- Storage.get StorageKeys.USER;
     if ToBoolean stored && ToBoolean (username_of stored)
     then ret stored
     else ret currentUser)
    (fun err =>
       do _ <- warn "UserManager: could not read stored user" err;
       ret currentUser).

End UserManager.

(* ===================================================================== *)
(** ** app.js: the handlers that call the managers *)
(* ===================================================================== *)

Module App.

(** window.handleAddTask, on the texts of the five form fields. *)
Definition handleAddTask {host : Host}
    (title desc date time priority : string) : M unit :=
  let taskData : gmap string value :=
    <["title" := VStr title]>
    (<["desc" := VStr desc]>
    (<["date" := VStr date]>
    (<["time" := VStr time]>
    (<["priority" := VStr priority]> ∅)))) in
  if negb (ToBoolean (get_prop taskData "title"))
     || negb (ToBoolean (get_prop taskData "date"))
  then alert "Por favor completa al menos el título y la fecha"
  else
    do _ <- TaskManager.addTask taskData;
    ret tt.

(** The click on the button of a mode; the three buttons name the three
    entries of the table of modes. *)
Definition onModeButton {host : Host} (m : mode) : M unit :=
  PomodoroManager.setMode m (VNum (Int (PM.modes m))).

End App.

(* ===================================================================== *)
(** ** A host for the worked examples *)
(* ===================================================================== *)

(** An executable [Host] for the part of the built-ins that the examples
    need.  JSON texts are made of null, true, false, integer literals,
    strings without control characters (the double quote and the backslash
    escaped by a backslash), arrays and objects; a text with anything else
    (a fraction, an exponent, another escape) is answered as malformed.
    A string converts to a number when it is blank, a signed run of decimal
    digits or 0x followed by hexadecimal digits, and to NaN otherwise.
    Dates are rendered for the years 0000 to 9999 and with the expanded
    six-digit year outside them.  The theorems below hold for every host;
    this one only evaluates the examples. *)
Module IntegerHost.

Definition dquote : ascii := ascii_of_nat 34.
Definition backslash : ascii := ascii_of_nat 92.

Definition is_digit (c : ascii) : bool :=
  let n := nat_of_ascii c in ((48 <=? n)%nat && (n <=? 57)%nat).

Definition digit (c : ascii) : Z := Z.of_nat (nat_of_ascii c) - 48.

(** *** JSON.stringify *)

Fixpoint escape (s : string) : string :=
  match s with
  | String c rest =>
      if Ascii.eqb c dquote || Ascii.eqb c backslash
      then String backslash (String c (escape rest))
      else String c (escape rest)
  | EmptyString => EmptyString
  end.

Definition quote (s : string) : string :=
  String dquote (escape s +:+ String dquote EmptyString).

Fixpoint write (v : value) : string :=
  match v with
  | VUndefined | VNull | VNum NaN => "null"
  | VBool true => "true"
  | VBool false => "false"
  | VNum (Int z) => Num.to_string (Int z)
  | VStr s => quote s
  | VArr xs =>
      "[" +:+ (fix join (l : list value) : string :=
                 match l with
                 | [] => ""
                 | [x] => write x
                 | x :: rest => write x +:+ "," +:+ join rest
                 end) xs +:+ "]"
  | VObj props =>
      "{" +:+ map_fold (fun k x acc =>
                match x with
                | VUndefined => acc
                | _ => (if String.eqb acc "" then "" else acc +:+ ",")
                         +:+ quote k +:+ ":" +:+ write x
                end) "" props +:+ "}"
  end.

Definition stringify (v : value) : result (option string) :=
  match v with
  | VUndefined => Normal None
  | _ => Normal (Some (write v))
  end.

(** *** JSON.parse *)

Definition is_json_space (c : ascii) : bool :=
  let n := nat_of_ascii c in
  (n =? 32)%nat || (n =? 9)%nat || (n =? 10)%nat || (n =? 13)%nat.

Fixpoint skip_ws (s : string) : string :=
  match s with
  | String c rest => if is_json_space c then skip_ws rest else s
  | EmptyString => s
  end.

Fixpoint read_digits (s : string) (acc : Z) : Z * string :=
  match s with
  | String c rest =>
      if is_digit c then read_digits rest (acc * 10 + digit c) else (acc, s)
  | EmptyString => (acc, s)
  end.

(** The characters up to the closing quote, and what follows it. *)
Fixpoint read_string (s : string) : option (string * string) :=
  match s with
  | String c rest =>
      if Ascii.eqb c dquote then Some (EmptyString, rest)
      else if Ascii.eqb c backslash then
        match rest with
        | String e rest' =>
            if Ascii.eqb e dquote || Ascii.eqb e backslash
            then prod_map (String e) (fun r => r) <$> read_string rest'
            else None
        | EmptyString => None
        end
      else if (nat_of_ascii c <? 32)%nat then None
      else prod_map (String c) (fun r => r) <$> read_string rest
  | EmptyString => None
  end.

Fixpoint strip_prefix (p s : string) : option string :=
  match p, s with
  | EmptyString, _ => Some s
  | String a p', String b s' => if Ascii.eqb a b then strip_prefix p' s' else None
  | _, EmptyString => None
  end.

(** An integer literal: no leading zeros, no fraction, no exponent. *)
Definition read_int (s : string) : option (Z * string) :=
  match s with
  | String c rest =>
      if is_digit c then
        let '(n, after) := read_digits s 0 in
        match rest, after with
        | String c' _, _ =>
            if Ascii.eqb c "0" && is_digit c' then None
            else
              match after with
              | String "." _ | String "e" _ | String "E" _ => None
              | _ => Some (n, after)
              end
        | EmptyString, _ => Some (n, after)
        end
      else None
  | EmptyString => None
  end.

Definition read_scalar (s : string) : option (value * string) :=
  match s with
  | String c rest =>
      if Ascii.eqb c dquote then prod_map VStr (fun r => r) <$> read_string rest
      else if Ascii.eqb c "-" then
        prod_map (fun n => VNum (Int (- n))) (fun r => r) <$> read_int rest
      else if is_digit c then
        prod_map (fun n => VNum (Int n)) (fun r => r) <$> read_int s
      else
        match strip_prefix "null" s, strip_prefix "true" s, strip_prefix "false" s with
        | Some r, _, _ => Some (VNull, r)
        | _, Some r, _ => Some (VBool true, r)
        | _, _, Some r => Some (VBool false, r)
        | _, _, _ => None
        end
  | EmptyString => None
  end.

Fixpoint read_value (fuel : nat) (s : string) : option (value * string) :=
  match fuel with
  | O => None
  | S fuel' =>
      match skip_ws s with
      | String "[" rest =>
          match skip_ws rest with
          | String "]" after => Some (VArr [], after)
          | inner => prod_map VArr (fun r => r) <$> read_elements fuel' inner
          end
      | String "{" rest =>
          match skip_ws rest with
          | String "}" after => Some (VObj ∅, after)
          | inner => prod_map VObj (fun r => r) <$> read_members fuel' inner ∅
          end
      | other => read_scalar other
      end
  end
with read_elements (fuel : nat) (s : string) : option (list value * string) :=
  match fuel with
  | O => None
  | S fuel' =>
      match read_value fuel' s with
      | Some (v, after) =>
          match skip_ws after with
          | String "," more => prod_map (cons v) (fun r => r) <$> read_elements fuel' more
          | String "]" rest => Some ([v], rest)
          | _ => None
          end
      | None => None
      end
  end
with read_members (fuel : nat) (s : string) (acc : gmap string value)
    : option (gmap string value * string) :=
  match fuel with
  | O => None
  | S fuel' =>
      match skip_ws s with
      | String c rest =>
          if Ascii.eqb c dquote then
            match read_string rest with
            | Some (k, after_key) =>
                match skip_ws after_key with
                | String ":" after_colon =>
                    match read_value fuel' after_colon with
                    | Some (v, after) =>
                        match skip_ws after with
                        | String "," more => read_members fuel' more (<[k := v]> acc)
                        | String "}" rest' => Some (<[k := v]> acc, rest')
                        | _ => None
                        end
                    | None => None
                    end
                | _ => None
                end
            | None => None
            end
          else None
      | EmptyString => None
      end
  end.

Definition parse (text : string) : result value :=
  match read_value (2 * String.length text + 2) text with
  | Some (v, rest) =>
      match skip_ws rest with
      | EmptyString => Normal v
      | _ => Throw (Exn "SyntaxError" "Unexpected non-whitespace character after JSON")
      end
  | None => Throw (Exn "SyntaxError" "Unexpected token in JSON")
  end.

(** *** StringToNumber *)

Fixpoint trim_end (s : string) : string :=
  match s with
  | String c rest =>
      match trim_end rest with
      | EmptyString =>
          if ParseInt.is_white_space c then EmptyString else String c EmptyString
      | kept => String c kept
      end
  | EmptyString => EmptyString
  end.

(** The value of [s] when all of it is radix-[R] digits. *)
Fixpoint all_digits (R : Z) (s : string) (acc : Z) : option Z :=
  match s with
  | String c rest =>
      match ParseInt.digit_value c with
      | Some d => if d <? R then all_digits R rest (acc * R + d) else None
      | None => None
      end
  | EmptyString => Some acc
  end.

Definition digits_or_NaN (R sign : Z) (body : string) : number :=
  match body with
  | EmptyString => NaN
  | _ => from_option (fun m => Int (sign * m)) NaN (all_digits R body 0)
  end.

Definition to_number (s : string) : number :=
  match trim_end (ParseInt.trim_start s) with
  | EmptyString => Int 0
  | String "0" (String "x" body) | String "0" (String "X" body) =>
      digits_or_NaN 16 1 body
  | text =>
      let '(sign, body) := ParseInt.strip_sign text in
      digits_or_NaN 10 sign body
  end.

(** *** Date.prototype.toISOString *)

Definition pad (width : nat) (n : Z) : string :=
  let s := Num.to_string (Int n) in
  Nat.iter (width - String.length s) (String "0") s.

(** Year, month and day of the proleptic Gregorian calendar for a count
    of days since 1970-01-01. *)
Definition civil_from_days (days : Z) : Z * Z * Z :=
  let z := days + 719468 in
  let era := z / 146097 in
  let doe := z - era * 146097 in
  let yoe := (doe - doe / 1460 + doe / 36524 - doe / 146096) / 365 in
  let doy := doe - (365 * yoe + yoe / 4 - yoe / 100) in
  let mp := (5 * doy + 2) / 153 in
  let d := doy - (153 * mp + 2) / 5 + 1 in
  let m := if mp <? 10 then mp + 3 else mp - 9 in
  let y := yoe + era * 400 + (if m <=? 2 then 1 else 0) in
  (y, m, d).

Definition year_text (y : Z) : string :=
  if (0 <=? y) && (y <=? 9999) then pad 4 y
  else if y <? 0 then "-" +:+ pad 6 (- y)
  else "+" +:+ pad 6 y.

Definition toISOString (ms : Z) : string :=
  let '(y, m, d) := civil_from_days (ms / 86400000) in
  let t := ms mod 86400000 in
  year_text y +:+ "-" +:+ pad 2 m +:+ "-" +:+ pad 2 d +:+ "T"
    +:+ pad 2 (t / 3600000) +:+ ":" +:+ pad 2 (t / 60000 mod 60) +:+ ":"
    +:+ pad 2 (t / 1000 mod 60) +:+ "." +:+ pad 3 (t mod 1000) +:+ "Z".

Definition host : Host :=
  {| JSON_parse := parse;
     JSON_stringify := stringify;
     StringToNumber := to_number;
     Date_toISOString := toISOString |}.

End IntegerHost.

(* ===================================================================== *)
(** ** Vocabulary of the properties *)
(* ===================================================================== *)

(** The write of [v] under [key] fails on [h]: the storage is denied, the
    value cannot be serialised, or the text does not fit the quota. *)
Definition write_fails {host : Host} (h : Heap) (key : string) (v : value) : Prop :=
  available (localStorage h) = false
  ∨ (∃ e, JSON_stringify v = Throw e)
  ∨ (∃ text, JSON_stringify v = Normal text
       ∧ accepts (localStorage h) (items (localStorage h)) key
           (default "undefined" text) = false).

(** The integer held by a field of the session stats, if it holds one. *)
Definition stat (k : string) (h : Heap) : option Z :=
  match PM.stats (pomodoroManager h) !! k with
  | Some (VNum (Int z)) => Some z
  | _ => None
  end.

(** What the user and the host can do to the timer. *)
Inductive timer_op : Type :=
| OpSetMode (m : mode) (minutes : value)
| OpStart
| OpPause
| OpReset
| OpComplete
| OpTick (handle : nat).

Definition run_op {host : Host} (op : timer_op) : M unit :=
  match op with
  | OpSetMode m minutes => PomodoroManager.setMode m minutes
  | OpStart => PomodoroManager.start
  | OpPause => PomodoroManager.pause
  | OpReset => PomodoroManager.reset
  | OpComplete => PomodoroManager.complete
  | OpTick handle => PomodoroManager.tick handle
  end.

Fixpoint run_ops {host : Host} (ops : list timer_op) : M unit :=
  match ops with
  | [] => ret tt
  | op :: rest => do _ <- run_op op; run_ops rest
  end.

(** The countdown and the interval agree: while the timer is running its
    interval is the only one set, and when it is not running none is. *)
Definition one_countdown (h : Heap) : Prop :=
  if PM.isRunning (pomodoroManager h)
  then exists n, PM.interval (pomodoroManager h) = Some n /\ timers h = {[n]}
  else timers h = ∅.

(** The countdown is a number of seconds between zero and the duration
    that the table of modes gives for the current mode. *)
Definition within_default (h : Heap) : Prop :=
  exists t, PM.time (pomodoroManager h) = Int t
            /\ 0 <= t <= PM.modes (PM.currentMode (pomodoroManager h)) * 60.

(** An operation as the page issues it: a mode switch comes from a mode
    button, with the duration of the table. *)
Definition from_page (op : timer_op) : Prop :=
  match op with
  | OpSetMode m minutes => minutes = VNum (Int (PM.modes m))
  | _ => True
  end.

(** The value that a method returns once the page has rendered: the
    rendering may throw instead. *)
Definition then_return {A} (rendering : result unit) (a : A) : result A :=
  match rendering with
  | Normal _ => Normal a
  | Throw e => Throw e
  end.

(** A task whose priority is a string, as the form and the defaults of
    [addTask] give it. *)
Definition has_string_priority (t : Task.t) : bool :=
  match Task.priority t with
  | VStr _ => true
  | _ => false
  end.

(** The task list can be rendered: every task that the current filter
    shows has a string for its priority. *)
Definition tasks_render (h : Heap) : bool :=
  forallb has_string_priority (TaskManager.filtered (taskManager h)).

(** The flashcard display has something to show: no cards at all, or the
    card under the cursor. *)
Definition card_displays (h : Heap) : bool :=
  let m := flashcardManager h in
  (Z.of_nat (length (FM.flashcards m)) =? 0)
  || match FlashcardManager.at_index (FM.flashcards m) (FM.currentCardIndex m) with
     | Some _ => true
     | None => false
     end.

(** The cursor of the flashcards stands on a card of the collection. *)
Definition cursor_on_card (h : Heap) : Prop :=
  exists i card,
    FM.currentCardIndex (flashcardManager h) = Int (Z.of_nat i)
    /\ FM.flashcards (flashcardManager h) !! i = Some card.

(** What the page can ask of the flashcards. *)
Inductive card_op : Type :=
| CardAdd (cardData : gmap string value)
| CardNext
| CardPrevious
| CardReviewed
| CardStudy (subject : string).

Definition run_card_op {host : Host} (op : card_op) : M unit :=
  match op with
  | CardAdd cardData => do _ <- FlashcardManager.addFlashcard cardData; ret tt
  | CardNext => FlashcardManager.nextCard
  | CardPrevious => FlashcardManager.previousCard
  | CardReviewed => FlashcardManager.markReviewed
  | CardStudy subject => FlashcardManager.studySubject subject
  end.

(** One handler after the other; an exception ends the handler that threw
    it, not the page. *)
Fixpoint after_card_ops {host : Host} (ops : list card_op) (h : Heap) : Heap :=
  match ops with
  | [] => h
  | op :: rest => after_card_ops rest (heap_after (run_card_op op) h)
  end.

(** The session stats after the four updates that [complete] makes at the
    end of a focus period, in the order it makes them. *)
Definition completed {host : Host} (s0 : gmap string value) : gmap string value :=
  let s1 := incr_prop "pomodoroCount" s0 in
  let s2 := set_prop "totalFocusTime"
              (js_add (get_prop s1 "totalFocusTime") (VNum (Int (PM.modes focus)))) s1 in
  let s3 := incr_prop "currentStreak" s2 in
  set_prop "bestStreak"
    (VNum (Num.max (ToNumber (get_prop s3 "bestStreak"))
                   (ToNumber (get_prop s3 "currentStreak")))) s3.

(** The array that [TaskManager.save] serialises. *)
Definition tasks_value (ts : list Task.t) : value :=
  VArr (map Task.to_value ts).

(* ===================================================================== *)
(** ** Heaps for the worked examples *)
(* ===================================================================== *)

Module Examples.

(** A stats record saved by a build that also kept a theme. *)
Definition stored_stats : string :=
  "{" +:+ IntegerHost.quote "pomodoroCount" +:+ ":3,"
      +:+ IntegerHost.quote "theme" +:+ ":" +:+ IntegerHost.quote "dark" +:+ "}".

Definition storage : LocalStorage :=
  {| items := <[StorageKeys.POMODORO_STATS := stored_stats]>
              (<[StorageKeys.TASKS := "[{oops"]> ∅);
     available := true;
     accepts := fun _ _ text => (String.length text <=? 4096)%nat |}.

(** The page right after the scripts are loaded; every clock read of the
    coming turn falls in the same millisecond. *)
Definition fresh : Heap :=
  {| localStorage := storage;
     console := [];
     clock := fun _ => 1700000000000;
     timers := ∅;
     nextTimer := 1%nat;
     taskManager := {| TM.tasks := []; TM.currentFilter := "todas" |};
     flashcardManager := {| FM.flashcards := []; FM.currentCardIndex := Int 0 |};
     pomodoroManager := PomodoroManager.initial |}.

(** The same page with a storage area that is full. *)
Definition full : Heap :=
  with_localStorage
    (fun ls => {| items := items ls; available := true;
                  accepts := fun _ _ _ => false |}) fresh.

(** Three focus periods done, the timer in a short break. *)
Definition resting : Heap :=
  with_pomodoroManager
    (fun m => {| PM.time := Int 0; PM.interval := Some 1%nat; PM.isRunning := true;
                 PM.currentMode := short;
                 PM.stats :=
                   <["pomodoroCount" := VNum (Int 3)]>
                   (<["totalFocusTime" := VNum (Int 75)]>
                   (<["bestStreak" := VNum (Int 3)]>
                   (<["currentStreak" := VNum (Int 3)]> ∅))) |})
    (with_timers (fun s => {[1%nat]} ∪ s) S fresh).

(** Three focus periods done, the fourth just ran out. *)
Definition focused : Heap :=
  with_pomodoroManager (PomodoroManager.set_currentMode focus) resting.

Definition homework : gmap string value :=
  <["title" := VStr "Leer el tema 3"]>
  (<["date" := VStr "2025-10-23"]>
  (<["time" := VStr "-5"]> ∅)).

Definition untitled : gmap string value :=
  <["title" := VStr ""]> (<["date" := VStr "2025-10-23"]> ∅).

Definition task (n : Z) : Task.t :=
  {| Task.id := n; Task.title := VStr "Repasar"; Task.desc := VStr "";
     Task.date := VStr "2025-10-23"; Task.time := Int 25;
     Task.priority := VStr "media"; Task.completed := false;
     Task.createdAt := "2025-10-20T08:00:00.000Z" |}.

(** Two tasks with the id 7 around one with the id 8. *)
Definition listed : Heap :=
  with_taskManager (TaskManager.set_tasks [task 7; task 8; task 7]) fresh.

Definition card (n : Z) : Flashcard.t :=
  {| Flashcard.id := n; Flashcard.subject := VStr "Historia";
     Flashcard.question := VStr "1492"; Flashcard.answer := VStr "Colón";
     Flashcard.reviews := 0; Flashcard.lastReviewed := None |}.

(** Three cards, the first one shown. *)
Definition studying : Heap :=
  with_flashcardManager
    (fun _ => {| FM.flashcards := [card 1; card 2; card 3];
                 FM.currentCardIndex := Int 0 |}) fresh.

End Examples.

(* ===================================================================== *)
(** ** Running computations *)
(* ===================================================================== *)

(** Projections of updated heaps and manager records, and nothing else. *)
Ltac hsimpl :=
  cbn [pomodoroManager taskManager flashcardManager localStorage console clock
       timers nextTimer
       with_pomodoroManager with_taskManager with_flashcardManager
       with_localStorage with_console with_clock with_timers
       PM.time PM.interval PM.isRunning PM.currentMode PM.stats
       PomodoroManager.set_time PomodoroManager.set_interval
       PomodoroManager.set_isRunning PomodoroManager.set_currentMode
       PomodoroManager.set_stats
       TM.tasks TM.currentFilter TaskManager.set_tasks
       FM.flashcards FM.currentCardIndex FlashcardManager.set_index
       FlashcardManager.set_flashcards fst snd ret] in *.

Section Run.
Context {host : Host}.

Lemma bind_assoc {A B C} (c : M A) (k1 : A -> M B) (k2 : B -> M C) h :
  bind (bind c k1) k2 h = bind c (fun a => bind (k1 a) k2) h.
Proof. unfold bind. destruct (c h) as [[a|e] h1]; reflexivity. Qed.

Lemma bind_modify {B} f (k : unit -> M B) h :
  bind (modify f) k h = k tt (f h).
Proof. reflexivity. Qed.

Lemma bind_gets {A B} (f : Heap -> A) (k : A -> M B) h :
  bind (gets f) k h = k (f h) h.
Proof. reflexivity. Qed.

Lemma bind_ret {A B} (a : A) (k : A -> M B) h :
  bind (ret a) k h = k a h.
Proof. reflexivity. Qed.

Lemma bind_now {B} (k : Z -> M B) h :
  bind Clock.now k h = k (clock h 0%nat) (with_clock (fun c n => c (S n)) h).
Proof. reflexivity. Qed.

(** *** Storage.get *)

Lemma Storage_get_outcome (h : Heap) (key : string) :
  outcome (Storage.get key) h =
    Normal (if available (localStorage h)
            then match items (localStorage h) !! key with
                 | Some text =>
                     if String.eqb text "" then VNull
                     else match JSON_parse text with
                          | Normal v => v
                          | Throw _ => VNull
                          end
                 | None => VNull
                 end
            else VNull).
Proof.
  unfold outcome, Storage.get, try_catch, bind, LS.access, LS.getItem, gets,
    Console.error, modify, ret, lift.
  destruct (available (localStorage h)); simpl; [|reflexivity].
  destruct (items (localStorage h) !! key) as [text|]; [|reflexivity].
  destruct (String.eqb text ""); [reflexivity|].
  destruct (JSON_parse text); reflexivity.
Qed.

Lemma Storage_get_total key h :
  Storage.get key h
  = (outcome (Storage.get key) h, heap_after (Storage.get key) h).
Proof. unfold outcome, heap_after. by destruct (Storage.get key h). Qed.

(** A read changes nothing but the console. *)
Lemma Storage_get_frame key h :
  let h' := heap_after (Storage.get key) h in
  localStorage h' = localStorage h
  /\ pomodoroManager h' = pomodoroManager h /\ taskManager h' = taskManager h
  /\ flashcardManager h' = flashcardManager h /\ timers h' = timers h
  /\ nextTimer h' = nextTimer h /\ clock h' = clock h.
Proof.
  unfold heap_after, Storage.get, try_catch, bind, LS.access, LS.getItem, gets,
    Console.error, modify, ret, lift.
  destruct (available (localStorage h)); simpl; [|done].
  destruct (items (localStorage h) !! key) as [text|]; [|done].
  destruct (String.eqb text ""); [done|].
  destruct (JSON_parse text); done.
Qed.

Lemma Storage_get_logs key h text e :
  available (localStorage h) = true ->
  items (localStorage h) !! key = Some text ->
  text <> "" ->
  JSON_parse text = Throw e ->
  console (heap_after (Storage.get key) h)
  = ("Error reading from storage:", e) :: console h.
Proof.
  intros Ha Hi Hne Hp.
  unfold heap_after, Storage.get, try_catch, bind, LS.access, LS.getItem, gets,
    Console.error, modify, ret, lift.
  rewrite Ha. simpl. rewrite Hi.
  destruct (String.eqb_spec text ""); [done|]. by rewrite Hp.
Qed.

(** *** Storage.set *)

Lemma Storage_set_total key v h :
  Storage.set key v h = (Normal tt, heap_after (Storage.set key v) h).
Proof.
  unfold heap_after, Storage.set, try_catch, bind, LS.access, LS.setItem,
    Console.error, modify, lift.
  destruct (available (localStorage h)); simpl; [|reflexivity].
  destruct (JSON_stringify v) as [text|e]; simpl; [|reflexivity].
  destruct (accepts _ _ _ _); reflexivity.
Qed.

Lemma bind_Storage_set {B} key v (k : unit -> M B) h :
  bind (Storage.set key v) k h = k tt (heap_after (Storage.set key v) h).
Proof. unfold bind at 1. by rewrite Storage_set_total. Qed.

(** A write changes nothing but the storage area and the console. *)
Lemma Storage_set_frame key v h :
  let h' := heap_after (Storage.set key v) h in
  pomodoroManager h' = pomodoroManager h /\ taskManager h' = taskManager h
  /\ flashcardManager h' = flashcardManager h /\ timers h' = timers h
  /\ nextTimer h' = nextTimer h /\ clock h' = clock h.
Proof.
  unfold heap_after, Storage.set, try_catch, bind, LS.access, LS.setItem,
    Console.error, modify, lift.
  destruct (available (localStorage h)); simpl; [|done].
  destruct (JSON_stringify v) as [text|e]; simpl; [|done].
  destruct (accepts _ _ _ _); done.
Qed.

(** What a write leaves in the storage area depends on that area only. *)
Lemma Storage_set_localStorage key v h1 h2 :
  localStorage h1 = localStorage h2 ->
  localStorage (heap_after (Storage.set key v) h1)
  = localStorage (heap_after (Storage.set key v) h2).
Proof.
  unfold heap_after, Storage.set, try_catch, bind, LS.access, LS.setItem,
    Console.error, modify, lift.
  intros Heq. rewrite Heq.
  destruct (available (localStorage h2)); simpl; [|done].
  destruct (JSON_stringify v) as [text|e]; simpl; [|done].
  rewrite Heq.
  destruct (accepts _ _ _ _); simpl; [by rewrite Heq|done].
Qed.

(** An accepted write puts the text under the key. *)
Lemma Storage_set_stored key v h text :
  available (localStorage h) = true ->
  JSON_stringify v = Normal (Some text) ->
  accepts (localStorage h) (items (localStorage h)) key text = true ->
  items (localStorage (heap_after (Storage.set key v) h)) !! key = Some text.
Proof.
  intros Ha Hs Hq.
  unfold heap_after, Storage.set, try_catch, bind, LS.access, LS.setItem,
    Console.error, modify, lift.
  rewrite Ha. simpl. rewrite Hs. simpl. rewrite Hq. simpl.
  apply lookup_insert_eq.
Qed.

Lemma Storage_set_failure (h : Heap) (key : string) (v : value) :
  write_fails h key v ->
  localStorage (heap_after (Storage.set key v) h) = localStorage h
  /\ exists e, console (heap_after (Storage.set key v) h)
               = ("Error writing to storage:", e) :: console h.
Proof.
  unfold write_fails, heap_after, Storage.set, try_catch, bind, LS.access,
    LS.setItem, Console.error, modify, lift.
  intros [Hd | [[e He] | (text & Ht & Hq)]].
  - rewrite Hd. simpl. eauto.
  - destruct (available (localStorage h)); simpl; [|eauto].
    rewrite He. simpl. eauto.
  - destruct (available (localStorage h)); simpl; [|eauto].
    rewrite Ht. simpl. rewrite Hq. simpl. eauto.
Qed.

Lemma Storage_set_other_key (h : Heap) (key key' : string) (v : value) :
  key' <> key ->
  outcome (Storage.get key') (heap_after (Storage.set key v) h)
  = outcome (Storage.get key') h.
Proof.
  intros Hne. rewrite !Storage_get_outcome.
  unfold heap_after, Storage.set, try_catch, bind, LS.access,
    LS.setItem, Console.error, modify, lift.
  destruct (available (localStorage h)) eqn:Ha; simpl; [|by rewrite Ha].
  destruct (JSON_stringify v) as [text|e]; simpl; [|by rewrite Ha].
  destruct (accepts _ _ _ _); simpl; rewrite Ha; [|done].
  by rewrite lookup_insert_ne.
Qed.

End Run.

(* ===================================================================== *)
(** ** The storage wrapper *)
(* ===================================================================== *)

(** C3.  [Storage.get] always returns: null for a key that is not stored,
    for a storage area that cannot be read, and for a stored text that
    JSON.parse rejects, in which case the exception is logged.
    [Storage.set] always returns: when the write fails the storage area is
    left as it was and the exception is logged; whether it fails or not, a
    later read of another key gives what it gave before. *)
Theorem Storage_never_raises {host : Host} (h : Heap) (key : string) :
  (exists v, outcome (Storage.get key) h = Normal v)
  /\ (items (localStorage h) !! key = None ->
      outcome (Storage.get key) h = Normal VNull)
  /\ (available (localStorage h) = false ->
      outcome (Storage.get key) h = Normal VNull)
  /\ (forall text e,
        items (localStorage h) !! key = Some text ->
        JSON_parse text = Throw e ->
        outcome (Storage.get key) h = Normal VNull
        /\ (available (localStorage h) = true -> text <> "" ->
            console (heap_after (Storage.get key) h)
            = ("Error reading from storage:", e) :: console h))
  /\ (forall v,
        outcome (Storage.set key v) h = Normal tt
        /\ (write_fails h key v ->
            localStorage (heap_after (Storage.set key v) h) = localStorage h
            /\ exists e, console (heap_after (Storage.set key v) h)
                         = ("Error writing to storage:", e) :: console h)
        /\ (forall key', key' <> key ->
              outcome (Storage.get key') (heap_after (Storage.set key v) h)
              = outcome (Storage.get key') h)).
Proof.
  split; [|split; [|split; [|split]]].
  - rewrite Storage_get_outcome. eauto.
  - intros Hnone. rewrite Storage_get_outcome, Hnone. by destruct (available _).
  - intros Hd. by rewrite Storage_get_outcome, Hd.
  - intros text e Hsome Hbad. split.
    + rewrite Storage_get_outcome, Hsome, Hbad.
      destruct (available _); [|done]. by destruct (String.eqb text "").
    + intros Ha Hne. by apply Storage_get_logs with text.
  - intros v. split; [|split].
    + unfold outcome. by rewrite Storage_set_total.
    + apply Storage_set_failure.
    + intros key' Hne. by apply Storage_set_other_key.
Qed.

(** On a page whose storage area is full and holds a broken task list:
    reading the tasks gives null and logs the SyntaxError, writing them
    back returns, leaves the area as it was, and the saved stats can still
    be read. *)
Lemma Storage_never_raises_witness :
  outcome (Storage.get (host := IntegerHost.host) StorageKeys.TASKS) Examples.full
  = Normal VNull
  /\ console (heap_after (Storage.get (host := IntegerHost.host) StorageKeys.TASKS)
               Examples.full)
     = [("Error reading from storage:", Exn "SyntaxError" "Unexpected token in JSON")]
  /\ outcome (Storage.set (host := IntegerHost.host) StorageKeys.TASKS (VArr []))
       Examples.full = Normal tt
  /\ localStorage (heap_after (Storage.set (host := IntegerHost.host)
                                 StorageKeys.TASKS (VArr [])) Examples.full)
     = localStorage Examples.full
  /\ exists stats,
       outcome (Storage.get (host := IntegerHost.host) StorageKeys.POMODORO_STATS)
         (heap_after (Storage.set (host := IntegerHost.host)
                        StorageKeys.TASKS (VArr [])) Examples.full)
       = Normal (VObj stats)
       /\ stats !! "pomodoroCount" = Some (VNum (Int 3)).
Proof.
  destruct (Storage_never_raises (host := IntegerHost.host) Examples.full
              StorageKeys.TASKS) as (_ & _ & _ & Hbad & Hset).
  destruct (Hbad "[{oops" (Exn "SyntaxError" "Unexpected token in JSON"))
    as [Hnull Hlog]; [reflexivity | reflexivity |].
  destruct (Hset (VArr [])) as (Hret & Hfail & Hother).
  destruct Hfail as [Hsame _].
  { right. right. exists (Some "[]"). split; reflexivity. }
  split; [exact Hnull|].
  split; [apply Hlog; [reflexivity | discriminate]|].
  split; [exact Hret|].
  split; [exact Hsame|].
  rewrite (Hother StorageKeys.POMODORO_STATS); [|discriminate].
  eexists. split; [vm_compute; reflexivity | vm_compute; reflexivity].
Defined.

(* ===================================================================== *)
(** ** The Pomodoro timer *)
(* ===================================================================== *)

Section Timer.
Context {host : Host}.

Lemma stat_get k h z :
  stat k h = Some z ->
  get_prop (PM.stats (pomodoroManager h)) k = VNum (Int z).
Proof.
  unfold stat, get_prop.
  destruct (PM.stats (pomodoroManager h) !! k) as [[| | |[|]| | |]|];
    try discriminate.
  by intros [= ->].
Qed.

Lemma stat_lookup k h z :
  stat k h = Some z <-> PM.stats (pomodoroManager h) !! k = Some (VNum (Int z)).
Proof.
  unfold stat. split.
  - destruct (PM.stats (pomodoroManager h) !! k) as [[| | |[|]| | |]|];
      try discriminate.
    by intros [= ->].
  - by intros ->.
Qed.

(** *** The fields of the stats record after a focus period *)

Lemma completed_pomodoroCount s0 c :
  s0 !! "pomodoroCount" = Some (VNum (Int c)) ->
  completed s0 !! "pomodoroCount" = Some (VNum (Int (c + 1))).
Proof.
  intros Hc. unfold completed, incr_prop, set_prop, get_prop.
  rewrite !lookup_insert_ne by done. rewrite lookup_insert_eq.
  by rewrite Hc.
Qed.

Lemma completed_totalFocusTime s0 f :
  s0 !! "totalFocusTime" = Some (VNum (Int f)) ->
  completed s0 !! "totalFocusTime" = Some (VNum (Int (f + 25))).
Proof.
  intros Hf. unfold completed, incr_prop, set_prop, get_prop.
  rewrite !lookup_insert_ne by done. rewrite lookup_insert_eq.
  rewrite lookup_insert_ne by done. by rewrite Hf.
Qed.

Lemma completed_currentStreak s0 s :
  s0 !! "currentStreak" = Some (VNum (Int s)) ->
  completed s0 !! "currentStreak" = Some (VNum (Int (s + 1))).
Proof.
  intros Hs. unfold completed, incr_prop, set_prop, get_prop.
  rewrite lookup_insert_ne by done. rewrite lookup_insert_eq.
  rewrite !lookup_insert_ne by done. by rewrite Hs.
Qed.

Lemma completed_bestStreak s0 b s :
  s0 !! "bestStreak" = Some (VNum (Int b)) ->
  s0 !! "currentStreak" = Some (VNum (Int s)) ->
  completed s0 !! "bestStreak" = Some (VNum (Int (Z.max b (s + 1)))).
Proof.
  intros Hb Hs. unfold completed, incr_prop, set_prop, get_prop.
  rewrite lookup_insert_eq.
  rewrite lookup_insert_eq. rewrite !lookup_insert_ne by done.
  by rewrite Hb, Hs.
Qed.

Lemma completed_other s0 k :
  k <> "pomodoroCount" -> k <> "totalFocusTime" ->
  k <> "currentStreak" -> k <> "bestStreak" ->
  completed s0 !! k = s0 !! k.
Proof.
  intros. unfold completed, incr_prop, set_prop.
  by rewrite !lookup_insert_ne by done.
Qed.

(** *** pause, setMode, reset, start *)

Lemma pause_total h :
  PomodoroManager.pause h = (Normal tt, heap_after PomodoroManager.pause h).
Proof.
  unfold heap_after, PomodoroManager.pause, PomodoroManager.setTimerLabel.
  rewrite bind_modify, bind_gets. unfold Timers.clearInterval.
  destruct (PM.interval _); reflexivity.
Qed.

Lemma pause_effect h :
  let h' := heap_after PomodoroManager.pause h in
  pomodoroManager h' = PomodoroManager.set_isRunning false (pomodoroManager h)
  /\ localStorage h' = localStorage h /\ console h' = console h.
Proof.
  unfold heap_after, PomodoroManager.pause, PomodoroManager.setTimerLabel.
  rewrite bind_modify, bind_gets. unfold Timers.clearInterval.
  destruct (PM.interval _); done.
Qed.

Lemma setMode_run m minutes h :
  PomodoroManager.setMode m minutes h
  = (Normal tt,
     with_pomodoroManager
       (fun p => PomodoroManager.set_time (js_mul minutes (VNum (Int 60)))
                   (PomodoroManager.set_currentMode m p)) h).
Proof. reflexivity. Qed.

Lemma reset_run h :
  exists h',
    PomodoroManager.reset h = (Normal tt, h')
    /\ pomodoroManager h'
       = PomodoroManager.set_time
           (Int (PM.modes (PM.currentMode (pomodoroManager h)) * 60))
           (PomodoroManager.set_isRunning false (pomodoroManager h))
    /\ localStorage h' = localStorage h.
Proof.
  unfold PomodoroManager.reset. unfold bind at 1. rewrite pause_total.
  destruct (pause_effect h) as (Hp & Hl & _).
  set (h1 := heap_after PomodoroManager.pause h) in *. clearbody h1.
  unfold PomodoroManager.updateDisplay, PomodoroManager.updateTimerCircle,
    PomodoroManager.setTimerLabel.
  rewrite bind_modify, !bind_ret. eexists. split; [reflexivity|].
  hsimpl. rewrite Hp. hsimpl. done.
Qed.

Lemma start_run h :
  exists h',
    PomodoroManager.start h = (Normal tt, h')
    /\ PM.stats (pomodoroManager h') = PM.stats (pomodoroManager h)
    /\ localStorage h' = localStorage h.
Proof.
  unfold PomodoroManager.start. rewrite bind_gets.
  destruct (PM.isRunning (pomodoroManager h)); [by eexists|].
  unfold PomodoroManager.setTimerLabel.
  rewrite bind_modify, bind_ret. eexists. split; [reflexivity|]. done.
Qed.

(** *** complete *)

Lemma complete_focus h :
  PM.currentMode (pomodoroManager h) = focus ->
  let stats' := completed (PM.stats (pomodoroManager h)) in
  let next :=
    if Num.eqb (Num.rem (ToNumber (get_prop stats' "pomodoroCount")) (Int 4)) (Int 0)
    then long else short in
  let h' := heap_after PomodoroManager.complete h in
  PomodoroManager.complete h = (Normal tt, h')
  /\ PM.stats (pomodoroManager h') = stats'
  /\ PM.currentMode (pomodoroManager h') = next
  /\ PM.time (pomodoroManager h') = Int (PM.modes next * 60)
  /\ PM.isRunning (pomodoroManager h') = false
  /\ localStorage h'
     = localStorage (heap_after (Storage.set StorageKeys.POMODORO_STATS
                                   (VObj stats')) h).
Proof.
  intros Hm stats' next h'. subst h'. unfold heap_after at 1 2 3 4 5 6.
  destruct (PomodoroManager.complete h) as [r hf] eqn:E. hsimpl.
  unfold PomodoroManager.complete in E.
  unfold bind at 1 in E. rewrite pause_total in E.
  destruct (pause_effect h) as (Hp & Hl & _).
  set (h1 := heap_after PomodoroManager.pause h) in *. clearbody h1.
  assert (Hst : PM.stats (pomodoroManager h1) = PM.stats (pomodoroManager h))
    by (by rewrite Hp).
  rewrite bind_gets, Hp in E. hsimpl. rewrite Hm in E.
  unfold PomodoroManager.update_stats, PomodoroManager.updateStats,
    PomodoroManager.save, AchievementSystem.show, alert in E.
  rewrite !bind_modify in E.
  match type of E with context [bind (ret tt) _ ?hh] =>
    assert (Hmid : pomodoroManager hh
                   = PomodoroManager.set_stats stats' (pomodoroManager h1))
      by (subst stats'; rewrite <- Hst; reflexivity);
    assert (Hmid' : localStorage hh = localStorage h) by exact Hl;
    generalize dependent hh; intros hmid E Hmid Hmid'
  end.
  rewrite bind_ret, bind_assoc, bind_gets, bind_Storage_set, bind_ret, bind_gets in E.
  rewrite Hmid in E. hsimpl.
  destruct (Storage_set_frame StorageKeys.POMODORO_STATS (VObj stats') hmid)
    as (F1 & _).
  pose proof (Storage_set_localStorage StorageKeys.POMODORO_STATS (VObj stats')
                hmid h Hmid') as F7.
  set (h2 := heap_after (Storage.set StorageKeys.POMODORO_STATS (VObj stats')) hmid)
    in *.
  clearbody h2. rewrite F1, Hmid in E. hsimpl. subst next.
  unfold PomodoroManager.setMode, PomodoroManager.updateDisplay,
    PomodoroManager.activateModeButton, PomodoroManager.setTimerLabel in E.
  destruct (Num.eqb _ _); rewrite ?bind_ret, !bind_modify, ?bind_ret in E; hsimpl;
    injection E as <- <-; hsimpl; rewrite F1, Hmid, Hp; hsimpl;
    repeat split; try reflexivity; try exact F7.
Qed.

Lemma complete_break h :
  PM.currentMode (pomodoroManager h) <> focus ->
  let h' := heap_after PomodoroManager.complete h in
  PomodoroManager.complete h = (Normal tt, h')
  /\ PM.stats (pomodoroManager h') = PM.stats (pomodoroManager h)
  /\ PM.currentMode (pomodoroManager h') = focus
  /\ PM.time (pomodoroManager h') = Int (25 * 60)
  /\ localStorage h' = localStorage h
  /\ console h' = console h.
Proof.
  intros Hm h'. subst h'. unfold heap_after at 1 2 3 4 5 6.
  destruct (PomodoroManager.complete h) as [r hf] eqn:E. hsimpl.
  unfold PomodoroManager.complete in E.
  unfold bind at 1 in E. rewrite pause_total in E.
  destruct (pause_effect h) as (Hp & Hl & Hc).
  set (h1 := heap_after PomodoroManager.pause h) in *. clearbody h1.
  rewrite bind_gets, Hp in E. hsimpl.
  unfold alert in E.
  destruct (PM.currentMode (pomodoroManager h)); [done| |];
    rewrite bind_ret, setMode_run in E; injection E as <- <-; hsimpl;
    rewrite Hp; hsimpl; done.
Qed.

(** The countdown at zero: the next firing of the live interval is
    [complete]. *)
Lemma tick_at_zero handle h :
  handle ∈ timers h ->
  PM.time (pomodoroManager h) = Int 0 ->
  PomodoroManager.tick handle h = PomodoroManager.complete h.
Proof.
  intros Hlive Hzero. unfold PomodoroManager.tick. rewrite bind_gets.
  rewrite bool_decide_eq_true_2 by done.
  unfold PomodoroManager.onInterval. rewrite bind_gets, Hzero. reflexivity.
Qed.

End Timer.

(** C1.  With the countdown at zero the next firing of the interval is
    [complete].  When a focus period runs out, [complete] adds one to
    pomodoroCount and to currentStreak, sets bestStreak to the larger of
    its old value and the new currentStreak, writes the stats record to
    storage (an accepted write leaves its text under the stats key), and
    moves to the long break exactly when the new pomodoroCount is a
    multiple of four and to the short break otherwise.  When a break runs
    out it moves to focus and leaves the stats record and the storage area
    as they were. *)
Theorem complete_counts_and_selects_next_mode {host : Host} (h : Heap) :
  (forall handle,
     handle ∈ timers h -> PM.time (pomodoroManager h) = Int 0 ->
     PomodoroManager.tick handle h = PomodoroManager.complete h)
  /\ (PM.currentMode (pomodoroManager h) = focus ->
   forall c s b,
     stat "pomodoroCount" h = Some c ->
     stat "currentStreak" h = Some s ->
     stat "bestStreak" h = Some b ->
     let h' := heap_after PomodoroManager.complete h in
     let record := VObj (PM.stats (pomodoroManager h')) in
     outcome PomodoroManager.complete h = Normal tt
     /\ stat "pomodoroCount" h' = Some (c + 1)
     /\ stat "currentStreak" h' = Some (s + 1)
     /\ stat "bestStreak" h' = Some (Z.max b (s + 1))
     /\ localStorage h'
        = localStorage (heap_after (Storage.set StorageKeys.POMODORO_STATS record) h)
     /\ (forall text,
           available (localStorage h) = true ->
           JSON_stringify record = Normal (Some text) ->
           accepts (localStorage h) (items (localStorage h))
             StorageKeys.POMODORO_STATS text = true ->
           items (localStorage h') !! StorageKeys.POMODORO_STATS = Some text)
     /\ (PM.currentMode (pomodoroManager h') = long <-> Z.divide 4 (c + 1))
     /\ (PM.currentMode (pomodoroManager h') = short <-> ~ Z.divide 4 (c + 1)))
  /\ (PM.currentMode (pomodoroManager h) <> focus ->
      let h' := heap_after PomodoroManager.complete h in
      outcome PomodoroManager.complete h = Normal tt
      /\ PM.currentMode (pomodoroManager h') = focus
      /\ PM.stats (pomodoroManager h') = PM.stats (pomodoroManager h)
      /\ localStorage h' = localStorage h).
Proof.
  split; [intros handle Hlive Hzero; by apply tick_at_zero|].
  split.
  - intros Hm c s b Hc Hs Hb h' record.
    destruct (complete_focus h Hm) as (Hrun & Hstats & Hmode & _ & _ & Hls).
    fold h' in Hrun, Hstats, Hmode, Hls.
    apply stat_lookup in Hc, Hs, Hb.
    assert (Hrec : record = VObj (completed (PM.stats (pomodoroManager h))))
      by (subst record; by rewrite Hstats).
    assert (Hc' : stat "pomodoroCount" h' = Some (c + 1)).
    { apply stat_lookup. rewrite Hstats. by apply completed_pomodoroCount. }
    assert (Hnext : PM.currentMode (pomodoroManager h')
                    = if Z.rem (c + 1) 4 =? 0 then long else short).
    { rewrite Hmode. apply stat_get in Hc'. rewrite Hstats in Hc'.
      rewrite Hc'. reflexivity. }
    split; [unfold outcome; by rewrite Hrun|].
    split; [exact Hc'|].
    split; [apply stat_lookup; rewrite Hstats; by apply completed_currentStreak|].
    split; [apply stat_lookup; rewrite Hstats; by apply completed_bestStreak|].
    split; [by rewrite Hrec|].
    split.
    { intros text Ha Htext Hq. rewrite Hls, <- Hrec.
      by apply Storage_set_stored. }
    rewrite Hnext.
    assert (Hiff : Z.rem (c + 1) 4 = 0 <-> Z.divide 4 (c + 1))
      by (apply Z.rem_divide; lia).
    destruct (Z.eqb_spec (Z.rem (c + 1) 4) 0) as [Hz|Hz].
    + split; [split; [intros _; by apply Hiff | done]
             | split; [discriminate | intros Hn; exfalso; apply Hn; by apply Hiff]].
    + split; [split; [discriminate | intros Hd; exfalso; apply Hz; by apply Hiff]
             | split; [intros _ Hd; apply Hz; by apply Hiff | done]].
  - intros Hm h'.
    destruct (complete_break h Hm) as (Hrun & Hstats & Hmode & _ & Hls & _).
    fold h' in Hrun, Hstats, Hmode, Hls.
    split; [unfold outcome; by rewrite Hrun|]. done.
Qed.

(** The fourth focus period in a row ends in the long break with the stats
    at 4, 4 and 4 and the record saved; the short break that ran out ends
    in focus mode with the stats untouched. *)
Lemma complete_counts_and_selects_next_mode_witness :
  PomodoroManager.tick (host := IntegerHost.host) 1%nat Examples.focused
  = PomodoroManager.complete (host := IntegerHost.host) Examples.focused
  /\ (let h' := heap_after (PomodoroManager.complete (host := IntegerHost.host))
               Examples.focused in
   stat "pomodoroCount" h' = Some 4
   /\ stat "currentStreak" h' = Some 4
   /\ stat "bestStreak" h' = Some 4
   /\ PM.currentMode (pomodoroManager h') = long
   /\ is_Some (items (localStorage h') !! StorageKeys.POMODORO_STATS))
  /\ (let h' := heap_after (PomodoroManager.complete (host := IntegerHost.host))
                  Examples.resting in
      PM.currentMode (pomodoroManager h') = focus
      /\ PM.stats (pomodoroManager h') = PM.stats (pomodoroManager Examples.resting)).
Proof.
  split; [|split].
  - destruct (complete_counts_and_selects_next_mode (host := IntegerHost.host)
                Examples.focused) as (Htick & _).
    apply Htick; [set_solver | reflexivity].
  - destruct (complete_counts_and_selects_next_mode (host := IntegerHost.host)
                Examples.focused) as (_ & Hfocus & _).
    destruct (Hfocus eq_refl 3 3 3 eq_refl eq_refl eq_refl)
      as (_ & Hc & Hs & Hb & _ & Hstored & Hlong & _).
    split; [exact Hc|]. split; [exact Hs|]. split; [exact Hb|].
    split; [apply Hlong; by exists 1|].
    eexists. apply Hstored; [reflexivity | vm_compute; reflexivity | reflexivity].
  - destruct (complete_counts_and_selects_next_mode (host := IntegerHost.host)
                Examples.resting) as (_ & _ & Hbreak).
    destruct Hbreak as (_ & Hmode & Hstats & _); [discriminate|].
    split; [exact Hmode | exact Hstats].
Defined.

(** C6, as the code has it.  Whatever number of minutes the last
    [setMode] call was given for the focus mode, the end of the focus
    period adds the focus entry of the fixed table of modes, 25 minutes, to
    totalFocusTime; the minutes of the call only set the countdown. *)
Theorem complete_adds_table_minutes {host : Host}
    (h : Heap) (minutes : value) (f : Z) :
  stat "totalFocusTime" h = Some f ->
  let h1 := heap_after (PomodoroManager.setMode focus minutes) h in
  PM.time (pomodoroManager h1) = Num.mul (ToNumber minutes) (Int 60)
  /\ stat "totalFocusTime" (heap_after PomodoroManager.complete h1)
     = Some (f + PM.modes focus)
  /\ PM.modes focus = 25.
Proof.
  intros Hf h1.
  assert (E : h1 = with_pomodoroManager
                     (fun p => PomodoroManager.set_time (js_mul minutes (VNum (Int 60)))
                                 (PomodoroManager.set_currentMode focus p)) h)
    by (subst h1; unfold heap_after; by rewrite setMode_run).
  rewrite E. clear E h1.
  split; [reflexivity|]. split; [|reflexivity].
  match goal with |- stat _ (heap_after _ ?hh) = _ =>
    destruct (complete_focus hh eq_refl) as (_ & Hstats & _)
  end.
  apply stat_lookup. rewrite Hstats. hsimpl.
  apply completed_totalFocusTime. by apply stat_lookup.
Qed.

Lemma complete_adds_table_minutes_witness :
  stat "totalFocusTime"
    (heap_after (PomodoroManager.complete (host := IntegerHost.host))
       (heap_after (PomodoroManager.setMode (host := IntegerHost.host) focus
                      (VNum (Int 50))) Examples.resting))
  = Some 100.
Proof.
  destruct (complete_adds_table_minutes (host := IntegerHost.host)
              Examples.resting (VNum (Int 50)) 75 eq_refl) as (_ & Hsum & _).
  exact Hsum.
Defined.

(** A focus period set to 50 minutes counts down from 3000 seconds, and
    at its end totalFocusTime has grown from 75 to 100, not to 125. *)
Lemma complete_ignores_setMode_minutes :
  let h1 := heap_after (PomodoroManager.setMode (host := IntegerHost.host) focus
                          (VNum (Int 50))) Examples.resting in
  let h2 := heap_after (PomodoroManager.complete (host := IntegerHost.host)) h1 in
  PM.currentMode (pomodoroManager h1) = focus
  /\ PM.time (pomodoroManager h1) = Int (50 * 60)
  /\ stat "totalFocusTime" h1 = Some 75
  /\ stat "totalFocusTime" h2 = Some 100
  /\ stat "totalFocusTime" h2 <> Some (75 + 50).
Proof. vm_compute. repeat split; discriminate. Qed.



Section TimerRuns.
Context {host : Host}.

(** Every timer operation returns, and it either leaves the stats record
    alone or is the completion of a focus period. *)
Lemma run_op_stats op h :
  exists h',
    run_op op h = (Normal tt, h')
    /\ (PM.stats (pomodoroManager h') = PM.stats (pomodoroManager h)
        \/ PM.stats (pomodoroManager h') = completed (PM.stats (pomodoroManager h))).
Proof.
  assert (Hcomplete : forall h0, exists h',
    PomodoroManager.complete h0 = (Normal tt, h')
    /\ (PM.stats (pomodoroManager h') = PM.stats (pomodoroManager h0)
        \/ PM.stats (pomodoroManager h')
           = completed (PM.stats (pomodoroManager h0)))).
  { intros h0. destruct (decide (PM.currentMode (pomodoroManager h0) = focus)) as [Hm|Hm].
    - destruct (complete_focus h0 Hm) as (Hrun & Hstats & _). eauto.
    - destruct (complete_break h0 Hm) as (Hrun & Hstats & _). eauto. }
  destruct op as [m minutes| | | | |handle]; simpl.
  - rewrite setMode_run. eexists. split; [reflexivity|]. by left.
  - destruct (start_run h) as (h' & Hrun & Hstats & _). eauto.
  - rewrite pause_total. destruct (pause_effect h) as (Hp & _).
    eexists. split; [reflexivity|]. left. by rewrite Hp.
  - destruct (reset_run h) as (h' & Hrun & Hp & _).
    eexists. split; [exact Hrun|]. left. by rewrite Hp.
  - apply Hcomplete.
  - unfold PomodoroManager.tick. rewrite bind_gets.
    destruct (bool_decide _); [|eexists; split; [reflexivity|by left]].
    unfold PomodoroManager.onInterval. rewrite bind_gets.
    destruct (Num.gt _ _); [|apply Hcomplete].
    unfold PomodoroManager.updateDisplay, PomodoroManager.updateTimerCircle.
    rewrite bind_modify, bind_ret. eexists. split; [reflexivity|]. by left.
Qed.

Lemma run_ops_cons op ops h h1 :
  run_op op h = (Normal tt, h1) ->
  run_ops (op :: ops) h = run_ops ops h1.
Proof. intros E. simpl. unfold bind. by rewrite E. Qed.

End TimerRuns.

(** C2.  From a stats record whose two streaks are integers, every
    sequence of timer operations (mode switches, start, pause, reset,
    direct completions and firings of the interval) returns and leaves
    integer streaks with bestStreak no smaller than it was; if the sequence
    changed the stats record at all, bestStreak is at least currentStreak
    afterwards, and if it was so before it stays so. *)
Theorem bestStreak_never_decreases {host : Host}
    (ops : list timer_op) (h : Heap) (b s : Z) :
  stat "bestStreak" h = Some b ->
  stat "currentStreak" h = Some s ->
  let h' := heap_after (run_ops ops) h in
  outcome (run_ops ops) h = Normal tt
  /\ exists b' s',
       stat "bestStreak" h' = Some b'
       /\ stat "currentStreak" h' = Some s'
       /\ b <= b'
       /\ (PM.stats (pomodoroManager h') <> PM.stats (pomodoroManager h) -> s' <= b')
       /\ (s <= b -> s' <= b').
Proof.
  revert h b s. induction ops as [|op ops IH]; intros h b s Hb Hs.
  - simpl. split; [reflexivity|]. exists b, s. repeat split; done || lia.
  - intros h'. subst h'. unfold outcome, heap_after.
    destruct (run_op_stats op h) as (h1 & Hrun & Hstats).
    rewrite (run_ops_cons _ _ _ _ Hrun).
    destruct Hstats as [Hsame | Hdone].
    + assert (Hb1 : stat "bestStreak" h1 = Some b)
        by (apply stat_lookup; rewrite Hsame; by apply stat_lookup).
      assert (Hs1 : stat "currentStreak" h1 = Some s)
        by (apply stat_lookup; rewrite Hsame; by apply stat_lookup).
      destruct (IH h1 b s Hb1 Hs1) as (Hout & b' & s' & Hb' & Hs' & Hle & Hch & Hinv).
      split; [exact Hout|]. exists b', s'.
      repeat split; try done. intros Hne. apply Hch. by rewrite Hsame.
    + apply stat_lookup in Hb, Hs.
      assert (Hb1 : stat "bestStreak" h1 = Some (Z.max b (s + 1)))
        by (apply stat_lookup; rewrite Hdone; by apply completed_bestStreak).
      assert (Hs1 : stat "currentStreak" h1 = Some (s + 1))
        by (apply stat_lookup; rewrite Hdone; by apply completed_currentStreak).
      destruct (IH h1 _ _ Hb1 Hs1) as (Hout & b' & s' & Hb' & Hs' & Hle & Hch & Hinv).
      split; [exact Hout|]. exists b', s'.
      repeat split; try done; try lia.
      all: intros _; apply Hinv; lia.
Qed.

(** Twelve operations in which four focus periods end, with breaks, a
    start, a firing of the interval, a pause, a reset and a mode switch in
    between: the streaks go from 3 and 3 to 7 and 7. *)
Lemma bestStreak_never_decreases_witness :
  let ops := [OpComplete; OpStart; OpTick 2%nat; OpPause; OpReset;
              OpSetMode focus (VNum (Int 1)); OpComplete; OpComplete;
              OpComplete; OpComplete; OpComplete; OpComplete] in
  let h' := heap_after (run_ops (host := IntegerHost.host) ops) Examples.focused in
  outcome (run_ops (host := IntegerHost.host) ops) Examples.focused = Normal tt
  /\ stat "bestStreak" h' = Some 7
  /\ stat "currentStreak" h' = Some 7.
Proof.
  intros ops h'.
  destruct (bestStreak_never_decreases (host := IntegerHost.host) ops
              Examples.focused 3 3 eq_refl eq_refl)
    as (Hout & b' & s' & Hb & Hs & _).
  split; [exact Hout|].
  split; vm_compute; reflexivity.
Defined.

(* ===================================================================== *)
(** ** The task list *)
(* ===================================================================== *)

Section Tasks.
Context {host : Host}.

(** *** Rendering the list *)

Lemma map_createTaskHTML_ok ts :
  forallb has_string_priority ts = true ->
  TaskManager.map_createTaskHTML ts = Normal tt.
Proof.
  induction ts as [|t ts IH]; simpl; [reflexivity|].
  unfold has_string_priority at 1, TaskManager.createTaskHTML.
  destruct (Task.priority t); simpl; try discriminate. exact IH.
Qed.

Lemma map_createTaskHTML_fails ts :
  forallb has_string_priority ts = false ->
  exists e, TaskManager.map_createTaskHTML ts = Throw e /\ exn_name e = "TypeError".
Proof.
  induction ts as [|t ts IH]; simpl; [discriminate|].
  unfold has_string_priority at 1, TaskManager.createTaskHTML.
  destruct (Task.priority t) as [| |b|n|s|xs|props]; simpl; eauto.
Qed.

Lemma then_return_ok {A} h (a : A) :
  tasks_render h = true ->
  then_return (TaskManager.map_createTaskHTML (TaskManager.filtered (taskManager h))) a
  = Normal a.
Proof. intros Hr. unfold tasks_render in Hr. by rewrite map_createTaskHTML_ok. Qed.

Lemma then_return_fails {A} h (a : A) :
  tasks_render h = false ->
  exists e,
    then_return (TaskManager.map_createTaskHTML (TaskManager.filtered (taskManager h))) a
    = Throw e
    /\ exn_name e = "TypeError".
Proof.
  intros Hr. unfold tasks_render in Hr.
  destruct (map_createTaskHTML_fails _ Hr) as (e & -> & He). by exists e.
Qed.

Lemma bind_renderTasks {B} (k : unit -> M B) h :
  bind TaskManager.renderTasks k h
  = match TaskManager.map_createTaskHTML (TaskManager.filtered (taskManager h)) with
    | Normal _ => k tt h
    | Throw e => (Throw e, h)
    end.
Proof.
  unfold TaskManager.renderTasks, TaskManager.getFilteredTasks,
    TaskManager.updateStats, TaskManager.bindTaskActionButtons,
    TaskManager.populatePomodoroTasks.
  rewrite !bind_assoc, bind_gets, bind_ret.
  destruct (TaskManager.filtered (taskManager h)) as [|t ts]; [reflexivity|].
  rewrite !bind_assoc. unfold bind at 1. unfold lift.
  destruct (TaskManager.map_createTaskHTML (t :: ts)) as [[]|e]; reflexivity.
Qed.

Lemma renderTasks_run h :
  TaskManager.renderTasks h
  = (TaskManager.map_createTaskHTML (TaskManager.filtered (taskManager h)), h).
Proof.
  pose proof (bind_renderTasks ret h) as Hb.
  assert (Hid : bind TaskManager.renderTasks ret h = TaskManager.renderTasks h).
  { unfold bind. by destruct (TaskManager.renderTasks h) as [[[]|e] h']. }
  rewrite Hid in Hb. rewrite Hb.
  by destruct (TaskManager.map_createTaskHTML _) as [[]|e].
Qed.

(** A list of tasks with string priorities renders under every filter. *)
Lemma filtered_render (m : TM.t) :
  forallb has_string_priority (TM.tasks m) = true ->
  forallb has_string_priority (TaskManager.filtered m) = true.
Proof.
  intros Hall. rewrite forallb_forall in Hall. apply forallb_forall. intros t Hin.
  apply Hall. unfold TaskManager.filtered in Hin.
  repeat destruct (String.eqb _ _); try exact Hin;
    apply filter_In in Hin; tauto.
Qed.

(** *** addTask *)

Lemma addTask_invalid taskData h :
  ToBoolean (get_prop taskData "title") && ToBoolean (get_prop taskData "date") = false ->
  TaskManager.addTask taskData h
  = (Throw (Exn "Error" "Title and date are required"), h).
Proof.
  intros Hbad. unfold TaskManager.addTask.
  destruct (ToBoolean (get_prop taskData "title")),
           (ToBoolean (get_prop taskData "date")); done.
Qed.

(** The task is appended and the list written before the page renders
    it; whether the call returns is for the rendering to decide. *)
Lemma addTask_valid taskData h :
  ToBoolean (get_prop taskData "title") && ToBoolean (get_prop taskData "date") = true ->
  exists task h',
    TaskManager.addTask taskData h
    = (then_return
         (TaskManager.map_createTaskHTML (TaskManager.filtered (taskManager h'))) task,
       h')
    /\ Task.id task = clock h 0%nat
    /\ Task.title task = get_prop taskData "title"
    /\ Task.desc task = js_or (get_prop taskData "desc") (VStr "")
    /\ Task.date task = get_prop taskData "date"
    /\ Task.time task = (let n := parseInt (get_prop taskData "time") in
                         if Num.truthy n then n else Int 25)
    /\ Task.priority task = js_or (get_prop taskData "priority") (VStr "media")
    /\ Task.completed task = false
    /\ Task.createdAt task = Date_toISOString (clock h 1%nat)
    /\ TM.tasks (taskManager h') = (TM.tasks (taskManager h) ++ [task])%list
    /\ clock h' = (fun n => clock h (S (S n)))
    /\ localStorage h'
       = localStorage
           (heap_after (Storage.set StorageKeys.TASKS
                          (tasks_value (TM.tasks (taskManager h) ++ [task])%list)) h)
    /\ TM.currentFilter (taskManager h') = TM.currentFilter (taskManager h).
Proof.
  intros Hok. unfold TaskManager.addTask.
  destruct (ToBoolean (get_prop taskData "title")); [|done].
  destruct (ToBoolean (get_prop taskData "date")); [|done].
  cbn [negb orb]. rewrite !bind_now, bind_modify.
  unfold TaskManager.save, AchievementSystem.show.
  rewrite bind_assoc, bind_gets, bind_Storage_set, bind_ret, bind_renderTasks. hsimpl.
  match goal with |- context [heap_after (Storage.set ?k ?v) ?hh] =>
    destruct (Storage_set_frame k v hh) as (_ & F2 & _ & _ & _ & F6);
    pose proof (Storage_set_localStorage k v hh h eq_refl) as F7;
    set (h' := heap_after (Storage.set k v) hh) in *
  end.
  eexists _, h'. split.
  { unfold then_return.
    destruct (TaskManager.map_createTaskHTML _) as [[]|e]; reflexivity. }
  cbn [Task.id Task.title Task.desc Task.date
    Task.time Task.priority Task.completed Task.createdAt].
  repeat split; try reflexivity.
  - rewrite F2. reflexivity.
  - rewrite F6. reflexivity.
  - exact F7.
  - rewrite F2. reflexivity.
Qed.

(** *** deleteTask *)

Lemma deleteTask_run id h :
  exists h',
    TaskManager.deleteTask id h
    = (TaskManager.map_createTaskHTML (TaskManager.filtered (taskManager h')), h')
    /\ TM.tasks (taskManager h')
       = List.filter (fun t => negb (TaskManager.id_is id t)) (TM.tasks (taskManager h))
    /\ localStorage h'
       = localStorage
           (heap_after (Storage.set StorageKeys.TASKS
              (tasks_value (List.filter (fun t => negb (TaskManager.id_is id t))
                              (TM.tasks (taskManager h))))) h)
    /\ TM.currentFilter (taskManager h') = TM.currentFilter (taskManager h).
Proof.
  unfold TaskManager.deleteTask, TaskManager.save.
  rewrite bind_modify, bind_assoc, bind_gets, bind_Storage_set, renderTasks_run. hsimpl.
  match goal with |- context [heap_after (Storage.set ?k ?v) ?hh] =>
    destruct (Storage_set_frame k v hh) as (_ & F2 & _);
    pose proof (Storage_set_localStorage k v hh h eq_refl) as F7;
    set (h' := heap_after (Storage.set k v) hh) in *
  end.
  exists h'. split; [reflexivity|].
  split; [by rewrite F2|]. split; [exact F7 | by rewrite F2].
Qed.

End Tasks.

(** What is left of a list when the elements that satisfy [p] are struck
    out is a sublist of it. *)
Lemma filter_negb_sublist {A} (p : A -> bool) (l : list A) :
  sublist (List.filter (fun x => negb (p x)) l) l.
Proof.
  induction l as [|x l IH]; simpl; [constructor|].
  destruct (p x); simpl; by constructor.
Qed.

Lemma filter_negb_length {A} (p : A -> bool) (l : list A) :
  (length (List.filter (fun x => negb (p x)) l) + length (List.filter p l)
   = length l)%nat.
Proof.
  induction l as [|x l IH]; simpl; [reflexivity|].
  destruct (p x); simpl; lia.
Qed.

Lemma filter_negb_none {A} (p : A -> bool) (l : list A) :
  (forall x, In x l -> p x = false) ->
  List.filter (fun x => negb (p x)) l = l.
Proof.
  induction l as [|x l IH]; simpl; intros Hall; [reflexivity|].
  rewrite (Hall x) by auto. simpl. f_equal. apply IH. auto.
Qed.

(** parseInt skips white space outside ASCII as well: a no-break space
    (U+00A0) and an ideographic space (U+3000) before the digits. *)
Lemma parseInt_skips_white_space :
  parseInt (VStr (String (ascii_of_nat 194) (String (ascii_of_nat 160) "42"))) = Int 42
  /\ parseInt (VStr (String (ascii_of_nat 227) (String (ascii_of_nat 128)
                        (String (ascii_of_nat 128) " -7 min")))) = Int (-7)
  /\ parseInt (VStr (String (ascii_of_nat 194) "42")) = NaN.
Proof. repeat split; vm_compute; reflexivity. Qed.

Lemma falsy_field (o : gmap string value) (k : string) :
  o !! k = None \/ o !! k = Some (VStr "") -> ToBoolean (get_prop o k) = false.
Proof. unfold get_prop. by intros [-> | ->]. Qed.

(** C4, as the code has it.  [addTask] throws its validation error (an
    Error with the message "Title and date are required") exactly when the
    title or the date is falsy, which covers a missing field and the empty
    string, and then changes nothing.  Otherwise it builds a task and
    appends it at the end of the list: not completed, title and date as
    given, description and priority as given or the empty string and
    "media" when falsy, and for the estimated minutes the integer that
    parseInt reads at the start of the given value when there is one other
    than zero (negative readings included), 25 otherwise; the extended list
    is written to storage.  Then the page renders the list and the task is
    returned.  The rendering calls toUpperCase on the priority of every
    task that the current filter shows, so the call ends in a TypeError
    instead, with the task appended and written, exactly when one of them
    has a priority that is not a string; with strings for the priorities
    of the list and a string or nothing for the new one this does not
    happen. *)
Theorem addTask_validates_and_appends {host : Host}
    (h : Heap) (taskData : gmap string value) :
  let title := get_prop taskData "title" in
  let date := get_prop taskData "date" in
  let run := TaskManager.addTask taskData in
  (outcome run h = Throw (Exn "Error" "Title and date are required")
   <-> (ToBoolean title = false \/ ToBoolean date = false))
  /\ (ToBoolean title = false \/ ToBoolean date = false -> heap_after run h = h)
  /\ (forall k, (k = "title" \/ k = "date") ->
        (taskData !! k = None \/ taskData !! k = Some (VStr "")) ->
        outcome run h = Throw (Exn "Error" "Title and date are required"))
  /\ (ToBoolean title = true -> ToBoolean date = true ->
      exists task,
        TM.tasks (taskManager (heap_after run h))
        = (TM.tasks (taskManager h) ++ [task])%list
        /\ Task.completed task = false
        /\ Task.title task = title
        /\ Task.date task = date
        /\ Task.desc task
           = (if ToBoolean (get_prop taskData "desc")
              then get_prop taskData "desc" else VStr "")
        /\ Task.priority task
           = (if ToBoolean (get_prop taskData "priority")
              then get_prop taskData "priority" else VStr "media")
        /\ (exists n, Task.time task = Int n /\ n <> 0
              /\ (parseInt (get_prop taskData "time") = Int n
                  \/ (n = 25
                      /\ (parseInt (get_prop taskData "time") = NaN
                          \/ parseInt (get_prop taskData "time") = Int 0))))
        /\ (taskData !! "time" = None -> Task.time task = Int 25)
        /\ localStorage (heap_after run h)
           = localStorage
               (heap_after (Storage.set StorageKeys.TASKS
                              (tasks_value (TM.tasks (taskManager h) ++ [task])%list))
                  h)
        /\ (tasks_render (heap_after run h) = true -> outcome run h = Normal task)
        /\ (tasks_render (heap_after run h) = false ->
            exists e, outcome run h = Throw e /\ exn_name e = "TypeError")
        /\ (forallb has_string_priority (TM.tasks (taskManager h)) = true ->
            (ToBoolean (get_prop taskData "priority") = false
             \/ exists s, get_prop taskData "priority" = VStr s) ->
            outcome run h = Normal task)).
Proof.
  intros title date run.
  assert (Hbad : ToBoolean title = false \/ ToBoolean date = false ->
                 run h = (Throw (Exn "Error" "Title and date are required"), h)).
  { intros Hf. apply addTask_invalid. fold title date.
    destruct Hf as [-> | ->]; [done | by destruct (ToBoolean title)]. }
  assert (Hgood : ToBoolean title = true -> ToBoolean date = true ->
            ToBoolean (get_prop taskData "title")
            && ToBoolean (get_prop taskData "date") = true).
  { intros Ht Hd. fold title date. by rewrite Ht, Hd. }
  split; [|split; [|split]].
  - split.
    + intros He. destruct (ToBoolean title) eqn:Ht; [|by left].
      destruct (ToBoolean date) eqn:Hd; [|by right]. exfalso.
      destruct (addTask_valid taskData h (Hgood eq_refl eq_refl))
        as (task & h' & Hrun & _).
      unfold outcome, run in He. rewrite Hrun in He. cbn [fst] in He.
      destruct (tasks_render h') eqn:Hr.
      * rewrite (then_return_ok _ _ Hr) in He. discriminate.
      * destruct (then_return_fails h' task Hr) as (e & He' & Hname).
        rewrite He' in He. injection He as ->. discriminate.
    + intros Hf. unfold outcome. by rewrite (Hbad Hf).
  - intros Hf. unfold heap_after. by rewrite (Hbad Hf).
  - intros k Hk Hmiss. unfold outcome. rewrite Hbad; [reflexivity|].
    apply falsy_field in Hmiss. destruct Hk as [-> | ->]; [by left | by right].
  - intros Ht Hd.
    destruct (addTask_valid taskData h (Hgood Ht Hd))
      as (task & h' & Hrun & _ & Htitle & Hdesc & Hdate & Htime & Hprio & Hcompl
          & _ & Htasks & _ & Hls & Hfilter).
    exists task. unfold outcome, heap_after, run. rewrite Hrun. hsimpl.
    split; [exact Htasks|]. split; [exact Hcompl|].
    split; [exact Htitle|]. split; [exact Hdate|]. split; [exact Hdesc|].
    split; [exact Hprio|]. split; [|split; [|split; [exact Hls|]]].
    + rewrite Htime. cbn zeta.
      destruct (parseInt (get_prop taskData "time")) as [|z] eqn:Hp; simpl.
      * exists 25. split; [reflexivity|]. split; [lia|]. right. auto.
      * destruct (Z.eqb_spec z 0) as [->|Hz]; simpl.
        -- exists 25. split; [reflexivity|]. split; [lia|]. right. auto.
        -- exists z. auto.
    + intros Hnone. rewrite Htime. unfold get_prop. rewrite Hnone. reflexivity.
    + split; [apply then_return_ok|]. split; [apply then_return_fails|].
      intros Hall Hgiven. apply then_return_ok. unfold tasks_render.
      apply filtered_render. rewrite Htasks, forallb_app, Hall. simpl.
      unfold has_string_priority. rewrite Hprio. unfold js_or.
      destruct Hgiven as [-> | [s Hs]]; [reflexivity|].
      rewrite Hs. by destruct (ToBoolean (VStr s)).
Qed.

(** A task with title, date and "-5" minutes on a new page is appended
    with -5 minutes and returned; the same data without a title is refused
    and the page stays as it was. *)
Lemma addTask_validates_and_appends_witness :
  (exists task,
     outcome (TaskManager.addTask (host := IntegerHost.host) Examples.homework)
       Examples.fresh = Normal task
     /\ TM.tasks (taskManager
                    (heap_after (TaskManager.addTask (host := IntegerHost.host)
                                   Examples.homework) Examples.fresh)) = [task]
     /\ Task.priority task = VStr "media"
     /\ Task.time task = Int (-5))
  /\ outcome (TaskManager.addTask (host := IntegerHost.host) Examples.untitled)
       Examples.fresh = Throw (Exn "Error" "Title and date are required").
Proof.
  split.
  - destruct (addTask_validates_and_appends (host := IntegerHost.host)
                Examples.fresh Examples.homework) as (_ & _ & _ & Hok).
    destruct (Hok eq_refl eq_refl)
      as (task & Htasks & _ & _ & _ & _ & Hprio & (n & Hn & _ & Hparse) & _ & _
          & _ & _ & Hrun).
    exists task. split; [apply Hrun; [reflexivity | by left]|].
    split; [exact Htasks|]. split; [exact Hprio|].
    rewrite Hn. destruct Hparse as [Hp | [_ [Hp | Hp]]];
      vm_compute in Hp; congruence.
  - destruct (addTask_validates_and_appends (host := IntegerHost.host)
                Examples.fresh Examples.untitled) as (Hbad & _).
    apply (proj2 Hbad). by left.
Defined.

(** The estimated minutes of a new task need not be positive: "-5" is read
    as -5 and kept. *)
Lemma addTask_keeps_negative_minutes :
  exists task,
    outcome (TaskManager.addTask (host := IntegerHost.host) Examples.homework)
      Examples.fresh = Normal task
    /\ Task.time task = Int (-5)
    /\ ~ (exists n, Task.time task = Int n /\ 0 < n).
Proof.
  eexists. split; [vm_compute; reflexivity|].
  split; [reflexivity|]. intros (n & [= <-] & Hpos). lia.
Qed.

(** C7, where the code breaks it.  Two tasks added while the clock shows
    the same millisecond get the same id, and both are kept in the list:
    the ids of the list are then not pairwise distinct.  Both calls return
    their task whenever the page renders the list (see C4). *)
Theorem addTask_twice_in_a_millisecond {host : Host}
    (h : Heap) (first second : gmap string value) :
  ToBoolean (get_prop first "title") && ToBoolean (get_prop first "date") = true ->
  ToBoolean (get_prop second "title") && ToBoolean (get_prop second "date") = true ->
  clock h 2%nat = clock h 0%nat ->
  let h1 := heap_after (TaskManager.addTask first) h in
  let h2 := heap_after (TaskManager.addTask second) h1 in
  exists t1 t2,
    TM.tasks (taskManager h2) = (TM.tasks (taskManager h) ++ [t1; t2])%list
    /\ Task.id t1 = Task.id t2
    /\ ~ NoDup (map Task.id (TM.tasks (taskManager h2)))
    /\ (tasks_render h1 = true -> TaskManager.addTask first h = (Normal t1, h1))
    /\ (tasks_render h2 = true -> TaskManager.addTask second h1 = (Normal t2, h2)).
Proof.
  intros Hfirst Hsecond Hclock h1 h2.
  destruct (addTask_valid first h Hfirst)
    as (t1 & h1' & Hrun1 & Hid1 & _ & _ & _ & _ & _ & _ & _ & Htasks1 & Hclock1 & _).
  assert (Hh1 : h1 = h1') by (subst h1; unfold heap_after; by rewrite Hrun1).
  destruct (addTask_valid second h1' Hsecond)
    as (t2 & h2' & Hrun2 & Hid2 & _ & _ & _ & _ & _ & _ & _ & Htasks2 & _).
  assert (Hh2 : h2 = h2')
    by (subst h2; rewrite Hh1; unfold heap_after; by rewrite Hrun2).
  exists t1, t2.
  assert (Hsame : Task.id t1 = Task.id t2)
    by (rewrite Hid1, Hid2, Hclock1; symmetry; exact Hclock).
  assert (Hall : TM.tasks (taskManager h2)
                 = (TM.tasks (taskManager h) ++ [t1; t2])%list).
  { rewrite Hh2, Htasks2, Htasks1. symmetry. apply (List.app_assoc _ [t1] [t2]). }
  split; [exact Hall|]. split; [exact Hsame|]. split.
  { rewrite Hall, map_app. simpl. rewrite Hsame.
    intros Hnodup. apply NoDup_app in Hnodup as (_ & _ & Hnodup).
    apply NoDup_cons in Hnodup as [Hnotin _]. apply Hnotin. by left. }
  split.
  - intros Hr. rewrite Hrun1, <- Hh1. by rewrite (then_return_ok _ _ Hr).
  - intros Hr. rewrite Hh1, Hrun2, <- Hh2. by rewrite (then_return_ok _ _ Hr).
Qed.

(** The same homework entered twice on a new page within one millisecond:
    both calls return, and the list holds two tasks, both with id
    1700000000000. *)
Lemma addTask_twice_in_a_millisecond_witness :
  exists t1 t2,
    outcome (TaskManager.addTask (host := IntegerHost.host) Examples.homework)
      Examples.fresh = Normal t1
    /\ outcome
         (do _ <- TaskManager.addTask (host := IntegerHost.host) Examples.homework;
          TaskManager.addTask (host := IntegerHost.host) Examples.homework)
         Examples.fresh = Normal t2
    /\ map Task.id
         (TM.tasks (taskManager
            (heap_after
               (do _ <- TaskManager.addTask (host := IntegerHost.host) Examples.homework;
                TaskManager.addTask (host := IntegerHost.host) Examples.homework)
               Examples.fresh)))
       = [Task.id t1; Task.id t2]
    /\ Task.id t1 = 1700000000000
    /\ Task.id t2 = 1700000000000.
Proof.
  destruct (addTask_twice_in_a_millisecond (host := IntegerHost.host)
              Examples.fresh Examples.homework Examples.homework
              eq_refl eq_refl eq_refl)
    as (t1 & t2 & Htasks & Hid & _ & Hrun1 & Hrun2).
  specialize (Hrun1 eq_refl). specialize (Hrun2 eq_refl).
  exists t1, t2.
  unfold outcome, heap_after, bind. rewrite Hrun1, Hrun2. hsimpl. rewrite Htasks.
  split; [reflexivity|]. split; [reflexivity|]. split; [reflexivity|].
  assert (H1 : Task.id t1 = 1700000000000).
  { assert (E : fst (TaskManager.addTask (host := IntegerHost.host)
                       Examples.homework Examples.fresh) = Normal t1)
      by (by rewrite Hrun1).
    vm_compute in E. injection E as <-. reflexivity. }
  split; [exact H1 | by rewrite <- Hid].
Defined.

(** C10.  [deleteTask] leaves, in their order and unchanged, exactly the
    tasks whose id is not strictly equal to the given one: every task with
    that id is gone, however many there were; when no task has it the list
    is as before; and in every case the resulting list is written to
    storage.  After that the page renders the list: the call returns when
    every task that the current filter shows has a string for its
    priority, and ends in the TypeError of the rendering otherwise. *)
Theorem deleteTask_removes_matching_tasks {host : Host} (h : Heap) (id : value) :
  let ts := TM.tasks (taskManager h) in
  let h' := heap_after (TaskManager.deleteTask id) h in
  let ts' := TM.tasks (taskManager h') in
  (forall t, In t ts' <-> In t ts /\ TaskManager.id_is id t = false)
  /\ (forall z, id = VNum (Int z) ->
        forall t, In t ts' <-> In t ts /\ Task.id t <> z)
  /\ sublist ts' ts
  /\ (length ts' + length (List.filter (TaskManager.id_is id) ts) = length ts)%nat
  /\ ((forall t, In t ts -> TaskManager.id_is id t = false) -> ts' = ts)
  /\ localStorage h'
     = localStorage (heap_after (Storage.set StorageKeys.TASKS (tasks_value ts')) h)
  /\ (tasks_render h' = true -> outcome (TaskManager.deleteTask id) h = Normal tt)
  /\ (tasks_render h' = false ->
      exists e, outcome (TaskManager.deleteTask id) h = Throw e
                /\ exn_name e = "TypeError")
  /\ (forallb has_string_priority ts = true ->
      outcome (TaskManager.deleteTask id) h = Normal tt).
Proof.
  intros ts h' ts'.
  destruct (deleteTask_run id h) as (h1 & Hrun & Htasks & Hls & Hfilter).
  assert (Hh' : h' = h1) by (subst h'; unfold heap_after; by rewrite Hrun).
  assert (Hts' : ts' = List.filter (fun t => negb (TaskManager.id_is id t)) ts)
    by (subst ts'; by rewrite Hh', Htasks).
  assert (Hmem : forall t, In t ts' <-> In t ts /\ TaskManager.id_is id t = false).
  { intros t. rewrite Hts', filter_In. destruct (TaskManager.id_is id t); simpl; intuition congruence. }
  assert (Hok : tasks_render h' = true -> outcome (TaskManager.deleteTask id) h = Normal tt).
  { intros Hr. unfold outcome. rewrite Hrun, <- Hh'. cbn [fst].
    apply map_createTaskHTML_ok. exact Hr. }
  split; [exact Hmem|].
  split.
  { intros z -> t. rewrite Hmem. simpl. by rewrite Z.eqb_neq. }
  split; [rewrite Hts'; apply filter_negb_sublist|].
  split; [rewrite Hts'; apply filter_negb_length|].
  split; [intros Hnone; rewrite Hts'; by apply filter_negb_none|].
  split; [rewrite Hh', Hls, Hts'; reflexivity|].
  split; [exact Hok|]. split.
  - intros Hr. unfold outcome. rewrite Hrun, <- Hh'. cbn [fst].
    apply map_createTaskHTML_fails. exact Hr.
  - intros Hall. apply Hok. unfold tasks_render. apply filtered_render.
    fold ts'. rewrite forallb_forall in Hall. apply forallb_forall.
    intros t Hin. apply Hall. by apply Hmem.
Qed.

(** On a list with two tasks of id 7 around one of id 8: deleting 7 keeps
    the task of id 8 and no task of id 7, deleting 9 leaves the three
    tasks. *)
Lemma deleteTask_removes_matching_tasks_witness :
  In (Examples.task 8)
    (TM.tasks (taskManager
       (heap_after (TaskManager.deleteTask (host := IntegerHost.host) (VNum (Int 7)))
          Examples.listed)))
  /\ ~ In (Examples.task 7)
        (TM.tasks (taskManager
           (heap_after (TaskManager.deleteTask (host := IntegerHost.host) (VNum (Int 7)))
              Examples.listed)))
  /\ TM.tasks (taskManager
        (heap_after (TaskManager.deleteTask (host := IntegerHost.host) (VNum (Int 9)))
           Examples.listed))
     = [Examples.task 7; Examples.task 8; Examples.task 7]
  /\ outcome (TaskManager.deleteTask (host := IntegerHost.host) (VNum (Int 7)))
       Examples.listed = Normal tt.
Proof.
  destruct (deleteTask_removes_matching_tasks (host := IntegerHost.host)
              Examples.listed (VNum (Int 7))) as (Hmem & _ & _ & _ & _ & _ & _ & _ & Hret).
  destruct (deleteTask_removes_matching_tasks (host := IntegerHost.host)
              Examples.listed (VNum (Int 9))) as (_ & _ & _ & _ & Hnone & _).
  split; [apply (proj2 (Hmem (Examples.task 8)));
          split; [right; left; reflexivity | reflexivity]|].
  split; [intros Hin; apply (proj1 (Hmem (Examples.task 7))) in Hin as [_ Hid];
          discriminate|].
  split; [apply Hnone; intros t [<- | [<- | [<- | []]]]; reflexivity|].
  apply Hret. reflexivity.
Defined.

(* ===================================================================== *)
(** ** The flashcard cursor *)
(* ===================================================================== *)

(** *** The display *)

Lemma displayCurrentCard_run h :
  FlashcardManager.displayCurrentCard h
  = (if card_displays h then Normal tt
     else Throw (Exn "TypeError"
                   "Cannot read properties of undefined (reading 'subject')"),
     h).
Proof.
  unfold FlashcardManager.displayCurrentCard, card_displays. rewrite bind_gets.
  cbn zeta. destruct (Z.of_nat (length (FM.flashcards (flashcardManager h))) =? 0);
    [reflexivity|].
  destruct (FlashcardManager.at_index _ _); reflexivity.
Qed.

Lemma at_index_in_range (cs : list Flashcard.t) (z : Z) :
  0 <= z < Z.of_nat (length cs) ->
  exists card, cs !! Z.to_nat z = Some card
               /\ FlashcardManager.at_index cs (Int z) = Some (Z.to_nat z, card).
Proof.
  intros Hrange. unfold FlashcardManager.at_index, FlashcardManager.array_index.
  destruct (Z.ltb_spec z 0); [lia|].
  destruct (lookup_lt_is_Some_2 cs (Z.to_nat z)) as [card Hcard]; [lia|].
  exists card. by rewrite Hcard.
Qed.

Lemma card_displays_in_range h z :
  FM.currentCardIndex (flashcardManager h) = Int z ->
  0 <= z < Z.of_nat (length (FM.flashcards (flashcardManager h))) ->
  card_displays h = true.
Proof.
  intros Hi Hrange. unfold card_displays. cbn zeta. rewrite Hi.
  destruct (at_index_in_range _ z Hrange) as (card & _ & ->).
  apply orb_true_r.
Qed.

Lemma card_displays_on_card h : cursor_on_card h -> card_displays h = true.
Proof.
  intros (i & card & Hi & Hcard). apply (card_displays_in_range h (Z.of_nat i) Hi).
  apply lookup_lt_Some in Hcard. lia.
Qed.

Lemma card_displays_off_card h :
  FM.flashcards (flashcardManager h) <> [] ->
  card_displays h = true -> cursor_on_card h.
Proof.
  unfold card_displays, FlashcardManager.at_index, FlashcardManager.array_index.
  cbn zeta. intros Hne Hd.
  destruct (Z.eqb_spec (Z.of_nat (length (FM.flashcards (flashcardManager h)))) 0)
    as [Hz|_].
  { destruct (FM.flashcards (flashcardManager h)); [done | cbn [length] in Hz; lia]. }
  cbn [orb] in Hd.
  destruct (FM.currentCardIndex (flashcardManager h)) as [|z] eqn:Hi; [done|].
  destruct (Z.ltb_spec z 0); [done|].
  destruct (FM.flashcards (flashcardManager h) !! Z.to_nat z) as [card|] eqn:Hcard;
    [|done].
  exists (Z.to_nat z), card. split; [rewrite Hi; f_equal; lia | exact Hcard].
Qed.

Lemma nextCard_run h :
  FlashcardManager.nextCard h
  = FlashcardManager.displayCurrentCard
      (with_flashcardManager
         (FlashcardManager.set_index
            (Num.rem (Num.add (FM.currentCardIndex (flashcardManager h)) (Int 1))
                     (FlashcardManager.length_of (flashcardManager h)))) h).
Proof. reflexivity. Qed.

Lemma previousCard_run h :
  FlashcardManager.previousCard h
  = FlashcardManager.displayCurrentCard
      (with_flashcardManager
         (FlashcardManager.set_index
            (Num.rem (Num.add (Num.sub (FM.currentCardIndex (flashcardManager h)) (Int 1))
                              (FlashcardManager.length_of (flashcardManager h)))
                     (FlashcardManager.length_of (flashcardManager h)))) h).
Proof. reflexivity. Qed.

(** X20.  With cards in the collection and the cursor on one of them,
    nextCard and previousCard return and move it by one, modulo the number
    of cards: from the last card to the first and back. *)
Lemma card_cursor_wraps (h : Heap) (i : Z) :
  let n := Z.of_nat (length (FM.flashcards (flashcardManager h))) in
  FM.currentCardIndex (flashcardManager h) = Int i ->
  0 <= i < n ->
  outcome FlashcardManager.nextCard h = Normal tt
  /\ FM.currentCardIndex (flashcardManager (heap_after FlashcardManager.nextCard h))
     = Int ((i + 1) mod n)
  /\ outcome FlashcardManager.previousCard h = Normal tt
  /\ FM.currentCardIndex
       (flashcardManager (heap_after FlashcardManager.previousCard h))
     = Int ((i - 1) mod n).
Proof.
  intros n Hi Hrange.
  assert (Hnext : Num.rem (Num.add (FM.currentCardIndex (flashcardManager h)) (Int 1))
                    (FlashcardManager.length_of (flashcardManager h))
                  = Int ((i + 1) mod n)).
  { rewrite Hi. unfold FlashcardManager.length_of. fold n. simpl.
    destruct (Z.eqb_spec n 0) as [Hz|Hz]; [lia|].
    f_equal. by rewrite Z.rem_mod_nonneg by lia. }
  assert (Hprev : Num.rem (Num.add (Num.sub (FM.currentCardIndex (flashcardManager h))
                                      (Int 1))
                             (FlashcardManager.length_of (flashcardManager h)))
                    (FlashcardManager.length_of (flashcardManager h))
                  = Int ((i - 1) mod n)).
  { rewrite Hi. unfold FlashcardManager.length_of. fold n. simpl.
    destruct (Z.eqb_spec n 0) as [Hz|Hz]; [lia|].
    f_equal. rewrite Z.rem_mod_nonneg by lia.
    replace (i - 1 + n) with (i - 1 + 1 * n) by lia. apply Z_mod_plus_full. }
  unfold outcome, heap_after.
  rewrite nextCard_run, previousCard_run, !displayCurrentCard_run, Hnext, Hprev.
  cbn [fst snd].
  rewrite (card_displays_in_range _ ((i + 1) mod n)), (card_displays_in_range _ ((i - 1) mod n));
    hsimpl; try reflexivity; try (fold n; apply Z.mod_pos_bound; lia).
  done.
Qed.

Lemma card_cursor_wraps_example :
  FM.currentCardIndex
    (flashcardManager (heap_after FlashcardManager.previousCard Examples.studying))
  = Int 2
  /\ FM.currentCardIndex
       (flashcardManager
          (heap_after (do _ <- FlashcardManager.previousCard; FlashcardManager.nextCard)
             Examples.studying))
     = Int 0.
Proof.
  destruct (card_cursor_wraps Examples.studying 0 eq_refl) as (_ & _ & _ & Hprev);
    [simpl; lia|].
  split; [exact Hprev | reflexivity].
Defined.

(** C5, where the code breaks it.  On an empty collection nextCard and
    previousCard are not no-ops: the remainder by a length of zero makes
    the cursor NaN, whatever it was. *)
Theorem card_cursor_lost_on_empty_collection (h : Heap) :
  FM.flashcards (flashcardManager h) = [] ->
  outcome FlashcardManager.nextCard h = Normal tt
  /\ FM.currentCardIndex (flashcardManager (heap_after FlashcardManager.nextCard h))
     = NaN
  /\ outcome FlashcardManager.previousCard h = Normal tt
  /\ FM.currentCardIndex
       (flashcardManager (heap_after FlashcardManager.previousCard h))
     = NaN.
Proof.
  intros Hempty.
  unfold outcome, heap_after.
  rewrite nextCard_run, previousCard_run, !displayCurrentCard_run.
  unfold card_displays. hsimpl. rewrite Hempty. cbn [fst snd length Z.of_nat Z.eqb orb].
  hsimpl. unfold FlashcardManager.length_of. rewrite Hempty. simpl.
  destruct (FM.currentCardIndex (flashcardManager h)); done.
Qed.

(** On a new page, with no card and the cursor at 0, either button leaves
    the cursor at NaN instead of 0. *)
Lemma card_cursor_lost_on_empty_collection_witness :
  FM.currentCardIndex (flashcardManager Examples.fresh) = Int 0
  /\ FM.currentCardIndex
       (flashcardManager (heap_after FlashcardManager.nextCard Examples.fresh)) = NaN
  /\ FM.currentCardIndex
       (flashcardManager (heap_after FlashcardManager.previousCard Examples.fresh))
     = NaN.
Proof.
  destruct (card_cursor_lost_on_empty_collection Examples.fresh eq_refl)
    as (_ & Hnext & _ & Hprev).
  split; [reflexivity|]. split; [exact Hnext | exact Hprev].
Defined.

(** A cursor that is NaN stays NaN once there are cards: the display then
    fails on the card it does not find, and so does marking the current
    card as reviewed. *)
Lemma card_cursor_stays_lost {host : Host} (h : Heap) :
  FM.currentCardIndex (flashcardManager h) = NaN ->
  FM.flashcards (flashcardManager h) <> [] ->
  FM.currentCardIndex (flashcardManager (heap_after FlashcardManager.nextCard h))
  = NaN
  /\ (exists e, outcome FlashcardManager.nextCard h = Throw e
                /\ exn_name e = "TypeError")
  /\ exists e, outcome FlashcardManager.markReviewed h = Throw e
               /\ exn_name e = "TypeError".
Proof.
  intros Hnan Hcards. split; [|split].
  - unfold heap_after. rewrite nextCard_run, displayCurrentCard_run. hsimpl.
    by rewrite Hnan.
  - unfold outcome. rewrite nextCard_run, displayCurrentCard_run.
    unfold card_displays. hsimpl. rewrite Hnan.
    destruct (FM.flashcards (flashcardManager h)); [done|]. simpl. eauto.
  - unfold outcome, FlashcardManager.markReviewed. rewrite bind_gets, Hnan.
    destruct (FM.flashcards (flashcardManager h)); [done|]. simpl. eauto.
Qed.

(* ===================================================================== *)
(** ** Loading the session stats *)
(* ===================================================================== *)

Section Load.
Context {host : Host}.

Lemma bind_Storage_get {B} key (k : value -> M B) h v :
  outcome (Storage.get key) h = Normal v ->
  bind (Storage.get key) k h = k v (heap_after (Storage.get key) h).
Proof.
  intros Hv. unfold bind at 1. by rewrite Storage_get_total, Hv.
Qed.

Lemma Storage_get_returns key h :
  exists v, outcome (Storage.get key) h = Normal v.
Proof. rewrite Storage_get_outcome. eauto. Qed.

Lemma Storage_get_localStorage key h1 h2 :
  localStorage h1 = localStorage h2 ->
  outcome (Storage.get key) h1 = outcome (Storage.get key) h2.
Proof. intros Heq. by rewrite !Storage_get_outcome, Heq. Qed.

Lemma load_run h saved :
  outcome (Storage.get StorageKeys.POMODORO_STATS) h = Normal saved ->
  exists h',
    PomodoroManager.load h = (Normal tt, h')
    /\ PM.stats (pomodoroManager h')
       = (if ToBoolean saved
          then spread (PM.stats (pomodoroManager h)) saved
          else PM.stats (pomodoroManager h))
    /\ localStorage h' = localStorage h.
Proof.
  intros Hsaved. unfold PomodoroManager.load.
  rewrite (bind_Storage_get _ _ _ _ Hsaved).
  destruct (Storage_get_frame StorageKeys.POMODORO_STATS h) as (Hls & Hpm & _).
  set (h1 := heap_after (Storage.get StorageKeys.POMODORO_STATS) h) in *.
  clearbody h1. unfold PomodoroManager.update_stats.
  destruct (ToBoolean saved); eexists; (split; [reflexivity|]); hsimpl;
    rewrite Hpm; done.
Qed.

End Load.

(** C8, as the code has it.  The constructor starts from the four counters
    at zero and, when storage holds a stats record, copies every property
    of that record over them: a counter that the record lacks keeps its
    zero, a counter that it has takes the stored value, and a property
    outside the four counters is copied into the stats record as well.
    With nothing usable in storage the counters stay at zero. *)
Theorem load_merges_every_saved_field {host : Host} (h : Heap) :
  exists saved,
    outcome (Storage.get StorageKeys.POMODORO_STATS) h = Normal saved
    /\ outcome PomodoroManager.constructor h = Normal tt
    /\ let stats' :=
         PM.stats (pomodoroManager (heap_after PomodoroManager.constructor h)) in
       let zeros := PM.stats PomodoroManager.initial in
       (ToBoolean saved = false -> stats' = zeros)
       /\ (ToBoolean saved = true ->
           forall k,
             (own_props saved !! k = None -> stats' !! k = zeros !! k)
             /\ (forall v, own_props saved !! k = Some v -> stats' !! k = Some v))
       /\ (forall props, saved = VObj props ->
             forall k v, props !! k = Some v -> stats' !! k = Some v).
Proof.
  destruct (Storage_get_returns StorageKeys.POMODORO_STATS h) as [saved Hsaved].
  exists saved. split; [exact Hsaved|].
  unfold PomodoroManager.constructor, outcome, heap_after.
  rewrite bind_modify.
  match goal with |- context [PomodoroManager.load ?hh] =>
    destruct (load_run hh saved) as (h' & Hrun & Hstats & _);
      [by rewrite (Storage_get_localStorage _ hh h)|]
  end.
  rewrite Hrun. hsimpl. split; [reflexivity|]. rewrite Hstats. hsimpl.
  assert (Hmerge : ToBoolean saved = true ->
            forall k,
              (own_props saved !! k = None ->
               spread (PM.stats PomodoroManager.initial) saved !! k
               = PM.stats PomodoroManager.initial !! k)
              /\ (forall v, own_props saved !! k = Some v ->
                    spread (PM.stats PomodoroManager.initial) saved !! k = Some v)).
  { intros _ k. unfold spread. split.
    - intros Hnone. by apply lookup_union_r.
    - intros v Hv. by apply lookup_union_Some_l. }
  split; [by intros ->|].
  split; [intros Ht; rewrite Ht; by apply Hmerge|].
  intros props -> k v Hv. simpl. by apply Hmerge.
Qed.

(** The page whose storage holds pomodoroCount 3 and a theme: after the
    constructor pomodoroCount is 3, totalFocusTime is still 0 and the
    theme is part of the stats record. *)
Lemma load_merges_every_saved_field_witness :
  let stats' :=
    PM.stats (pomodoroManager
                (heap_after (PomodoroManager.constructor (host := IntegerHost.host))
                   Examples.fresh)) in
  stats' !! "pomodoroCount" = Some (VNum (Int 3))
  /\ stats' !! "totalFocusTime" = Some (VNum (Int 0))
  /\ stats' !! "theme" = Some (VStr "dark").
Proof.
  intros stats'.
  destruct (load_merges_every_saved_field (host := IntegerHost.host) Examples.fresh)
    as (saved & Hsaved & _ & _ & Hmerge & Hobj).
  vm_compute in Hsaved. injection Hsaved as <-.
  split; [by apply (Hobj _ eq_refl)|].
  split; [|by apply (Hobj _ eq_refl)].
  destruct (Hmerge eq_refl "totalFocusTime") as [Hkeep _].
  subst stats'. rewrite Hkeep; reflexivity.
Defined.

(** A property of the saved record that is not one of the four counters
    is not dropped on load. *)
Lemma load_keeps_extra_fields :
  let stats' :=
    PM.stats (pomodoroManager
                (heap_after (PomodoroManager.constructor (host := IntegerHost.host))
                   Examples.fresh)) in
  items (localStorage Examples.fresh) !! StorageKeys.POMODORO_STATS
  = Some Examples.stored_stats
  /\ dom (PM.stats PomodoroManager.initial)
     = {["pomodoroCount"; "totalFocusTime"; "bestStreak"; "currentStreak"]}
  /\ stats' !! "theme" = Some (VStr "dark")
  /\ "theme" ∈ dom stats'.
Proof.
  intros stats'.
  assert (Htheme : stats' !! "theme" = Some (VStr "dark")) by (vm_compute; reflexivity).
  split; [reflexivity|].
  split; [unfold PomodoroManager.initial; cbn [PM.stats]; rewrite !dom_insert_L; set_solver|].
  split; [exact Htheme|]. apply elem_of_dom. by rewrite Htheme.
Qed.


(* ===================================================================== *)
(** ** More on the task list *)
(* ===================================================================== *)

Lemma update_first_none (p : Task.t -> bool) (f : Task.t -> Task.t) (ts : list Task.t) :
  List.find p ts = None -> TaskManager.update_first p f ts = ts.
Proof.
  induction ts as [|t ts IH]; simpl; [done|].
  destruct (p t); [done|]. intros Hnone. by rewrite IH.
Qed.

Lemma update_first_length (p : Task.t -> bool) (f : Task.t -> Task.t) (ts : list Task.t) :
  length (TaskManager.update_first p f ts) = length ts.
Proof.
  induction ts as [|t ts IH]; simpl; [done|].
  destruct (p t); simpl; by rewrite ?IH.
Qed.

(** The first element that satisfies [p] is replaced where it stands. *)
Lemma update_first_at (p : Task.t -> bool) (f : Task.t -> Task.t)
    (ts : list Task.t) (i : nat) (t : Task.t) :
  ts !! i = Some t -> p t = true ->
  (forall j u, ts !! j = Some u -> (j < i)%nat -> p u = false) ->
  TaskManager.update_first p f ts = <[i := f t]> ts.
Proof.
  revert i. induction ts as [|u ts IH]; intros i Hi Hp Hfirst; [done|].
  destruct i as [|i]; simpl in *.
  - injection Hi as ->. by rewrite Hp.
  - rewrite (Hfirst 0%nat u eq_refl) by lia. f_equal.
    apply IH; [done..|]. intros j v Hj Hlt. apply (Hfirst (S j) v Hj). lia.
Qed.

Lemma toggle_toggle (t : Task.t) : TaskManager.toggle (TaskManager.toggle t) = t.
Proof. destruct t as [? ? ? ? ? ? c ?]. unfold TaskManager.toggle. simpl. by rewrite negb_involutive. Qed.

Lemma update_first_toggle_twice (id : value) (ts : list Task.t) :
  TaskManager.update_first (TaskManager.id_is id) TaskManager.toggle
    (TaskManager.update_first (TaskManager.id_is id) TaskManager.toggle ts) = ts.
Proof.
  induction ts as [|t ts IH]; simpl; [done|].
  destruct (TaskManager.id_is id t) eqn:Hid; simpl.
  - assert (Hid' : TaskManager.id_is id (TaskManager.toggle t) = true)
      by (destruct id as [| | |[|]| | |]; done).
    by rewrite Hid', toggle_toggle.
  - by rewrite Hid, IH.
Qed.

Lemma find_update_first_toggle (id : value) (ts : list Task.t) :
  List.find (TaskManager.id_is id)
    (TaskManager.update_first (TaskManager.id_is id) TaskManager.toggle ts)
  = TaskManager.toggle <$> List.find (TaskManager.id_is id) ts.
Proof.
  induction ts as [|t ts IH]; simpl; [done|].
  destruct (TaskManager.id_is id t) eqn:Hid; simpl.
  - assert (Hid' : TaskManager.id_is id (TaskManager.toggle t) = true)
      by (destruct id as [| | |[|]| | |]; done).
    by rewrite Hid'.
  - by rewrite Hid, IH.
Qed.

Lemma update_first_toggle_priorities (p : Task.t -> bool) (ts : list Task.t) :
  forallb has_string_priority (TaskManager.update_first p TaskManager.toggle ts)
  = forallb has_string_priority ts.
Proof.
  induction ts as [|t ts IH]; simpl; [reflexivity|].
  destruct (p t); simpl; [reflexivity | by rewrite IH].
Qed.

Section MoreTasks.
Context {host : Host}.

(** The flag is flipped and the list written before the page renders
    it. *)
Lemma toggleTask_run id h :
  let ts := TM.tasks (taskManager h) in
  match List.find (TaskManager.id_is id) ts with
  | None => TaskManager.toggleTask id h = (Normal tt, h)
  | Some _ =>
      exists h',
        TaskManager.toggleTask id h
        = (TaskManager.map_createTaskHTML (TaskManager.filtered (taskManager h')), h')
        /\ TM.tasks (taskManager h')
           = TaskManager.update_first (TaskManager.id_is id) TaskManager.toggle ts
        /\ TM.currentFilter (taskManager h') = TM.currentFilter (taskManager h)
        /\ clock h' = clock h
        /\ localStorage h'
           = localStorage
               (heap_after (Storage.set StorageKeys.TASKS
                  (tasks_value (TaskManager.update_first (TaskManager.id_is id)
                                  TaskManager.toggle ts))) h)
  end.
Proof.
  intros ts. unfold TaskManager.toggleTask. rewrite bind_gets. fold ts.
  destruct (List.find (TaskManager.id_is id) ts) as [task|]; [|reflexivity].
  rewrite bind_modify.
  assert (Hshow : forall (k : unit -> M unit) hh,
    bind (if negb (Task.completed task)
          then AchievementSystem.show "✅ Tarea Completada" "+10 XP ganados"
          else ret tt) k hh = k tt hh) by (intros; by destruct (negb _)).
  rewrite Hshow. unfold TaskManager.save.
  rewrite bind_assoc, bind_gets, bind_Storage_set, renderTasks_run. hsimpl.
  match goal with |- context [heap_after (Storage.set ?k ?v) ?hh] =>
    destruct (Storage_set_frame k v hh) as (_ & F2 & _ & _ & _ & F6);
    pose proof (Storage_set_localStorage k v hh h eq_refl) as F7;
    set (h' := heap_after (Storage.set k v) hh) in *
  end.
  exists h'. split; [reflexivity|].
  rewrite F2, F6. hsimpl. repeat split; try reflexivity. exact F7.
Qed.

End MoreTasks.

(** X1.  When no task has the id, [toggleTask] returns and changes nothing
    at all, storage included.  Otherwise it flips the completed flag of the
    first task with that id where it stands, leaves every other task, the
    ids and the length of the list as they were, and writes the list to
    storage; then the page renders the list, and the call returns when
    every task that the current filter shows has a string for its
    priority, as it does when every task of the list has one, and ends in
    the TypeError of the rendering otherwise. *)
Theorem toggleTask_flips_the_first_match {host : Host} (h : Heap) (id : value) :
  let ts := TM.tasks (taskManager h) in
  let h' := heap_after (TaskManager.toggleTask id) h in
  let ts' := TM.tasks (taskManager h') in
  length ts' = length ts
  /\ map Task.id ts' = map Task.id ts
  /\ ((forall t, In t ts -> TaskManager.id_is id t = false) ->
      h' = h /\ outcome (TaskManager.toggleTask id) h = Normal tt)
  /\ (forall i t,
        ts !! i = Some t -> TaskManager.id_is id t = true ->
        (forall j u, ts !! j = Some u -> (j < i)%nat -> TaskManager.id_is id u = false) ->
        ts' = <[i := TaskManager.toggle t]> ts
        /\ Task.completed (TaskManager.toggle t) = negb (Task.completed t)
        /\ localStorage h'
           = localStorage (heap_after (Storage.set StorageKeys.TASKS (tasks_value ts')) h)
        /\ (tasks_render h' = true -> outcome (TaskManager.toggleTask id) h = Normal tt)
        /\ (tasks_render h' = false ->
            exists e, outcome (TaskManager.toggleTask id) h = Throw e
                      /\ exn_name e = "TypeError"))
  /\ (forallb has_string_priority ts = true ->
      outcome (TaskManager.toggleTask id) h = Normal tt).
Proof.
  intros ts h' ts'. pose proof (toggleTask_run id h) as Hrun. cbn zeta in Hrun. fold ts in Hrun.
  destruct (List.find (TaskManager.id_is id) ts) as [task|] eqn:Hfind.
  - destruct Hrun as (h1 & Hrun & Htasks & _ & _ & Hls).
    assert (Hh' : h' = h1) by (subst h'; unfold heap_after; by rewrite Hrun).
    assert (Hts' : ts' = TaskManager.update_first (TaskManager.id_is id) TaskManager.toggle ts)
      by (subst ts'; by rewrite Hh', Htasks).
    assert (Hok : tasks_render h' = true ->
                  outcome (TaskManager.toggleTask id) h = Normal tt).
    { intros Hr. unfold outcome. rewrite Hrun, <- Hh'. cbn [fst].
      by apply map_createTaskHTML_ok. }
    split; [rewrite Hts'; apply update_first_length|].
    split.
    { rewrite Hts'. clear. induction ts as [|t ts IH]; simpl; [done|].
      destruct (TaskManager.id_is id t); simpl; by rewrite ?IH. }
    split.
    { intros Hnone. apply find_some in Hfind as [Hin Hid].
      rewrite (Hnone task Hin) in Hid. discriminate. }
    split.
    { intros i t Hi Hid Hfirst. split; [|split; [reflexivity|split; [|split]]].
      + rewrite Hts'. by apply update_first_at.
      + rewrite Hh', Hls, Hts'. reflexivity.
      + exact Hok.
      + intros Hr. unfold outcome. rewrite Hrun, <- Hh'. cbn [fst].
        by apply map_createTaskHTML_fails. }
    intros Hall. apply Hok. unfold tasks_render. apply filtered_render.
    fold ts'. by rewrite Hts', update_first_toggle_priorities.
  - assert (Hh' : h' = h) by (subst h'; unfold heap_after; by rewrite Hrun).
    assert (Hout : outcome (TaskManager.toggleTask id) h = Normal tt)
      by (unfold outcome; by rewrite Hrun).
    subst ts'. rewrite Hh'. fold ts.
    split; [done|]. split; [done|]. split; [done|]. split; [|done].
    intros i t Hi Hid _. exfalso.
    apply list_elem_of_lookup_2, list_elem_of_In in Hi.
    pose proof (find_none _ _ Hfind t Hi) as Hno. congruence.
Qed.

(** In the list with the ids 7, 8 and 7, toggling 7 completes the first
    task only and returns, and toggling 9 changes nothing. *)
Lemma toggleTask_flips_the_first_match_witness :
  TM.tasks (taskManager
              (heap_after (TaskManager.toggleTask (host := IntegerHost.host)
                             (VNum (Int 7))) Examples.listed))
  = [TaskManager.toggle (Examples.task 7); Examples.task 8; Examples.task 7]
  /\ outcome (TaskManager.toggleTask (host := IntegerHost.host) (VNum (Int 7)))
       Examples.listed = Normal tt
  /\ heap_after (TaskManager.toggleTask (host := IntegerHost.host) (VNum (Int 9)))
       Examples.listed = Examples.listed.
Proof.
  destruct (toggleTask_flips_the_first_match (host := IntegerHost.host)
              Examples.listed (VNum (Int 7))) as (_ & _ & _ & Hflip & Hret).
  destruct (toggleTask_flips_the_first_match (host := IntegerHost.host)
              Examples.listed (VNum (Int 9))) as (_ & _ & Hnone & _).
  split; [|split].
  - destruct (Hflip 0%nat (Examples.task 7) eq_refl eq_refl) as [Hts _]; [|exact Hts].
    intros j u _ Hlt. lia.
  - apply Hret. reflexivity.
  - apply Hnone. intros t [<- | [<- | [<- | []]]]; reflexivity.
Defined.

(** X2.  Toggling the same id twice gives back the task list as it was:
    the second call undoes the flip of the first, whether or not the page
    could render the list in between. *)
Theorem toggleTask_twice_restores_the_list {host : Host} (h : Heap) (id : value) :
  TM.tasks (taskManager
              (heap_after (TaskManager.toggleTask id)
                 (heap_after (TaskManager.toggleTask id) h)))
  = TM.tasks (taskManager h).
Proof.
  unfold heap_after.
  pose proof (toggleTask_run id h) as Hrun. cbn zeta in Hrun.
  destruct (List.find (TaskManager.id_is id) (TM.tasks (taskManager h))) as [task|] eqn:Hfind.
  - destruct Hrun as (h1 & Hrun & Htasks & _). rewrite Hrun. cbn [snd].
    pose proof (toggleTask_run id h1) as Hrun2. cbn zeta in Hrun2.
    rewrite Htasks, find_update_first_toggle, Hfind in Hrun2. simpl in Hrun2.
    destruct Hrun2 as (h2 & Hrun2 & Htasks2 & _). rewrite Hrun2. hsimpl.
    rewrite Htasks2. apply update_first_toggle_twice.
  - rewrite Hrun. cbn [snd]. by rewrite Hrun.
Qed.

(** A task that is toggled by its id and then dropped by the same id
    might as well not have been toggled. *)
Lemma filter_update_first_toggle (id : value) (ts : list Task.t) :
  List.filter (fun u => negb (TaskManager.id_is id u))
    (TaskManager.update_first (TaskManager.id_is id) TaskManager.toggle ts)
  = List.filter (fun u => negb (TaskManager.id_is id u)) ts.
Proof.
  induction ts as [|t ts IH]; simpl; [done|].
  destruct (TaskManager.id_is id t) eqn:Hid; simpl.
  - assert (Hid' : TaskManager.id_is id (TaskManager.toggle t) = true)
      by (destruct id as [| | |[|]| | |]; done).
    by rewrite Hid'.
  - by rewrite Hid, IH.
Qed.

Lemma filter_id_app_own (ts : list Task.t) (t : Task.t) :
  List.filter (fun u => negb (TaskManager.id_is (VNum (Int (Task.id t))) u))
    (ts ++ [t])%list
  = List.filter (fun u => negb (TaskManager.id_is (VNum (Int (Task.id t))) u)) ts.
Proof.
  rewrite List.filter_app. simpl. rewrite Z.eqb_refl. simpl. apply app_nil_r.
Qed.

Lemma string_priorities_render (h : Heap) :
  forallb has_string_priority (TM.tasks (taskManager h)) = true ->
  TaskManager.map_createTaskHTML (TaskManager.filtered (taskManager h)) = Normal tt.
Proof. intros Hall. by apply map_createTaskHTML_ok, filtered_render. Qed.

Lemma forallb_filter_keeps {A} (p q : A -> bool) (l : list A) :
  forallb p l = true -> forallb p (List.filter q l) = true.
Proof.
  rewrite !forallb_forall. intros Hall x Hin. apply Hall.
  apply filter_In in Hin. tauto.
Qed.

(** X3.  A task that is added and then toggled and deleted by the id that
    the clock gave it leaves the task list as it was before, provided no
    task of the list already had that id; without that proviso the older
    tasks with the same id are removed with it.  This holds whether or not
    the page could render the list after each step; with strings for the
    priorities of the list and a string or nothing for the new one the
    three calls return, one after the other. *)
Theorem add_toggle_delete_round_trip {host : Host}
    (h : Heap) (taskData : gmap string value) :
  ToBoolean (get_prop taskData "title") && ToBoolean (get_prop taskData "date") = true ->
  let id := VNum (Int (clock h 0%nat)) in
  let h1 := heap_after (TaskManager.addTask taskData) h in
  let h3 := heap_after (TaskManager.deleteTask id)
              (heap_after (TaskManager.toggleTask id) h1) in
  (exists task,
     TM.tasks (taskManager h1) = (TM.tasks (taskManager h) ++ [task])%list
     /\ Task.id task = clock h 0%nat)
  /\ (forall t, In t (TM.tasks (taskManager h3)) <->
                In t (TM.tasks (taskManager h)) /\ Task.id t <> clock h 0%nat)
  /\ ((forall t, In t (TM.tasks (taskManager h)) -> Task.id t <> clock h 0%nat) ->
      TM.tasks (taskManager h3) = TM.tasks (taskManager h))
  /\ (forallb has_string_priority (TM.tasks (taskManager h)) = true ->
      (ToBoolean (get_prop taskData "priority") = false
       \/ exists s, get_prop taskData "priority" = VStr s) ->
      (do task <- TaskManager.addTask taskData;
       do _ <- TaskManager.toggleTask (VNum (Int (Task.id task)));
       TaskManager.deleteTask (VNum (Int (Task.id task)))) h
      = (Normal tt, h3)).
Proof.
  intros Hok id h1 h3.
  destruct (addTask_valid taskData h Hok)
    as (task & h1' & Hadd & Hid & _ & _ & _ & _ & Hprio & _ & _ & Htasks & _).
  assert (Hh1 : h1 = h1') by (subst h1; unfold heap_after; by rewrite Hadd).
  assert (Hidv : id = VNum (Int (Task.id task))) by (subst id; by rewrite Hid).
  assert (Hfound : exists t, List.find (TaskManager.id_is id) (TM.tasks (taskManager h1'))
                             = Some t).
  { destruct (List.find _ _) eqn:Hf; [eauto|]. exfalso.
    assert (Hin : In task (TM.tasks (taskManager h1')))
      by (rewrite Htasks; apply in_or_app; right; by left).
    pose proof (find_none _ _ Hf task Hin) as Hno. rewrite Hidv in Hno. simpl in Hno.
    by rewrite Z.eqb_refl in Hno. }
  destruct Hfound as [t0 Hfound].
  pose proof (toggleTask_run id h1') as Htog. cbn zeta in Htog. rewrite Hfound in Htog.
  destruct Htog as (h2 & Htog & Htasks2 & _).
  destruct (deleteTask_run id h2) as (h3' & Hdel & Htasks3 & _).
  assert (Hh3 : h3 = h3').
  { subst h3. rewrite Hh1. unfold heap_after. rewrite Htog. cbn [snd]. by rewrite Hdel. }
  assert (Hlist : TM.tasks (taskManager h3)
                  = List.filter (fun u => negb (TaskManager.id_is id u))
                      (TM.tasks (taskManager h))).
  { rewrite Hh3, Htasks3, Htasks2, Htasks, filter_update_first_toggle.
    rewrite Hidv. apply filter_id_app_own. }
  split; [exists task; by rewrite Hh1|].
  split; [|split].
  - intros t. rewrite Hlist, filter_In. simpl.
    by rewrite negb_true_iff, Z.eqb_neq.
  - intros Hfresh. rewrite Hlist. apply filter_negb_none. intros t Ht. simpl.
    apply Z.eqb_neq. by apply Hfresh.
  - intros Hall Hgiven.
    assert (Hall1 : forallb has_string_priority (TM.tasks (taskManager h1')) = true).
    { rewrite Htasks, forallb_app, Hall. simpl.
      unfold has_string_priority. rewrite Hprio. unfold js_or.
      destruct Hgiven as [-> | [s Hs]]; [reflexivity|].
      rewrite Hs. by destruct (ToBoolean (VStr s)). }
    assert (Hall2 : forallb has_string_priority (TM.tasks (taskManager h2)) = true)
      by (by rewrite Htasks2, update_first_toggle_priorities).
    assert (Hall3 : forallb has_string_priority (TM.tasks (taskManager h3')) = true)
      by (rewrite Htasks3; by apply forallb_filter_keeps).
    rewrite (string_priorities_render _ Hall1) in Hadd.
    rewrite (string_priorities_render _ Hall2) in Htog.
    rewrite (string_priorities_render _ Hall3) in Hdel.
    unfold bind. rewrite Hadd. cbn [then_return]. rewrite <- Hidv, Htog, Hdel.
    by rewrite Hh3.
Qed.

(** The homework entered on the list with the ids 7, 8 and 7, toggled and
    deleted again: the three calls return and the three tasks are back. *)
Lemma add_toggle_delete_round_trip_witness :
  outcome
    (do task <- TaskManager.addTask (host := IntegerHost.host) Examples.homework;
     do _ <- TaskManager.toggleTask (host := IntegerHost.host)
               (VNum (Int (Task.id task)));
     TaskManager.deleteTask (host := IntegerHost.host)
       (VNum (Int (Task.id task)))) Examples.listed
  = Normal tt
  /\ TM.tasks (taskManager
       (heap_after
          (do task <- TaskManager.addTask (host := IntegerHost.host) Examples.homework;
           do _ <- TaskManager.toggleTask (host := IntegerHost.host)
               (VNum (Int (Task.id task)));
           TaskManager.deleteTask (host := IntegerHost.host)
       (VNum (Int (Task.id task)))) Examples.listed))
     = [Examples.task 7; Examples.task 8; Examples.task 7].
Proof.
  destruct (add_toggle_delete_round_trip (host := IntegerHost.host)
              Examples.listed Examples.homework eq_refl)
    as (_ & _ & Hback & Hrun).
  unfold outcome, heap_after at 1.
  rewrite Hrun; [|reflexivity | by left]. cbn [fst snd].
  split; [reflexivity|]. apply Hback.
  intros t [<- | [<- | [<- | []]]]; discriminate.
Defined.

(** X4.  Deleting an id twice leaves the list that deleting it once
    leaves, and after the deletion a toggle of that id finds nothing,
    changes nothing and returns. *)
Theorem deleteTask_is_final {host : Host} (h : Heap) (id : value) :
  let h1 := heap_after (TaskManager.deleteTask id) h in
  TM.tasks (taskManager (heap_after (TaskManager.deleteTask id) h1))
  = TM.tasks (taskManager h1)
  /\ heap_after (TaskManager.toggleTask id) h1 = h1
  /\ outcome (TaskManager.toggleTask id) h1 = Normal tt.
Proof.
  intros h1.
  destruct (deleteTask_run id h) as (h1' & Hdel & Htasks & _).
  assert (Hh1 : h1 = h1') by (subst h1; unfold heap_after; by rewrite Hdel).
  rewrite Hh1. clear Hh1 h1.
  assert (Hnone : forall t, In t (TM.tasks (taskManager h1')) -> TaskManager.id_is id t = false).
  { intros t. rewrite Htasks, filter_In. intros [_ Hne]. by apply negb_true_iff. }
  split.
  - destruct (deleteTask_run id h1') as (h2 & Hdel2 & Htasks2 & _).
    unfold heap_after. rewrite Hdel2. hsimpl. rewrite Htasks2.
    by apply filter_negb_none.
  - pose proof (toggleTask_run id h1') as Htog. cbn zeta in Htog.
    destruct (List.find _ _) as [t|] eqn:Hfind.
    + apply find_some in Hfind as [Hin Hid]. rewrite (Hnone t Hin) in Hid. discriminate.
    + unfold heap_after, outcome. by rewrite Htog.
Qed.





(* ===================================================================== *)
(** ** The form of the page *)
(* ===================================================================== *)

(** X6.  The handler of the add-task form checks the title and the date
    itself, so the validation error of [addTask] never comes out of it:
    with an empty title or date it returns and leaves everything as it was.
    Otherwise it appends one task built from the texts of the form, with 25
    minutes when the minutes field is empty and the priority "media" when
    none is chosen, so with a string for its priority.  While the
    priorities of the list are strings the handler returns and they stay
    strings; the one error that can come out of it is the TypeError of the
    rendering, when the current filter shows an older task whose priority
    is not a string. *)
Theorem handleAddTask_checks_before_adding {host : Host}
    (h : Heap) (title desc date time priority : string) :
  let run := App.handleAddTask title desc date time priority in
  let h' := heap_after run h in
  (title = "" \/ date = "" -> outcome run h = Normal tt /\ h' = h)
  /\ outcome run h <> Throw (Exn "Error" "Title and date are required")
  /\ (title <> "" -> date <> "" ->
      exists task,
        TM.tasks (taskManager h') = (TM.tasks (taskManager h) ++ [task])%list
        /\ Task.title task = VStr title
        /\ Task.date task = VStr date
        /\ Task.desc task = VStr desc
        /\ Task.completed task = false
        /\ Task.priority task = VStr (if String.eqb priority "" then "media" else priority)
        /\ (time = "" -> Task.time task = Int 25)
        /\ (tasks_render h' = true -> outcome run h = Normal tt)
        /\ (tasks_render h' = false ->
            exists e, outcome run h = Throw e /\ exn_name e = "TypeError"))
  /\ (forallb has_string_priority (TM.tasks (taskManager h)) = true ->
      outcome run h = Normal tt
      /\ forallb has_string_priority (TM.tasks (taskManager h')) = true).
Proof.
  intros run h'.
  set (taskData := (<["title" := VStr title]>
                    (<["desc" := VStr desc]>
                    (<["date" := VStr date]>
                    (<["time" := VStr time]>
                    (<["priority" := VStr priority]> ∅)))) : gmap string value)).
  assert (Ht : get_prop taskData "title" = VStr title) by reflexivity.
  assert (Hd : get_prop taskData "date" = VStr date).
  { unfold get_prop, taskData. by rewrite !lookup_insert_ne, lookup_insert_eq by done. }
  assert (Hde : get_prop taskData "desc" = VStr desc).
  { unfold get_prop, taskData. by rewrite !lookup_insert_ne, lookup_insert_eq by done. }
  assert (Hti : get_prop taskData "time" = VStr time).
  { unfold get_prop, taskData. by rewrite !lookup_insert_ne, lookup_insert_eq by done. }
  assert (Hpr : get_prop taskData "priority" = VStr priority).
  { unfold get_prop, taskData. by rewrite !lookup_insert_ne, lookup_insert_eq by done. }
  assert (Hskip : title = "" \/ date = "" -> run h = (Normal tt, h)).
  { intros Hempty. unfold run, App.handleAddTask. fold taskData. rewrite Ht, Hd.
    unfold ToBoolean, alert.
    destruct Hempty as [-> | ->]; simpl; [reflexivity|].
    by destruct (negb (negb (String.eqb title ""))). }
  assert (Hadd : title <> "" -> date <> "" ->
            run h = (do _ <- TaskManager.addTask taskData; ret tt) h
            /\ ToBoolean (get_prop taskData "title")
               && ToBoolean (get_prop taskData "date") = true).
  { intros Htitle Hdate. unfold run, App.handleAddTask. fold taskData. rewrite Ht, Hd.
    unfold ToBoolean.
    destruct (String.eqb_spec title ""); [done|].
    destruct (String.eqb_spec date ""); [done|]. by simpl. }
  assert (Hcases : (title = "" \/ date = "") \/ (title <> "" /\ date <> "")).
  { destruct (String.eqb_spec title ""); [by left; left|].
    destruct (String.eqb_spec date ""); [by left; right | by right]. }
  assert (Hvalid : title <> "" -> date <> "" ->
    exists task h1,
      run h = (then_return
                 (TaskManager.map_createTaskHTML (TaskManager.filtered (taskManager h1)))
                 tt, h1)
      /\ TM.tasks (taskManager h1) = (TM.tasks (taskManager h) ++ [task])%list
      /\ Task.title task = VStr title
      /\ Task.date task = VStr date
      /\ Task.desc task = VStr desc
      /\ Task.completed task = false
      /\ Task.priority task = VStr (if String.eqb priority "" then "media" else priority)
      /\ (time = "" -> Task.time task = Int 25)).
  { intros Htitle Hdate. destruct (Hadd Htitle Hdate) as [Hrun Hok].
    destruct (addTask_valid taskData h Hok)
      as (task & h1 & Hadd1 & _ & Htitle' & Hdesc' & Hdate' & Htime' & Hprio' & Hcompl
          & _ & Htasks & _).
    exists task, h1. split.
    { rewrite Hrun. unfold bind. rewrite Hadd1. unfold then_return.
      by destruct (TaskManager.map_createTaskHTML _) as [[]|e]. }
    split; [exact Htasks|]. split; [by rewrite Htitle', Ht|].
    split; [by rewrite Hdate', Hd|].
    split.
    { rewrite Hdesc', Hde. unfold js_or. simpl.
      by destruct (String.eqb_spec desc "") as [->|]. }
    split; [exact Hcompl|].
    split.
    { rewrite Hprio', Hpr. unfold js_or. simpl.
      by destruct (String.eqb_spec priority "") as [->|]. }
    intros ->. rewrite Htime', Hti. reflexivity. }
  split; [|split; [|split]].
  - intros Hempty. unfold outcome, h', heap_after. by rewrite (Hskip Hempty).
  - destruct Hcases as [Hempty | [Htitle Hdate]].
    + unfold outcome. by rewrite (Hskip Hempty).
    + destruct (Hvalid Htitle Hdate) as (task & h1 & Hrun & _).
      unfold outcome. rewrite Hrun. cbn [fst].
      destruct (tasks_render h1) eqn:Hr.
      * by rewrite (then_return_ok _ _ Hr).
      * destruct (then_return_fails h1 tt Hr) as (e & -> & Hname).
        intros [= ->]. discriminate.
  - intros Htitle Hdate.
    destruct (Hvalid Htitle Hdate)
      as (task & h1 & Hrun & Htasks & H1 & H2 & H3 & H4 & H5 & H6).
    assert (Hh' : h' = h1) by (unfold h', heap_after; by rewrite Hrun).
    exists task. rewrite Hh'. unfold outcome. rewrite Hrun. cbn [fst].
    repeat (split; [assumption|]).
    split; [apply then_return_ok | apply then_return_fails].
  - intros Hall. destruct Hcases as [Hempty | [Htitle Hdate]].
    + unfold outcome, h', heap_after. by rewrite (Hskip Hempty).
    + destruct (Hvalid Htitle Hdate)
        as (task & h1 & Hrun & Htasks & _ & _ & _ & _ & Hprio & _).
      assert (Hall1 : forallb has_string_priority (TM.tasks (taskManager h1)) = true).
      { rewrite Htasks, forallb_app, Hall. simpl.
        unfold has_string_priority. by rewrite Hprio. }
      unfold outcome, h', heap_after. rewrite Hrun. cbn [fst snd].
      split; [|exact Hall1].
      apply then_return_ok. unfold tasks_render. by apply filtered_render.
Qed.

(** The form with a title, a date and the other fields left empty adds a
    task of 25 minutes and priority "media" and returns; without a title
    nothing happens. *)
Lemma handleAddTask_checks_before_adding_witness :
  (exists task,
     TM.tasks (taskManager
       (heap_after (App.handleAddTask (host := IntegerHost.host)
                      "Leer" "" "2025-10-23" "" "") Examples.fresh)) = [task]
     /\ Task.time task = Int 25
     /\ Task.priority task = VStr "media")
  /\ outcome (App.handleAddTask (host := IntegerHost.host)
                "Leer" "" "2025-10-23" "" "") Examples.fresh = Normal tt
  /\ heap_after (App.handleAddTask (host := IntegerHost.host)
                   "" "" "2025-10-23" "30" "alta") Examples.fresh = Examples.fresh.
Proof.
  destruct (handleAddTask_checks_before_adding (host := IntegerHost.host) Examples.fresh
              "Leer" "" "2025-10-23" "" "") as (_ & _ & Hadd & Hret).
  destruct (handleAddTask_checks_before_adding (host := IntegerHost.host) Examples.fresh
              "" "" "2025-10-23" "30" "alta") as (Hskip & _).
  split; [|split].
  - destruct Hadd as (task & Htasks & _ & _ & _ & _ & Hprio & Htime & _); [done..|].
    exists task. split; [exact Htasks|]. split; [by apply Htime | exact Hprio].
  - apply Hret. reflexivity.
  - apply Hskip. by left.
Defined.

(* ===================================================================== *)
(** ** More on the flashcards *)
(* ===================================================================== *)

Section MoreCards.
Context {host : Host}.

Lemma addFlashcard_invalid cardData h :
  ToBoolean (get_prop cardData "subject") && ToBoolean (get_prop cardData "question")
    && ToBoolean (get_prop cardData "answer") = false ->
  FlashcardManager.addFlashcard cardData h
  = (Throw (Exn "Error" "Subject, question and answer are required"), h).
Proof.
  intros Hbad. unfold FlashcardManager.addFlashcard.
  destruct (ToBoolean (get_prop cardData "subject")),
           (ToBoolean (get_prop cardData "question")),
           (ToBoolean (get_prop cardData "answer")); done.
Qed.

Lemma renderCards_run h :
  FlashcardManager.renderCards h
  = (if card_displays h then Normal tt
     else Throw (Exn "TypeError"
                   "Cannot read properties of undefined (reading 'subject')"),
     h).
Proof.
  unfold FlashcardManager.renderCards, FlashcardManager.renderSubjects, bind.
  rewrite displayCurrentCard_run. by destruct (card_displays h).
Qed.

(** The card is appended and the collection written before the page
    displays the card under the cursor. *)
Lemma addFlashcard_valid cardData h :
  ToBoolean (get_prop cardData "subject") && ToBoolean (get_prop cardData "question")
    && ToBoolean (get_prop cardData "answer") = true ->
  exists card h',
    FlashcardManager.addFlashcard cardData h
    = (if card_displays h' then Normal card
       else Throw (Exn "TypeError"
                     "Cannot read properties of undefined (reading 'subject')"),
       h')
    /\ card = {| Flashcard.id := clock h 0%nat;
                 Flashcard.subject := get_prop cardData "subject";
                 Flashcard.question := get_prop cardData "question";
                 Flashcard.answer := get_prop cardData "answer";
                 Flashcard.reviews := 0;
                 Flashcard.lastReviewed := None |}
    /\ FM.flashcards (flashcardManager h')
       = (FM.flashcards (flashcardManager h) ++ [card])%list
    /\ FM.currentCardIndex (flashcardManager h')
       = FM.currentCardIndex (flashcardManager h)
    /\ localStorage h'
       = localStorage
           (heap_after (Storage.set StorageKeys.FLASHCARDS
              (VArr (map Flashcard.to_value
                       (FM.flashcards (flashcardManager h) ++ [card])%list))) h).
Proof.
  intros Hok. unfold FlashcardManager.addFlashcard.
  destruct (ToBoolean (get_prop cardData "subject")); [|done].
  destruct (ToBoolean (get_prop cardData "question")); [|done].
  destruct (ToBoolean (get_prop cardData "answer")); [|done].
  cbn [negb orb]. rewrite bind_now, bind_modify.
  unfold FlashcardManager.save, AchievementSystem.show.
  rewrite bind_assoc, bind_gets, bind_Storage_set, bind_ret. hsimpl.
  match goal with |- context [heap_after (Storage.set ?k ?v) ?hh] =>
    destruct (Storage_set_frame k v hh) as (_ & _ & F3 & _);
    pose proof (Storage_set_localStorage k v hh h eq_refl) as F7;
    set (h' := heap_after (Storage.set k v) hh) in *
  end.
  eexists _, h'. split.
  { unfold bind. rewrite renderCards_run. by destruct (card_displays h'). }
  split; [reflexivity|].
  rewrite F3. hsimpl. repeat split; try reflexivity. exact F7.
Qed.

(** nextCard and previousCard with the cursor on a card. *)
Lemma cursor_moves h (i : nat) :
  let n := length (FM.flashcards (flashcardManager h)) in
  FM.currentCardIndex (flashcardManager h) = Int (Z.of_nat i) ->
  (i < n)%nat ->
  FlashcardManager.nextCard h
  = (Normal tt, with_flashcardManager
                  (FlashcardManager.set_index (Int (Z.of_nat ((i + 1) mod n)))) h)
  /\ FlashcardManager.previousCard h
     = (Normal tt, with_flashcardManager
                     (FlashcardManager.set_index (Int (Z.of_nat ((i + n - 1) mod n)))) h).
Proof.
  intros n Hi Hlt.
  assert (Hnext : Num.rem (Num.add (FM.currentCardIndex (flashcardManager h)) (Int 1))
                    (FlashcardManager.length_of (flashcardManager h))
                  = Int (Z.of_nat ((i + 1) mod n))).
  { rewrite Hi. unfold FlashcardManager.length_of. fold n. simpl.
    destruct (Z.eqb_spec (Z.of_nat n) 0) as [Hz|Hz]; [lia|].
    rewrite Z.rem_mod_nonneg by lia.
    rewrite Nat2Z.inj_mod, Nat2Z.inj_add. reflexivity. }
  assert (Hprev : Num.rem (Num.add (Num.sub (FM.currentCardIndex (flashcardManager h))
                                      (Int 1))
                             (FlashcardManager.length_of (flashcardManager h)))
                    (FlashcardManager.length_of (flashcardManager h))
                  = Int (Z.of_nat ((i + n - 1) mod n))).
  { rewrite Hi. unfold FlashcardManager.length_of. fold n. simpl.
    destruct (Z.eqb_spec (Z.of_nat n) 0) as [Hz|Hz]; [lia|].
    rewrite Z.rem_mod_nonneg by lia.
    rewrite Nat2Z.inj_mod, Nat2Z.inj_sub, Nat2Z.inj_add by lia.
    repeat f_equal; lia. }
  rewrite nextCard_run, previousCard_run, !displayCurrentCard_run, Hnext, Hprev.
  rewrite (card_displays_in_range _ (Z.of_nat ((i + 1) mod n))),
          (card_displays_in_range _ (Z.of_nat ((i + n - 1) mod n)));
    hsimpl; try reflexivity;
    try (fold n; split; [lia | apply Nat2Z.inj_lt, Nat.mod_upper_bound; lia]).
  done.
Qed.

Lemma markReviewed_run h (i : nat) (card : Flashcard.t) :
  let cs := FM.flashcards (flashcardManager h) in
  FM.currentCardIndex (flashcardManager h) = Int (Z.of_nat i) ->
  cs !! i = Some card ->
  exists h',
    FlashcardManager.markReviewed h = (Normal tt, h')
    /\ FM.flashcards (flashcardManager h')
       = <[i := FlashcardManager.reviewed (Date_toISOString (clock h 0%nat)) card]> cs
    /\ FM.currentCardIndex (flashcardManager h')
       = Int (Z.of_nat ((i + 1) mod length cs))
    /\ localStorage h'
       = localStorage
           (heap_after (Storage.set StorageKeys.FLASHCARDS
              (VArr (map Flashcard.to_value
                 (<[i := FlashcardManager.reviewed (Date_toISOString (clock h 0%nat)) card]> cs))))
              h).
Proof.
  intros cs Hi Hcard.
  assert (Hlt : (i < length cs)%nat) by (by apply lookup_lt_Some in Hcard).
  unfold FlashcardManager.markReviewed. rewrite bind_gets. fold cs.
  destruct (Z.ltb_spec 0 (Z.of_nat (length cs))) as [_|Hle]; [|lia].
  unfold FlashcardManager.at_index, FlashcardManager.array_index. rewrite Hi.
  destruct (Z.ltb_spec (Z.of_nat i) 0) as [Hneg|_]; [lia|].
  rewrite Nat2Z.id, Hcard.
  rewrite bind_now, bind_modify.
  unfold FlashcardManager.save, AchievementSystem.show.
  rewrite bind_assoc, bind_gets, bind_Storage_set, bind_ret. hsimpl.
  match goal with |- context [heap_after (Storage.set ?k ?v) ?hh] =>
    destruct (Storage_set_frame k v hh) as (_ & _ & F3 & _);
    pose proof (Storage_set_localStorage k v hh h eq_refl) as F7;
    set (h2 := heap_after (Storage.set k v) hh) in *
  end.
  clearbody h2. hsimpl.
  destruct (cursor_moves h2 i) as [Hnext _].
  { rewrite F3. hsimpl. exact Hi. }
  { rewrite F3. hsimpl. by rewrite length_insert. }
  rewrite Hnext. eexists. split; [reflexivity|]. hsimpl. rewrite F3. hsimpl.
  rewrite length_insert. repeat split; try reflexivity. exact F7.
Qed.

Lemma markReviewed_empty h :
  FM.flashcards (flashcardManager h) = [] ->
  FlashcardManager.markReviewed h = (Normal tt, h).
Proof.
  intros Hempty. unfold FlashcardManager.markReviewed. rewrite bind_gets.
  by rewrite Hempty.
Qed.

Lemma studySubject_run subject h :
  match list_find (fun c => FlashcardManager.has_subject subject c = true)
          (FM.flashcards (flashcardManager h)) with
  | Some (i, _) =>
      FlashcardManager.studySubject subject h
      = (Normal tt,
         with_flashcardManager (FlashcardManager.set_index (Int (Z.of_nat i))) h)
  | None => FlashcardManager.studySubject subject h = (Normal tt, h)
  end.
Proof.
  unfold FlashcardManager.studySubject. rewrite bind_gets.
  destruct (list_find _ _) as [[i c]|] eqn:Hfind; [|reflexivity].
  apply list_find_Some in Hfind as (Hc & _ & _).
  unfold FlashcardManager.showFlashcardsSection.
  rewrite bind_modify, bind_ret, displayCurrentCard_run.
  rewrite (card_displays_in_range _ (Z.of_nat i)); hsimpl; try reflexivity.
  apply lookup_lt_Some in Hc. lia.
Qed.

End MoreCards.

(** X7.  [addFlashcard] throws its validation error exactly when the
    subject, the question or the answer is falsy (missing or empty), and
    then changes nothing.  Otherwise it appends a card at the end of the
    collection, with the three texts as given, no review yet and the clock
    reading as id; the cursor stays where it was and the extended
    collection is written to storage.  Then the page displays the card
    under the cursor and the new card is returned: that is the case when
    the cursor names a card of the extended collection, as it does on a
    new page and whenever it stood on a card; when it names none (it is
    NaN or out of range) the call ends, with the card appended and
    written, in the TypeError of the display. *)
Theorem addFlashcard_validates_and_appends {host : Host}
    (h : Heap) (cardData : gmap string value) :
  let complete :=
    ToBoolean (get_prop cardData "subject") && ToBoolean (get_prop cardData "question")
      && ToBoolean (get_prop cardData "answer") in
  let run := FlashcardManager.addFlashcard cardData in
  (complete = false ->
   outcome run h = Throw (Exn "Error" "Subject, question and answer are required")
   /\ heap_after run h = h)
  /\ (forall k, (k = "subject" \/ k = "question" \/ k = "answer") ->
        (cardData !! k = None \/ cardData !! k = Some (VStr "")) ->
        complete = false)
  /\ (complete = true ->
      exists card,
        FM.flashcards (flashcardManager (heap_after run h))
        = (FM.flashcards (flashcardManager h) ++ [card])%list
        /\ Flashcard.subject card = get_prop cardData "subject"
        /\ Flashcard.question card = get_prop cardData "question"
        /\ Flashcard.answer card = get_prop cardData "answer"
        /\ Flashcard.reviews card = 0
        /\ Flashcard.lastReviewed card = None
        /\ Flashcard.id card = clock h 0%nat
        /\ FM.currentCardIndex (flashcardManager (heap_after run h))
           = FM.currentCardIndex (flashcardManager h)
        /\ localStorage (heap_after run h)
           = localStorage
               (heap_after (Storage.set StorageKeys.FLASHCARDS
                  (VArr (map Flashcard.to_value
                           (FM.flashcards (flashcardManager h) ++ [card])%list))) h)
        /\ (card_displays (heap_after run h) = true -> outcome run h = Normal card)
        /\ (card_displays (heap_after run h) = false ->
            exists e, outcome run h = Throw e /\ exn_name e = "TypeError"
                      /\ e <> Exn "Error" "Subject, question and answer are required")
        /\ (forall i,
              FM.currentCardIndex (flashcardManager h) = Int i ->
              0 <= i <= Z.of_nat (length (FM.flashcards (flashcardManager h))) ->
              outcome run h = Normal card)
        /\ (FM.currentCardIndex (flashcardManager h) = NaN ->
            exists e, outcome run h = Throw e /\ exn_name e = "TypeError")).
Proof.
  intros complete run. split; [|split].
  - intros Hbad. unfold outcome, heap_after, run.
    by rewrite (addFlashcard_invalid cardData h Hbad).
  - intros k Hk Hmiss. apply falsy_field in Hmiss. subst complete.
    destruct Hk as [-> | [-> | ->]]; rewrite Hmiss;
      by rewrite ?andb_false_r, ?andb_false_l.
  - intros Hok.
    destruct (addFlashcard_valid cardData h Hok)
      as (card & h' & Hrun & Hcard & Hcs & Hcursor & Hls).
    exists card. unfold outcome, heap_after, run. rewrite Hrun. hsimpl.
    split; [exact Hcs|].
    rewrite Hcard at 1 2 3 4 5 6. cbn [Flashcard.subject Flashcard.question
      Flashcard.answer Flashcard.reviews Flashcard.lastReviewed Flashcard.id].
    do 6 (split; [reflexivity|]). split; [exact Hcursor|]. split; [exact Hls|].
    split; [by intros ->|]. split; [intros ->; eexists; by repeat split|].
    split.
    + intros i Hi Hrange.
      rewrite (card_displays_in_range h' i); [reflexivity | by rewrite Hcursor|].
      rewrite Hcs, length_app. simpl. lia.
    + intros Hnan. unfold card_displays. cbn zeta. rewrite Hcursor, Hnan, Hcs.
      rewrite length_app. simpl.
      destruct (Z.eqb_spec (Z.of_nat (length (FM.flashcards (flashcardManager h)) + 1)) 0);
        [lia|]. simpl. eauto.
Qed.

(** A fourth card is added to three with the cursor on the first, and
    returned; a card without an answer is refused. *)
Lemma addFlashcard_validates_and_appends_witness :
  (exists card,
     FM.flashcards (flashcardManager
       (heap_after (FlashcardManager.addFlashcard (host := IntegerHost.host)
                      (<["subject" := VStr "Historia"]>
                       (<["question" := VStr "1492"]>
                       (<["answer" := VStr "Colón"]> ∅)))) Examples.studying))
     = [Examples.card 1; Examples.card 2; Examples.card 3; card]
     /\ Flashcard.reviews card = 0
     /\ outcome (FlashcardManager.addFlashcard (host := IntegerHost.host)
                   (<["subject" := VStr "Historia"]>
                    (<["question" := VStr "1492"]>
                    (<["answer" := VStr "Colón"]> ∅)))) Examples.studying
        = Normal card)
  /\ outcome (FlashcardManager.addFlashcard (host := IntegerHost.host)
                (<["subject" := VStr "Historia"]> (<["question" := VStr ""]> ∅)))
       Examples.studying
     = Throw (Exn "Error" "Subject, question and answer are required").
Proof.
  split.
  - destruct (addFlashcard_validates_and_appends (host := IntegerHost.host)
                Examples.studying
                (<["subject" := VStr "Historia"]>
                 (<["question" := VStr "1492"]>
                 (<["answer" := VStr "Colón"]> ∅)))) as (_ & _ & Hok).
    destruct (Hok eq_refl)
      as (card & Hcs & _ & _ & _ & Hrev & _ & _ & _ & _ & _ & _ & Hret & _).
    exists card. split; [exact Hcs|]. split; [exact Hrev|].
    apply (Hret 0); [reflexivity | simpl; lia].
  - destruct (addFlashcard_validates_and_appends (host := IntegerHost.host)
                Examples.studying
                (<["subject" := VStr "Historia"]> (<["question" := VStr ""]> ∅)))
      as (Hbad & _).
    apply Hbad. reflexivity.
Defined.

(** X8.  With the cursor on a card, [markReviewed] returns, adds one to
    the reviews of that card and stamps it with the time of the clock,
    leaves every other card and the length of the collection as they were,
    writes the collection to storage and moves the cursor to the next card,
    back to the first after the last.  On an empty collection it changes
    nothing. *)
Theorem markReviewed_counts_the_current_card {host : Host} (h : Heap) :
  let cs := FM.flashcards (flashcardManager h) in
  let h' := heap_after FlashcardManager.markReviewed h in
  let cs' := FM.flashcards (flashcardManager h') in
  (cs = [] -> outcome FlashcardManager.markReviewed h = Normal tt /\ h' = h)
  /\ (forall (i : nat) card,
        FM.currentCardIndex (flashcardManager h) = Int (Z.of_nat i) ->
        cs !! i = Some card ->
        outcome FlashcardManager.markReviewed h = Normal tt
        /\ length cs' = length cs
        /\ (forall j, j <> i -> cs' !! j = cs !! j)
        /\ (exists card',
              cs' !! i = Some card'
              /\ Flashcard.reviews card' = Flashcard.reviews card + 1
              /\ Flashcard.lastReviewed card' = Some (Date_toISOString (clock h 0%nat))
              /\ Flashcard.id card' = Flashcard.id card
              /\ Flashcard.subject card' = Flashcard.subject card
              /\ Flashcard.question card' = Flashcard.question card
              /\ Flashcard.answer card' = Flashcard.answer card)
        /\ FM.currentCardIndex (flashcardManager h')
           = Int (Z.of_nat ((i + 1) mod length cs))
        /\ localStorage h'
           = localStorage
               (heap_after (Storage.set StorageKeys.FLASHCARDS
                              (VArr (map Flashcard.to_value cs'))) h)).
Proof.
  intros cs h' cs'. split.
  - intros Hempty. subst h'. unfold outcome, heap_after.
    by rewrite (markReviewed_empty h Hempty).
  - intros i card Hi Hcard.
    destruct (markReviewed_run h i card Hi Hcard) as (h1 & Hrun & Hcs & Hcursor & Hls).
    assert (Hh' : h' = h1) by (subst h'; unfold heap_after; by rewrite Hrun).
    assert (Hlt : (i < length cs)%nat) by (by apply lookup_lt_Some in Hcard).
    subst cs'. rewrite Hh'. fold cs in Hcs, Hcursor. rewrite Hcs.
    split; [unfold outcome; by rewrite Hrun|].
    split; [apply length_insert|].
    split; [intros j Hne; by apply list_lookup_insert_ne|].
    split.
    { eexists. split; [by apply list_lookup_insert_eq|]. done. }
    split; [exact Hcursor | exact Hls].
Qed.

(** With three cards and the cursor on the first, marking it reviewed
    leaves the first card with one review and the cursor on the second. *)
Lemma markReviewed_counts_the_current_card_witness :
  let h' := heap_after (FlashcardManager.markReviewed (host := IntegerHost.host))
              Examples.studying in
  (exists card',
     FM.flashcards (flashcardManager h') !! 0%nat = Some card'
     /\ Flashcard.reviews card' = 1)
  /\ FM.currentCardIndex (flashcardManager h') = Int 1
  /\ heap_after (FlashcardManager.markReviewed (host := IntegerHost.host))
       Examples.fresh = Examples.fresh.
Proof.
  intros h'.
  destruct (markReviewed_counts_the_current_card (host := IntegerHost.host)
              Examples.studying) as [_ Hon].
  destruct (markReviewed_counts_the_current_card (host := IntegerHost.host)
              Examples.fresh) as [Hempty _].
  destruct (Hon 0%nat (Examples.card 1) eq_refl eq_refl)
    as (_ & _ & _ & (card' & Hat & Hrev & _) & Hcursor & _).
  split; [exists card'; split; [exact Hat | exact Hrev]|].
  split; [exact Hcursor|]. by destruct (Hempty eq_refl).
Defined.

(** X9.  [studySubject] returns and leaves the collection alone.  When no
    card has the subject as its subject string it changes nothing;
    otherwise it puts the cursor on the first card of the collection with
    that subject, wherever the cursor was, NaN included. *)
Theorem studySubject_goes_to_the_first_card (h : Heap) (subject : string) :
  let cs := FM.flashcards (flashcardManager h) in
  let h' := heap_after (FlashcardManager.studySubject subject) h in
  outcome (FlashcardManager.studySubject subject) h = Normal tt
  /\ FM.flashcards (flashcardManager h') = cs
  /\ ((forall c, In c cs -> Flashcard.subject c <> VStr subject) -> h' = h)
  /\ (forall (i : nat) c,
        cs !! i = Some c ->
        Flashcard.subject c = VStr subject ->
        (forall j d, cs !! j = Some d -> (j < i)%nat -> Flashcard.subject d <> VStr subject) ->
        FM.currentCardIndex (flashcardManager h') = Int (Z.of_nat i)
        /\ cursor_on_card h').
Proof.
  intros cs h'.
  assert (Hsub : forall c, FlashcardManager.has_subject subject c = true
                           <-> Flashcard.subject c = VStr subject).
  { intros c. unfold FlashcardManager.has_subject.
    destruct (Flashcard.subject c) as [| | | |s| |]; try (split; done).
    destruct (String.eqb_spec s subject) as [->|Hne]; split; congruence. }
  pose proof (studySubject_run subject h) as Hrun. fold cs in Hrun.
  destruct (list_find _ cs) as [[i0 c0]|] eqn:Hfind.
  - apply list_find_Some in Hfind as (Hat & Hhas & Hfirst).
    assert (Hh' : h' = with_flashcardManager
                         (FlashcardManager.set_index (Int (Z.of_nat i0))) h)
      by (subst h'; unfold heap_after; by rewrite Hrun).
    split; [unfold outcome; by rewrite Hrun|]. rewrite Hh'. hsimpl.
    split; [reflexivity|]. split.
    { intros Hnone. exfalso. apply (Hnone c0); [|by apply Hsub].
      apply list_elem_of_In. by eapply list_elem_of_lookup_2. }
    intros i c Hi Hc Hbefore.
    assert (i = i0) as ->.
    { destruct (Nat.lt_trichotomy i i0) as [Hlt | [-> | Hgt]]; [|done|].
      - exfalso. apply (Hfirst i c Hi Hlt). by apply Hsub.
      - exfalso. apply (Hbefore i0 c0 Hat Hgt). by apply Hsub. }
    split; [reflexivity|]. exists i0, c. hsimpl. done.
  - apply list_find_None in Hfind.
    assert (Hh' : h' = h) by (subst h'; unfold heap_after; by rewrite Hrun).
    split; [unfold outcome; by rewrite Hrun|]. rewrite Hh'.
    split; [reflexivity|]. split; [done|].
    intros i c Hi Hc _. exfalso.
    rewrite Forall_forall in Hfind. apply (Hfind c).
    + by eapply list_elem_of_lookup_2.
    + by apply Hsub.
Qed.

Lemma studySubject_goes_to_the_first_card_witness :
  FM.currentCardIndex
    (flashcardManager
       (heap_after (FlashcardManager.studySubject "Historia")
          (heap_after FlashcardManager.previousCard Examples.studying))) = Int 0
  /\ heap_after (FlashcardManager.studySubject "Latín") Examples.studying
     = Examples.studying.
Proof.
  destruct (studySubject_goes_to_the_first_card
              (heap_after FlashcardManager.previousCard Examples.studying) "Historia")
    as (_ & _ & _ & Hfirst).
  destruct (studySubject_goes_to_the_first_card Examples.studying "Latín")
    as (_ & _ & Hnone & _).
  split.
  - destruct (Hfirst 0%nat (Examples.card 1) eq_refl eq_refl) as [Hcursor _];
      [intros j d _ Hlt; lia | exact Hcursor].
  - apply Hnone. intros c [<- | [<- | [<- | []]]]; discriminate.
Defined.

Section CardRuns.
Context {host : Host}.

Lemma run_card_op_keeps_cursor op h :
  cursor_on_card h ->
  cursor_on_card (heap_after (run_card_op op) h)
  /\ (length (FM.flashcards (flashcardManager h))
      <= length (FM.flashcards (flashcardManager (heap_after (run_card_op op) h))))%nat.
Proof.
  intros (i & card & Hi & Hcard).
  assert (Hlt : (i < length (FM.flashcards (flashcardManager h)))%nat)
    by (by apply lookup_lt_Some in Hcard).
  destruct op as [cardData| | | |subject]; simpl.
  - destruct (ToBoolean (get_prop cardData "subject")
              && ToBoolean (get_prop cardData "question")
              && ToBoolean (get_prop cardData "answer")) eqn:Hok.
    + destruct (addFlashcard_valid cardData h Hok)
        as (c & h' & Hrun & _ & Hcs & Hcursor & _).
      assert (Hh' : heap_after (do _ <- FlashcardManager.addFlashcard cardData; ret tt) h
                    = h').
      { unfold heap_after, bind. rewrite Hrun. by destruct (card_displays h'). }
      rewrite Hh'. split.
      * exists i, card. rewrite Hcursor, Hcs. split; [done|]. by apply lookup_app_l_Some.
      * rewrite Hcs, length_app. lia.
    + unfold heap_after, bind. rewrite (addFlashcard_invalid cardData h Hok). hsimpl.
      split; [by exists i, card | lia].
  - destruct (cursor_moves h i Hi Hlt) as [Hnext _].
    unfold heap_after. rewrite Hnext. hsimpl. split; [|lia].
    destruct (lookup_lt_is_Some_2 (FM.flashcards (flashcardManager h))
                ((i + 1) mod length (FM.flashcards (flashcardManager h)))) as [c Hc].
    { apply Nat.mod_upper_bound. lia. }
    eexists _, c. split; [reflexivity | exact Hc].
  - destruct (cursor_moves h i Hi Hlt) as [_ Hprev].
    unfold heap_after. rewrite Hprev. hsimpl. split; [|lia].
    destruct (lookup_lt_is_Some_2 (FM.flashcards (flashcardManager h))
                ((i + length (FM.flashcards (flashcardManager h)) - 1)
                   mod length (FM.flashcards (flashcardManager h)))) as [c Hc].
    { apply Nat.mod_upper_bound. lia. }
    eexists _, c. split; [reflexivity | exact Hc].
  - destruct (markReviewed_run h i card Hi Hcard) as (h' & Hrun & Hcs & Hcursor & _).
    unfold heap_after. rewrite Hrun. hsimpl. rewrite Hcs, length_insert. split; [|lia].
    destruct (lookup_lt_is_Some_2
                (<[i := FlashcardManager.reviewed (Date_toISOString (clock h 0%nat)) card]>
                   (FM.flashcards (flashcardManager h)))
                ((i + 1) mod length (FM.flashcards (flashcardManager h)))) as [c Hc].
    { rewrite length_insert. apply Nat.mod_upper_bound. lia. }
    eexists _, c. rewrite Hcursor, Hcs. split; [reflexivity | exact Hc].
  - pose proof (studySubject_run subject h) as Hrun.
    destruct (list_find _ _) as [[i0 c0]|] eqn:Hfind.
    + apply list_find_Some in Hfind as (Hat & _).
      unfold heap_after. rewrite Hrun. hsimpl. split; [|lia]. by exists i0, c0.
    + unfold heap_after. rewrite Hrun. hsimpl. split; [by exists i, card | lia].
Qed.

End CardRuns.

(** X10.  Once the cursor stands on a card, no sequence of page requests
    (adding cards, valid or not, next, previous, marking as reviewed,
    studying a subject) takes it off the collection or makes the collection
    shorter; so after any such sequence marking the current card as
    reviewed returns normally. *)
Theorem cursor_stays_on_a_card {host : Host} (ops : list card_op) (h : Heap) :
  cursor_on_card h ->
  let h' := after_card_ops ops h in
  cursor_on_card h'
  /\ (length (FM.flashcards (flashcardManager h))
      <= length (FM.flashcards (flashcardManager h')))%nat
  /\ outcome FlashcardManager.markReviewed h' = Normal tt.
Proof.
  intros Hon h'.
  assert (Hinv : cursor_on_card h'
                 /\ (length (FM.flashcards (flashcardManager h))
                     <= length (FM.flashcards (flashcardManager h')))%nat).
  { subst h'. revert h Hon. induction ops as [|op ops IH]; intros h Hon; simpl.
    - split; [done | lia].
    - destruct (run_card_op_keeps_cursor op h Hon) as [Hon1 Hlen1].
      destruct (IH _ Hon1) as [Hon' Hlen']. split; [done | lia]. }
  destruct Hinv as [Hon' Hlen]. split; [exact Hon'|]. split; [exact Hlen|].
  destruct Hon' as (i & card & Hi & Hcard).
  destruct (markReviewed_run h' i card Hi Hcard) as (h2 & Hrun & _).
  unfold outcome. by rewrite Hrun.
Qed.

(** Three cards, then: back from the first card, a card without answer,
    a review, a subject that no card has, a new card, forward twice.  The
    cursor ends on the third of four cards. *)
Lemma cursor_stays_on_a_card_witness :
  let ops :=
    [CardPrevious;
     CardAdd (<["subject" := VStr "Latín"]> ∅);
     CardReviewed;
     CardStudy "Griego";
     CardAdd (<["subject" := VStr "Latín"]>
              (<["question" := VStr "rosa"]> (<["answer" := VStr "rosae"]> ∅)));
     CardNext; CardNext] in
  let h' := after_card_ops (host := IntegerHost.host) ops Examples.studying in
  FM.currentCardIndex (flashcardManager h') = Int 2
  /\ length (FM.flashcards (flashcardManager h')) = 4%nat
  /\ outcome (FlashcardManager.markReviewed (host := IntegerHost.host)) h' = Normal tt.
Proof.
  intros ops h'.
  destruct (cursor_stays_on_a_card (host := IntegerHost.host) ops Examples.studying)
    as (_ & _ & Hreview).
  { by exists 0%nat, (Examples.card 1). }
  split; [vm_compute; reflexivity|]. split; [vm_compute; reflexivity|]. exact Hreview.
Defined.

(** X11.  With the cursor on a card, previousCard undoes nextCard and
    nextCard undoes previousCard. *)
Theorem nextCard_and_previousCard_are_inverse (h : Heap) :
  cursor_on_card h ->
  FM.currentCardIndex
    (flashcardManager
       (heap_after (do _ <- FlashcardManager.nextCard; FlashcardManager.previousCard) h))
  = FM.currentCardIndex (flashcardManager h)
  /\ FM.currentCardIndex
       (flashcardManager
          (heap_after (do _ <- FlashcardManager.previousCard; FlashcardManager.nextCard) h))
     = FM.currentCardIndex (flashcardManager h).
Proof.
  intros (i & card & Hi & Hcard).
  assert (Hlt : (i < length (FM.flashcards (flashcardManager h)))%nat)
    by (by apply lookup_lt_Some in Hcard).
  set (n := length (FM.flashcards (flashcardManager h))) in *.
  destruct (cursor_moves h i Hi Hlt) as [Hnext Hprev]. fold n in Hnext, Hprev.
  assert (Hn : forall k, (k mod n < n)%nat) by (intros k; apply Nat.mod_upper_bound; lia).
  split; unfold heap_after, bind.
  - rewrite Hnext.
    match goal with |- context [FlashcardManager.previousCard ?hh] =>
      destruct (cursor_moves hh ((i + 1) mod n) eq_refl) as [_ Hback];
        [hsimpl; apply Hn|]
    end.
    rewrite Hback. hsimpl. fold n. rewrite Hi. do 2 f_equal.
    destruct (decide (i + 1 = n)%nat) as [Heq|Hne].
    + rewrite Heq, Nat.Div0.mod_same. simpl.
      rewrite Nat.mod_small by lia. lia.
    + rewrite (Nat.mod_small (i + 1)) by lia.
      replace (i + 1 + n - 1)%nat with (i + 1 * n)%nat by lia.
      rewrite Nat.Div0.mod_add. apply Nat.mod_small. lia.
  - rewrite Hprev.
    match goal with |- context [FlashcardManager.nextCard ?hh] =>
      destruct (cursor_moves hh ((i + n - 1) mod n) eq_refl) as [Hforth _];
        [hsimpl; apply Hn|]
    end.
    rewrite Hforth. hsimpl. fold n. rewrite Hi. do 2 f_equal.
    destruct (decide (i = 0)%nat) as [->|Hne].
    + simpl. rewrite (Nat.mod_small (n - 1)) by lia.
      replace (n - 1 + 1)%nat with n by lia. apply Nat.Div0.mod_same.
    + replace (i + n - 1)%nat with (i - 1 + 1 * n)%nat by lia.
      rewrite Nat.Div0.mod_add. rewrite (Nat.mod_small (i - 1)) by lia.
      replace (i - 1 + 1)%nat with i by lia. apply Nat.mod_small. lia.
Qed.

Lemma nextCard_and_previousCard_are_inverse_witness :
  FM.currentCardIndex
    (flashcardManager
       (heap_after (do _ <- FlashcardManager.nextCard; FlashcardManager.previousCard)
          Examples.studying)) = Int 0.
Proof.
  destruct (nextCard_and_previousCard_are_inverse Examples.studying) as [Hback _].
  { by exists 0%nat, (Examples.card 1). }
  exact Hback.
Defined.

(* ===================================================================== *)
(** ** More on the storage wrapper *)
(* ===================================================================== *)

(** X12.  What [Storage.set] wrote, [Storage.get] reads back: when the
    write is accepted and the host parses the text it produced for the
    value back to that value, the write logs nothing, and reading the key
    returns the value and changes nothing at all, the console included; it
    keeps returning the value after writes to other keys; of two writes to
    one key the later one is read. *)
Theorem Storage_reads_back_what_it_wrote {host : Host}
    (h : Heap) (key : string) (v : value) (text : string) :
  available (localStorage h) = true ->
  JSON_stringify v = Normal (Some text) ->
  accepts (localStorage h) (items (localStorage h)) key text = true ->
  text <> "" ->
  JSON_parse text = Normal v ->
  let h' := heap_after (Storage.set key v) h in
  outcome (Storage.get key) h' = Normal v
  /\ console h' = console h
  /\ heap_after (Storage.get key) h' = h'
  /\ console (heap_after (Storage.get key) h') = console h
  /\ (forall key' v', key' <> key ->
        outcome (Storage.get key) (heap_after (Storage.set key' v') h') = Normal v)
  /\ (forall v0, outcome (Storage.get key)
                   (heap_after (do _ <- Storage.set key v0; Storage.set key v) h)
                 = Normal v
                 \/ write_fails (heap_after (Storage.set key v0) h) key v).
Proof.
  intros Ha Hs Hq Hne Hp h'.
  assert (Hset : forall h0,
            available (localStorage h0) = true ->
            accepts (localStorage h0) (items (localStorage h0)) key text = true ->
            Storage.set key v h0 = (Normal tt, with_localStorage (LS.put key text) h0)).
  { intros h0 Ha0 Hq0.
    unfold Storage.set, try_catch, bind, LS.access, LS.setItem, lift.
    rewrite Ha0. simpl. rewrite Hs. simpl. by rewrite Hq0. }
  assert (Hget : forall h0,
            available (localStorage h0) = true ->
            outcome (Storage.get key) (with_localStorage (LS.put key text) h0) = Normal v).
  { intros h0 Ha0. rewrite Storage_get_outcome. hsimpl. unfold LS.put. simpl.
    rewrite Ha0, lookup_insert_eq, Hp.
    by destruct (String.eqb_spec text ""). }
  assert (Hh' : h' = with_localStorage (LS.put key text) h)
    by (subst h'; unfold heap_after; by rewrite Hset).
  assert (Hread : heap_after (Storage.get key) h' = h').
  { rewrite Hh'. unfold heap_after, Storage.get, try_catch, bind, LS.access,
      LS.getItem, gets, lift, ret. hsimpl. unfold LS.put. simpl.
    rewrite Ha. simpl. rewrite lookup_insert_eq, Hp.
    by destruct (String.eqb_spec text ""). }
  split; [rewrite Hh'; by apply Hget|].
  split; [by rewrite Hh'|].
  split; [exact Hread|].
  split; [rewrite Hread; by rewrite Hh'|].
  split.
  - intros key' v' Hk. rewrite Storage_set_other_key by done. rewrite Hh'. by apply Hget.
  - intros v0. set (h0 := heap_after (Storage.set key v0) h).
    assert (Hrun : heap_after (do _ <- Storage.set key v0; Storage.set key v) h
                   = heap_after (Storage.set key v) h0).
    { unfold heap_after at 1. by rewrite bind_Storage_set. }
    rewrite Hrun.
    destruct (available (localStorage h0)) eqn:Ha0; [|right; by left].
    destruct (accepts (localStorage h0) (items (localStorage h0)) key text) eqn:Hq0.
    + left. unfold heap_after. rewrite Hset by done. by apply Hget.
    + right. right. right. exists (Some text). by split.
Qed.

(** The stats record of the rested page, written under the stats key of a
    new page, is read back as it was, and the console stays empty. *)
Lemma Storage_reads_back_what_it_wrote_witness :
  let record := VObj (PM.stats (pomodoroManager Examples.resting)) in
  outcome (Storage.get (host := IntegerHost.host) StorageKeys.POMODORO_STATS)
    (heap_after (Storage.set (host := IntegerHost.host) StorageKeys.POMODORO_STATS record)
       Examples.fresh)
  = Normal record
  /\ console
       (heap_after (Storage.get (host := IntegerHost.host) StorageKeys.POMODORO_STATS)
          (heap_after
             (Storage.set (host := IntegerHost.host) StorageKeys.POMODORO_STATS record)
             Examples.fresh))
     = [].
Proof.
  intros record.
  destruct (IntegerHost.stringify record) as [[text|]|] eqn:Htext;
    try (vm_compute in Htext; discriminate).
  destruct (Storage_reads_back_what_it_wrote (host := IntegerHost.host) Examples.fresh
              StorageKeys.POMODORO_STATS record text) as (Hback & _ & _ & Hquiet & _).
  - reflexivity.
  - exact Htext.
  - vm_compute in Htext. injection Htext as <-. vm_compute. reflexivity.
  - vm_compute in Htext. injection Htext as <-. discriminate.
  - vm_compute in Htext. injection Htext as <-. vm_compute. reflexivity.
  - split; [exact Hback | exact Hquiet].
Defined.

(** X13.  A value that JSON.stringify turns into no text at all, as it
    does with undefined, is stored as the text "undefined"; since
    JSON.parse rejects that text, reading the key gives null and logs the
    error, whatever was stored under the key before. *)
Theorem Storage_undefined_reads_back_null {host : Host}
    (h : Heap) (key : string) (v : value) (e : exn) :
  available (localStorage h) = true ->
  JSON_stringify v = Normal None ->
  accepts (localStorage h) (items (localStorage h)) key "undefined" = true ->
  JSON_parse "undefined" = Throw e ->
  let h' := heap_after (Storage.set key v) h in
  items (localStorage h') !! key = Some "undefined"
  /\ outcome (Storage.get key) h' = Normal VNull
  /\ console (heap_after (Storage.get key) h')
     = ("Error reading from storage:", e) :: console h.
Proof.
  intros Ha Hs Hq Hp h'.
  assert (Hh' : h' = with_localStorage (LS.put key "undefined") h).
  { subst h'. unfold heap_after, Storage.set, try_catch, bind, LS.access, LS.setItem, lift.
    rewrite Ha. simpl. rewrite Hs. simpl. by rewrite Hq. }
  rewrite Hh'.
  assert (Hitem : items (localStorage (with_localStorage (LS.put key "undefined") h)) !! key
                  = Some "undefined") by (hsimpl; apply lookup_insert_eq).
  split; [exact Hitem|]. split.
  - rewrite Storage_get_outcome, Hitem, Hp. hsimpl. unfold LS.put. simpl.
    by rewrite Ha.
  - rewrite (Storage_get_logs key _ "undefined" e); [reflexivity | exact Ha | exact Hitem
                                                     | discriminate | exact Hp].
Qed.

Lemma Storage_undefined_reads_back_null_witness :
  outcome (Storage.get (host := IntegerHost.host) StorageKeys.USER)
    (heap_after (Storage.set (host := IntegerHost.host) StorageKeys.USER VUndefined)
       Examples.fresh)
  = Normal VNull.
Proof.
  destruct (Storage_undefined_reads_back_null (host := IntegerHost.host) Examples.fresh
              StorageKeys.USER VUndefined (Exn "SyntaxError" "Unexpected token in JSON"))
    as (_ & Hnull & _); [reflexivity..|].
  exact Hnull.
Defined.

(* ===================================================================== *)
(** ** More on the timer *)
(* ===================================================================== *)

Section MoreTimer.
Context {host : Host}.

Lemma pause_run h :
  PomodoroManager.pause h
  = (Normal tt,
     match PM.interval (pomodoroManager h) with
     | Some n =>
         with_timers (fun s => s ∖ {[n]}) (fun next => next)
           (with_pomodoroManager (PomodoroManager.set_isRunning false) h)
     | None => with_pomodoroManager (PomodoroManager.set_isRunning false) h
     end).
Proof.
  unfold PomodoroManager.pause, PomodoroManager.setTimerLabel.
  rewrite bind_modify, bind_gets. hsimpl. unfold Timers.clearInterval.
  destruct (PM.interval (pomodoroManager h)); reflexivity.
Qed.

Lemma start_run' h :
  PomodoroManager.start h
  = (Normal tt,
     if PM.isRunning (pomodoroManager h) then h
     else with_pomodoroManager (PomodoroManager.set_interval (Some (nextTimer h)))
            (with_timers (fun s => {[nextTimer h]} ∪ s) S
               (with_pomodoroManager (PomodoroManager.set_isRunning true) h))).
Proof.
  unfold PomodoroManager.start. rewrite bind_gets.
  destruct (PM.isRunning (pomodoroManager h)); reflexivity.
Qed.

Lemma reset_run' h :
  PomodoroManager.reset h
  = (Normal tt,
     with_pomodoroManager
       (fun m => PomodoroManager.set_time (Int (PM.modes (PM.currentMode m) * 60)) m)
       (snd (PomodoroManager.pause h))).
Proof.
  unfold PomodoroManager.reset. unfold bind at 1. rewrite pause_run. reflexivity.
Qed.

(** What [complete] does to the countdown, in both modes: it is a pause
    followed by changes to the stats, the storage area, the mode and the
    time. *)
Lemma complete_countdown h :
  let hp := snd (PomodoroManager.pause h) in
  exists h',
    PomodoroManager.complete h = (Normal tt, h')
    /\ timers h' = timers hp /\ nextTimer h' = nextTimer hp
    /\ PM.interval (pomodoroManager h') = PM.interval (pomodoroManager h)
    /\ PM.isRunning (pomodoroManager h') = false
    /\ PM.time (pomodoroManager h')
       = Int (PM.modes (PM.currentMode (pomodoroManager h')) * 60)
    /\ taskManager h' = taskManager h /\ flashcardManager h' = flashcardManager h.
Proof.
  intros hp. unfold PomodoroManager.complete.
  unfold bind at 1. rewrite pause_run. subst hp. rewrite pause_run.
  cbn [snd].
  set (hp := match PM.interval (pomodoroManager h) with
             | Some n => _ | None => _ end).
  assert (Hpm : pomodoroManager hp
                = PomodoroManager.set_isRunning false (pomodoroManager h))
    by (subst hp; by destruct (PM.interval (pomodoroManager h))).
  assert (Htm : taskManager hp = taskManager h)
    by (subst hp; by destruct (PM.interval (pomodoroManager h))).
  assert (Hfm : flashcardManager hp = flashcardManager h)
    by (subst hp; by destruct (PM.interval (pomodoroManager h))).
  clearbody hp. rewrite bind_gets, Hpm. hsimpl.
  destruct (PM.currentMode (pomodoroManager h)).
  - unfold PomodoroManager.update_stats, PomodoroManager.updateStats,
      PomodoroManager.save, AchievementSystem.show, alert.
    rewrite !bind_modify, bind_ret, bind_assoc, bind_gets, bind_Storage_set,
      bind_ret, bind_gets.
    match goal with |- context [heap_after (Storage.set ?k ?v) ?hh] =>
      destruct (Storage_set_frame k v hh) as (F1 & F2 & F3 & F4 & F5 & _);
      set (h2 := heap_after (Storage.set k v) hh) in *
    end.
    clearbody h2. hsimpl.
    destruct (Num.eqb _ _); rewrite bind_ret, setMode_run; eexists;
      (split; [reflexivity|]); hsimpl; rewrite F1, F2, F3, F4, F5; hsimpl;
      rewrite Hpm; hsimpl; repeat split; done.
  - unfold alert. rewrite bind_ret, setMode_run. eexists. split; [reflexivity|].
    hsimpl. rewrite Hpm. hsimpl. repeat split; done.
  - unfold alert. rewrite bind_ret, setMode_run. eexists. split; [reflexivity|].
    hsimpl. rewrite Hpm. hsimpl. repeat split; done.
Qed.

Lemma tick_run handle h :
  PomodoroManager.tick handle h
  = if bool_decide (handle ∈ timers h)
    then if Num.gt (PM.time (pomodoroManager h)) (Int 0)
         then (Normal tt,
               with_pomodoroManager
                 (PomodoroManager.set_time
                    (Num.sub (PM.time (pomodoroManager h)) (Int 1))) h)
         else PomodoroManager.complete h
    else (Normal tt, h).
Proof.
  unfold PomodoroManager.tick. rewrite bind_gets.
  destruct (bool_decide _); [|reflexivity].
  unfold PomodoroManager.onInterval. rewrite bind_gets.
  destruct (Num.gt _ _); reflexivity.
Qed.

(** The state of the countdown after each operation. *)
Lemma run_op_one_countdown op h :
  one_countdown h -> one_countdown (heap_after (run_op op) h).
Proof.
  assert (Hpause : forall h0, one_countdown h0 ->
            timers (snd (PomodoroManager.pause h0)) = ∅).
  { intros h0 H0. rewrite pause_run. unfold one_countdown in H0. cbn [snd].
    destruct (PM.isRunning (pomodoroManager h0)).
    - destruct H0 as (n & -> & Ht). hsimpl. rewrite Ht. apply difference_diag_L.
    - destruct (PM.interval (pomodoroManager h0)); hsimpl; rewrite H0;
        [apply difference_disjoint_L; set_solver | done]. }
  assert (Hcomplete : forall h0, one_countdown h0 ->
            one_countdown (heap_after PomodoroManager.complete h0)).
  { intros h0 H0. destruct (complete_countdown h0) as (h' & Hrun & Ht & _ & _ & Hr & _).
    unfold heap_after. rewrite Hrun. cbn [snd]. unfold one_countdown.
    rewrite Hr, Ht. by apply Hpause. }
  intros Hone. destruct op as [m minutes| | | | |handle]; unfold heap_after; cbn [run_op].
  - rewrite setMode_run. exact Hone.
  - rewrite start_run'. cbn [snd]. unfold one_countdown in *.
    destruct (PM.isRunning (pomodoroManager h)) eqn:Hr; [by rewrite Hr|].
    hsimpl. exists (nextTimer h). split; [done|]. rewrite Hone.
    apply union_empty_r_L.
  - pose proof (Hpause h Hone) as Hp. rewrite pause_run in *. cbn [snd] in *.
    unfold one_countdown.
    destruct (PM.interval (pomodoroManager h)); hsimpl; exact Hp.
  - rewrite reset_run'. cbn [snd]. pose proof (Hpause h Hone) as Hp.
    unfold one_countdown. hsimpl.
    rewrite pause_run in *. cbn [snd] in *.
    destruct (PM.interval (pomodoroManager h)); hsimpl; exact Hp.
  - by apply Hcomplete.
  - rewrite tick_run. destruct (bool_decide _); [|exact Hone].
    destruct (Num.gt _ _); [exact Hone|]. by apply Hcomplete.
Qed.

End MoreTimer.

Section MoreTimerRuns.
Context {host : Host}.

Lemma run_ops_heap_cons op ops h :
  heap_after (run_ops (op :: ops)) h
  = heap_after (run_ops ops) (heap_after (run_op op) h).
Proof.
  destruct (run_op_stats op h) as (h1 & Hrun & _).
  unfold heap_after at 1. rewrite (run_ops_cons _ _ _ _ Hrun).
  unfold heap_after. by rewrite Hrun.
Qed.

Lemma run_ops_heap_app ops1 ops2 h :
  heap_after (run_ops (ops1 ++ ops2)) h
  = heap_after (run_ops ops2) (heap_after (run_ops ops1) h).
Proof.
  revert h. induction ops1 as [|op ops1 IH]; intros h; [reflexivity|].
  rewrite <- app_comm_cons, !run_ops_heap_cons. apply IH.
Qed.

Lemma run_op_within_default op h :
  from_page op -> within_default h -> within_default (heap_after (run_op op) h).
Proof.
  assert (Hmodes : forall m, 0 <= PM.modes m * 60) by (intros []; simpl; lia).
  assert (Hcomplete : forall h0, within_default (heap_after PomodoroManager.complete h0)).
  { intros h0. destruct (complete_countdown h0) as (h' & Hrun & _ & _ & _ & _ & Ht & _).
    unfold heap_after. rewrite Hrun. cbn [snd]. eexists. split; [exact Ht|].
    split; [apply Hmodes | lia]. }
  intros Hpage (t & Ht & Hrange).
  destruct op as [m minutes| | | | |handle]; unfold heap_after; cbn [run_op].
  - simpl in Hpage. subst minutes. rewrite setMode_run. cbn [snd].
    exists (PM.modes m * 60). hsimpl. split; [reflexivity|].
    split; [apply Hmodes | lia].
  - rewrite start_run'. cbn [snd].
    destruct (PM.isRunning (pomodoroManager h)); exists t; hsimpl; done.
  - rewrite pause_run. cbn [snd].
    destruct (PM.interval (pomodoroManager h)); exists t; hsimpl; done.
  - rewrite reset_run', pause_run. cbn [snd].
    destruct (PM.interval (pomodoroManager h)); eexists; hsimpl;
      (split; [reflexivity|]); (split; [apply Hmodes | lia]).
  - apply Hcomplete.
  - rewrite tick_run. destruct (bool_decide _); [|by exists t].
    rewrite Ht. simpl. destruct (Z.ltb_spec 0 t); [|apply Hcomplete].
    cbn [snd]. exists (t - 1). hsimpl. split; [reflexivity | lia].
Qed.

Lemma pause_after h :
  one_countdown h ->
  timers (heap_after PomodoroManager.pause h) = ∅
  /\ nextTimer (heap_after PomodoroManager.pause h) = nextTimer h
  /\ pomodoroManager (heap_after PomodoroManager.pause h)
     = PomodoroManager.set_isRunning false (pomodoroManager h).
Proof.
  intros Hone. unfold heap_after. rewrite pause_run. cbn [snd].
  unfold one_countdown in Hone.
  destruct (PM.isRunning (pomodoroManager h)).
  - destruct Hone as (n & -> & Ht). hsimpl. rewrite Ht.
    split; [apply difference_diag_L | done].
  - destruct (PM.interval (pomodoroManager h)); hsimpl; rewrite Hone;
      (split; [|done]); [apply difference_disjoint_L; set_solver | done].
Qed.

End MoreTimerRuns.

(** X14.  The timer never runs two countdowns: if the interval of a
    running timer is the only one set and no interval is set while it is
    not running, the same holds after every sequence of timer operations.
    In particular start on a running timer sets no second interval, and
    after pause, reset or the end of a period no interval is left to
    fire. *)
Theorem never_two_countdowns {host : Host} (ops : list timer_op) (h : Heap) :
  one_countdown h ->
  let h' := heap_after (run_ops ops) h in
  one_countdown h'
  /\ (size (timers h') <= 1)%nat
  /\ (PM.isRunning (pomodoroManager h') = false ->
      forall handle, PomodoroManager.tick handle h' = (Normal tt, h')).
Proof.
  intros Hone h'.
  assert (Hinv : one_countdown h').
  { subst h'. revert h Hone. induction ops as [|op ops IH]; intros h Hone; [exact Hone|].
    rewrite run_ops_heap_cons. apply IH. by apply run_op_one_countdown. }
  split; [exact Hinv|]. unfold one_countdown in Hinv. split.
  - destruct (PM.isRunning (pomodoroManager h')).
    + destruct Hinv as (n & _ & ->). by rewrite size_singleton.
    + rewrite Hinv, size_empty. lia.
  - intros Hr handle. rewrite Hr in Hinv. rewrite tick_run, Hinv.
    by rewrite bool_decide_eq_false_2 by set_solver.
Qed.

(** On a new page: start twice, then a mode switch and a reset; after
    start, start the one interval 1 is set, and at the end none is. *)
Lemma never_two_countdowns_witness :
  timers (heap_after (run_ops (host := IntegerHost.host) [OpStart; OpStart])
            Examples.fresh) = {[1%nat]}
  /\ timers (heap_after (run_ops (host := IntegerHost.host)
                          [OpStart; OpStart; OpSetMode short (VNum (Int 5)); OpReset])
               Examples.fresh) = ∅.
Proof.
  destruct (never_two_countdowns (host := IntegerHost.host) [OpStart; OpStart]
              Examples.fresh) as (Hone & _); [reflexivity|].
  destruct (never_two_countdowns (host := IntegerHost.host)
              [OpStart; OpStart; OpSetMode short (VNum (Int 5)); OpReset]
              Examples.fresh) as (Hnone & _); [reflexivity|].
  split.
  - destruct Hone as (n & Hn & Ht). rewrite Ht.
    vm_compute in Hn. by injection Hn as <-.
  - exact Hnone.
Defined.

(** X15.  While its interval is set, a countdown of [k] seconds takes [k]
    firings of the interval to reach zero, during which nothing but the
    time changes, and the firing after that is the completion of the
    period. *)
Theorem countdown_takes_one_firing_per_second {host : Host}
    (h : Heap) (handle : nat) (k : nat) :
  handle ∈ timers h ->
  PM.time (pomodoroManager h) = Int (Z.of_nat k) ->
  run_ops (replicate k (OpTick handle)) h
  = (Normal tt, with_pomodoroManager (PomodoroManager.set_time (Int 0)) h)
  /\ run_ops (replicate (S k) (OpTick handle)) h
     = PomodoroManager.complete
         (with_pomodoroManager (PomodoroManager.set_time (Int 0)) h).
Proof.
  intros Hlive. revert h Hlive.
  assert (Hzero : forall h0, handle ∈ timers h0 ->
            PM.time (pomodoroManager h0) = Int 0 ->
            with_pomodoroManager (PomodoroManager.set_time (Int 0)) h0 = h0).
  { intros [ls co cl ti nt tm fm [t i r m s]] _ Ht. simpl in Ht. by subst t. }
  induction k as [|k IH]; intros h Hlive Ht.
  - rewrite (Hzero h Hlive Ht). split; [reflexivity|].
    simpl. unfold bind. rewrite tick_run, bool_decide_eq_true_2, Ht by done. simpl.
    destruct (PomodoroManager.complete h) as [[[]|e] h1]; reflexivity.
  - assert (Hstep : run_op (OpTick handle) h
                    = (Normal tt,
                       with_pomodoroManager
                         (PomodoroManager.set_time (Int (Z.of_nat k))) h)).
    { cbn [run_op]. rewrite tick_run, bool_decide_eq_true_2, Ht by done.
      cbn [Num.gt Num.sub].
      destruct (Z.ltb_spec 0 (Z.of_nat (S k))); [|lia]. do 4 f_equal. lia. }
    change (replicate (S (S k)) (OpTick handle))
      with (OpTick handle :: replicate (S k) (OpTick handle)).
    change (replicate (S k) (OpTick handle))
      with (OpTick handle :: replicate k (OpTick handle)) at 1.
    rewrite !(run_ops_cons _ _ _ _ Hstep).
    destruct (IH (with_pomodoroManager
                    (PomodoroManager.set_time (Int (Z.of_nat k))) h)) as [Hk HSk];
      [exact Hlive | reflexivity|].
    split; [exact Hk | exact HSk].
Qed.

(** A running timer with two seconds left: after two firings the time is
    zero and the stats are untouched, and the third firing ends the
    period. *)
Lemma countdown_takes_one_firing_per_second_witness :
  let h := with_pomodoroManager (PomodoroManager.set_time (Int 2)) Examples.focused in
  PM.time (pomodoroManager
             (heap_after (run_ops (host := IntegerHost.host)
                            (replicate 2 (OpTick 1%nat))) h)) = Int 0
  /\ stat "pomodoroCount"
       (heap_after (run_ops (host := IntegerHost.host) (replicate 2 (OpTick 1%nat))) h)
     = Some 3
  /\ stat "pomodoroCount"
       (heap_after (run_ops (host := IntegerHost.host) (replicate 3 (OpTick 1%nat))) h)
     = Some 4.
Proof.
  intros h.
  destruct (countdown_takes_one_firing_per_second (host := IntegerHost.host) h 1%nat 2)
    as [Hk HSk]; [set_solver | reflexivity|].
  unfold heap_after. rewrite Hk, HSk. cbn [snd].
  split; [reflexivity|]. split; [reflexivity|]. vm_compute. reflexivity.
Defined.

(** X16.  [pause] keeps the time that is left, the mode and the stats,
    and after it no firing of an interval changes anything; [start] after
    the pause goes on from the time that was left, one second per firing
    of the new interval. *)
Theorem pause_stops_and_start_resumes {host : Host} (h : Heap) (t : Z) :
  one_countdown h ->
  PM.time (pomodoroManager h) = Int t ->
  0 < t ->
  let hp := heap_after PomodoroManager.pause h in
  let hs := heap_after PomodoroManager.start hp in
  PM.time (pomodoroManager hp) = Int t
  /\ PM.currentMode (pomodoroManager hp) = PM.currentMode (pomodoroManager h)
  /\ PM.stats (pomodoroManager hp) = PM.stats (pomodoroManager h)
  /\ PM.isRunning (pomodoroManager hp) = false
  /\ (forall handle, PomodoroManager.tick handle hp = (Normal tt, hp))
  /\ PM.isRunning (pomodoroManager hs) = true
  /\ PM.time (pomodoroManager hs) = Int t
  /\ (exists handle,
        PM.interval (pomodoroManager hs) = Some handle
        /\ PM.time (pomodoroManager (heap_after (PomodoroManager.tick handle) hs))
           = Int (t - 1)).
Proof.
  intros Hone Ht Hpos hp hs.
  destruct (pause_after h Hone) as (Hpt & _ & Hpm).
  fold hp in Hpt, Hpm.
  assert (Hr : PM.isRunning (pomodoroManager hp) = false) by (by rewrite Hpm).
  assert (Htp : PM.time (pomodoroManager hp) = Int t) by (by rewrite Hpm).
  split; [exact Htp|]. split; [by rewrite Hpm|]. split; [by rewrite Hpm|].
  split; [exact Hr|]. split.
  { intros handle. rewrite tick_run, Hpt.
    by rewrite bool_decide_eq_false_2 by set_solver. }
  assert (Hhs : hs = with_pomodoroManager
                       (PomodoroManager.set_interval (Some (nextTimer hp)))
                       (with_timers (fun s => {[nextTimer hp]} ∪ s) S
                          (with_pomodoroManager (PomodoroManager.set_isRunning true) hp))).
  { subst hs. unfold heap_after. by rewrite start_run', Hr. }
  rewrite Hhs. hsimpl. split; [reflexivity|]. split; [exact Htp|].
  exists (nextTimer hp). split; [reflexivity|].
  unfold heap_after. rewrite tick_run. hsimpl.
  rewrite bool_decide_eq_true_2 by set_solver. rewrite Htp. cbn [Num.gt Num.sub].
  destruct (Z.ltb_spec 0 t); [reflexivity | lia].
Qed.

(** A running focus period with ninety seconds left is paused and started
    again: the ninety seconds are kept, and the first firing of the new
    interval 2 leaves eighty-nine. *)
Lemma pause_stops_and_start_resumes_witness :
  let h := with_pomodoroManager (PomodoroManager.set_time (Int 90)) Examples.focused in
  PM.time (pomodoroManager (heap_after PomodoroManager.pause h))
  = Int 90
  /\ PM.time (pomodoroManager
       (heap_after (PomodoroManager.tick (host := IntegerHost.host) 2%nat)
          (heap_after PomodoroManager.start
             (heap_after PomodoroManager.pause h)))) = Int 89.
Proof.
  intros h.
  destruct (pause_stops_and_start_resumes (host := IntegerHost.host) h 90)
    as (Hp & _ & _ & _ & _ & _ & _ & handle & Hh & Ht);
    [exists 1%nat; split; reflexivity | reflexivity | lia |].
  split; [exact Hp|]. vm_compute in Hh. injection Hh as <-. exact Ht.
Defined.

(** X17.  As long as every mode switch comes from a mode button, which
    passes the duration that the table of modes gives for the mode, the
    time that is left is a whole number of seconds between zero and the
    duration of the current mode, after every sequence of timer
    operations. *)
Theorem time_left_stays_within_the_mode {host : Host}
    (ops : list timer_op) (h : Heap) :
  Forall from_page ops ->
  within_default h ->
  within_default (heap_after (run_ops ops) h).
Proof.
  intros Hops. revert h. induction Hops as [|op ops Hop _ IH]; intros h Hin; [exact Hin|].
  rewrite run_ops_heap_cons. apply IH. by apply run_op_within_default.
Qed.

(** On a new page: the short-break button, start, two firings of the
    interval, pause; 298 of the 300 seconds are left. *)
Lemma time_left_stays_within_the_mode_witness :
  exists t,
    PM.time (pomodoroManager
       (heap_after (run_ops (host := IntegerHost.host)
                      [OpSetMode short (VNum (Int 5)); OpStart; OpTick 1%nat;
                       OpTick 1%nat; OpPause]) Examples.fresh)) = Int t
    /\ 0 <= t <= 300.
Proof.
  destruct (time_left_stays_within_the_mode (host := IntegerHost.host)
              [OpSetMode short (VNum (Int 5)); OpStart; OpTick 1%nat;
               OpTick 1%nat; OpPause] Examples.fresh) as (t & Ht & Hrange).
  - repeat constructor.
  - exists 1500. split; [reflexivity | simpl; lia].
  - exists t. split; [exact Ht | exact Hrange].
Defined.

Section Reload.
Context {host : Host}.

Lemma completed_has_the_counters s0 k v :
  PM.stats PomodoroManager.initial !! k = Some v ->
  is_Some (completed s0 !! k).
Proof.
  unfold completed, incr_prop, set_prop. cbn [PM.stats PomodoroManager.initial].
  intros Hk. apply lookup_insert_Some in Hk as [[<- _]|[_ Hk]].
  { rewrite lookup_insert_ne by done. rewrite lookup_insert_ne by done.
    rewrite lookup_insert_ne by done. rewrite lookup_insert_eq. eauto. }
  apply lookup_insert_Some in Hk as [[<- _]|[_ Hk]].
  { rewrite lookup_insert_ne by done. rewrite lookup_insert_ne by done.
    rewrite lookup_insert_eq. eauto. }
  apply lookup_insert_Some in Hk as [[<- _]|[_ Hk]].
  { rewrite lookup_insert_eq. eauto. }
  apply lookup_insert_Some in Hk as [[<- _]|[_ Hk]]; [|done].
  rewrite lookup_insert_ne by done. rewrite lookup_insert_eq. eauto.
Qed.

Lemma spread_completed s0 :
  spread (PM.stats PomodoroManager.initial) (VObj (completed s0)) = completed s0.
Proof.
  unfold spread. cbn [own_props]. apply map_eq. intros k.
  rewrite lookup_union.
  destruct (completed s0 !! k) as [v|] eqn:Hk.
  - by destruct (PM.stats PomodoroManager.initial !! k).
  - destruct (PM.stats PomodoroManager.initial !! k) as [v|] eqn:Hi; [|done].
    destruct (completed_has_the_counters s0 k v Hi) as [w Hw]. congruence.
Qed.

Lemma Storage_set_accepted key v h text :
  available (localStorage h) = true ->
  JSON_stringify v = Normal (Some text) ->
  accepts (localStorage h) (items (localStorage h)) key text = true ->
  localStorage (heap_after (Storage.set key v) h) = LS.put key text (localStorage h).
Proof.
  intros Ha Hs Hq.
  unfold heap_after, Storage.set, try_catch, bind, LS.access, LS.setItem,
    Console.error, modify, lift.
  rewrite Ha. simpl. rewrite Hs. simpl. rewrite Hq. reflexivity.
Qed.

End Reload.

(** X18.  The stats survive a reload of the page: when a focus period
    ends, the write of the stats record is accepted and the host reads the
    written text back as that record, the constructor of the next page,
    which starts from the counters at zero and finds that storage area,
    ends with the stats record that [complete] left. *)
Theorem stats_survive_a_reload {host : Host} (h next : Heap) (text : string) :
  PM.currentMode (pomodoroManager h) = focus ->
  available (localStorage h) = true ->
  JSON_stringify (VObj (completed (PM.stats (pomodoroManager h)))) = Normal (Some text) ->
  accepts (localStorage h) (items (localStorage h)) StorageKeys.POMODORO_STATS text = true ->
  text <> "" ->
  JSON_parse text = Normal (VObj (completed (PM.stats (pomodoroManager h)))) ->
  localStorage next = localStorage (heap_after PomodoroManager.complete h) ->
  outcome PomodoroManager.constructor next = Normal tt
  /\ PM.stats (pomodoroManager (heap_after PomodoroManager.constructor next))
     = PM.stats (pomodoroManager (heap_after PomodoroManager.complete h)).
Proof.
  intros Hm Ha Hs Hq Hne Hp Hnext.
  destruct (complete_focus h Hm) as (_ & Hstats & _ & _ & _ & Hls).
  rewrite Hstats. rewrite Hls in Hnext.
  rewrite (Storage_set_accepted _ _ _ _ Ha Hs Hq) in Hnext.
  set (start := with_pomodoroManager (fun _ => PomodoroManager.initial) next).
  assert (Hsaved : outcome (Storage.get StorageKeys.POMODORO_STATS) start
                   = Normal (VObj (completed (PM.stats (pomodoroManager h))))).
  { rewrite Storage_get_outcome. subst start. hsimpl. rewrite Hnext.
    unfold LS.put. cbn [available items]. rewrite Ha, lookup_insert_eq.
    destruct (String.eqb_spec text ""); [done|]. by rewrite Hp. }
  destruct (load_run start _ Hsaved) as (h' & Hrun & Hst & _).
  unfold outcome, heap_after, PomodoroManager.constructor.
  rewrite bind_modify. fold start. rewrite Hrun. cbn [fst snd].
  split; [reflexivity|]. rewrite Hst. cbn [ToBoolean]. subst start. hsimpl.
  apply spread_completed.
Qed.

(** The fourth focus period ends on a page whose storage takes the write;
    the constructor of the page that is loaded next, run on the heap that
    the period left, starts with pomodoroCount 4. *)
Lemma stats_survive_a_reload_witness :
  stat "pomodoroCount"
    (heap_after (PomodoroManager.constructor (host := IntegerHost.host))
       (heap_after (PomodoroManager.complete (host := IntegerHost.host))
          Examples.focused)) = Some 4.
Proof.
  destruct (stats_survive_a_reload (host := IntegerHost.host) Examples.focused
              (heap_after (PomodoroManager.complete (host := IntegerHost.host))
                 Examples.focused)
              (default "" (match JSON_stringify (Host := IntegerHost.host)
                                   (VObj (completed (host := IntegerHost.host)
                                            (PM.stats (pomodoroManager Examples.focused))))
                           with Normal t => t | Throw _ => None end)))
    as [_ Hstats].
  - reflexivity.
  - reflexivity.
  - vm_compute. reflexivity.
  - vm_compute. reflexivity.
  - vm_compute. discriminate.
  - vm_compute. reflexivity.
  - reflexivity.
  - unfold stat. rewrite Hstats. vm_compute. reflexivity.
Defined.

(** X19.  [UserManager.init] never throws and changes neither the storage
    area nor the managers.  It returns the user it started with, unless
    storage holds an object with a truthy username, which it returns
    instead; with storage denied, nothing under the user key, an empty
    text or a text that does not parse, it returns the user it started
    with. *)
Theorem init_prefers_a_stored_user {host : Host} (currentUser : value) (h : Heap) :
  exists user,
    outcome (UserManager.init currentUser) h = Normal user
    /\ (user = currentUser
        \/ exists props,
             user = VObj props
             /\ outcome (Storage.get StorageKeys.USER) h = Normal user
             /\ ToBoolean (get_prop props "username") = true)
    /\ (forall props,
          outcome (Storage.get StorageKeys.USER) h = Normal (VObj props) ->
          ToBoolean (get_prop props "username") = true ->
          user = VObj props)
    /\ (available (localStorage h) = false
        \/ items (localStorage h) !! StorageKeys.USER = None
        \/ items (localStorage h) !! StorageKeys.USER = Some ""
        \/ (exists text e, items (localStorage h) !! StorageKeys.USER = Some text
                           /\ JSON_parse text = Throw e) ->
        user = currentUser)
    /\ localStorage (heap_after (UserManager.init currentUser) h) = localStorage h
    /\ pomodoroManager (heap_after (UserManager.init currentUser) h) = pomodoroManager h
    /\ taskManager (heap_after (UserManager.init currentUser) h) = taskManager h
    /\ flashcardManager (heap_after (UserManager.init currentUser) h)
       = flashcardManager h.
Proof.
  pose proof (Storage_get_outcome h StorageKeys.USER) as Hout.
  destruct (Storage_get_frame StorageKeys.USER h) as (Fl & Fp & Ft & Ff & _).
  set (stored := if available (localStorage h) then _ else _) in Hout.
  assert (Hnull : available (localStorage h) = false
        \/ items (localStorage h) !! StorageKeys.USER = None
        \/ items (localStorage h) !! StorageKeys.USER = Some ""
        \/ (exists text e, items (localStorage h) !! StorageKeys.USER = Some text
                           /\ JSON_parse text = Throw e) ->
        stored = VNull).
  { subst stored. intros [Ha | [Hi | [Hi | (text & e & Hi & Hp)]]].
    - by rewrite Ha.
    - rewrite Hi. by destruct (available _).
    - rewrite Hi. by destruct (available _).
    - rewrite Hi, Hp. destruct (available _); [|done].
      by destruct (String.eqb text ""). }
  clearbody stored.
  assert (Hrun : UserManager.init currentUser h
                 = (Normal (if ToBoolean stored
                               && ToBoolean (UserManager.username_of stored)
                            then stored else currentUser),
                    heap_after (Storage.get StorageKeys.USER) h)).
  { unfold UserManager.init, try_catch, UserManager.warn, bind.
    rewrite Storage_get_total, Hout. by destruct (_ && _). }
  assert (Ho : outcome (UserManager.init currentUser) h
               = Normal (if ToBoolean stored
                            && ToBoolean (UserManager.username_of stored)
                         then stored else currentUser))
    by (unfold outcome; by rewrite Hrun).
  assert (Hh : heap_after (UserManager.init currentUser) h
               = heap_after (Storage.get StorageKeys.USER) h)
    by (unfold heap_after at 1; by rewrite Hrun).
  rewrite Ho, Hh, Hout. clear Hrun Ho Hh.
  destruct (ToBoolean stored && ToBoolean (UserManager.username_of stored)) eqn:Hb.
  - apply andb_true_iff in Hb as [Hs Hu].
    destruct stored as [| | | | | |props]; try discriminate Hu.
    exists (VObj props). split; [reflexivity|]. split; [right; eauto|].
    split; [intros props' [= <-] _; reflexivity|].
    split; [intros Hc; by specialize (Hnull Hc)|]. done.
  - exists currentUser. split; [reflexivity|]. split; [by left|].
    split; [|done].
    intros props [= ->] Hu. cbn [ToBoolean UserManager.username_of] in Hb.
    rewrite Hu in Hb. discriminate.
Qed.

(** X21.  After the click on the button of a mode, [reset] leaves the
    time as the button set it: the button passes the duration of the
    table of modes, which is the one that [reset] restores. *)
Theorem reset_after_a_mode_button_keeps_the_time {host : Host} (m : mode) (h : Heap) :
  let clicked := heap_after (App.onModeButton m) h in
  PM.currentMode (pomodoroManager clicked) = m
  /\ PM.time (pomodoroManager clicked) = Int (PM.modes m * 60)
  /\ PM.time (pomodoroManager (heap_after PomodoroManager.reset clicked))
     = PM.time (pomodoroManager clicked)
  /\ PM.currentMode (pomodoroManager (heap_after PomodoroManager.reset clicked)) = m
  /\ PM.isRunning (pomodoroManager (heap_after PomodoroManager.reset clicked)) = false.
Proof.
  intros clicked. subst clicked. unfold heap_after, App.onModeButton.
  rewrite setMode_run. cbn [snd]. rewrite reset_run', pause_run. cbn [snd]. hsimpl.
  destruct (PM.interval (pomodoroManager h)); hsimpl; done.
Qed.
